(** * AutoViewScript: remote job trigger, archive and retention service

  A shallow embedding of [down_zip.py] (class [FileManager]: the Archive
  Manager and the Retention Manager) and of [server_down.py]
  ([RemoteControlHandler]: the Control Server and the Job Runner thread),
  followed by the properties of the specification that concern them and
  by further properties of the same code.

  Python code that touches the file system, the console, the socket or a
  child process is written in a state-and-exception monad [Py] over a
  record [World]; an exception leaves the effects performed before it in
  place, as in Python. What the environment may refuse the program (a
  file held open, a file that cannot be read or that [zipfile] does not
  accept, a job that cannot be started or does not end) is part of the
  world, so that every [except] branch of the source can be reached. *)

From Stdlib Require Import ZArith Lia Ascii String.
From Stdlib.Init Require Import Byte.
From Equations Require Import Equations.
From stdpp Require Import gmap strings list.

Open Scope string_scope.
Open Scope Z_scope.
Open Scope list_scope.

Set Warnings "-register-all".

(* ===================================================================== *)
(** * Paths *)
(* ===================================================================== *)

Module Path.

(** The three folders the program works in. They are distinct directories,
    so a path is a root together with the components below it:
    - [ZipsDir]: the archive folder [zips_path];
    - [DesktopDir]: [os.path.join(os.path.expanduser("~"), "Desktop")];
    - [VenvScripts]: the folder [venv_path] of the virtual environment. *)
Inductive root := ZipsDir | DesktopDir | VenvScripts.

Record path := Path { proot : root; rel : list string }.

Definition os_sep : string := String (ascii_of_nat 92) EmptyString.

Fixpoint join_with (sep : string) (cs : list string) : string :=
  match cs with
  | [] => EmptyString
  | [c] => c
  | c :: rest => c +:+ sep +:+ join_with sep rest
  end.

(** [os.path.join(p, name)] for a plain file or folder name. *)
Definition os_path_join (p : path) (name : string) : path :=
  Path (proot p) (rel p ++ [name]).

(** [os.path.dirname(p)]. *)
Definition os_path_dirname (p : path) : path :=
  Path (proot p) (removelast (rel p)).

(** The absolute components of a root; [home] is [expanduser("~")]. *)
Definition root_abs (home : list string) (r : root) : list string :=
  match r with
  | ZipsDir => ["D:"; "pyCharmProject"; "AutoViewScript"; "zip"]
  | DesktopDir => home ++ ["Desktop"]
  | VenvScripts => ["D:"; "pyCharmProject"; "AutoViewScript"; ".venv"; "Scripts"]
  end.

Definition abs_components (home : list string) (p : path) : list string :=
  root_abs home (proot p) ++ rel p.

(** The text of a path, as Python prints it. *)
Definition render (home : list string) (p : path) : string :=
  join_with os_sep (abs_components home p).

(** [ntpath.normcase] on the letters of a component: ASCII lower case. *)
Definition lower_ascii (c : ascii) : ascii :=
  let n := nat_of_ascii c in
  if ((65 <=? n)%nat && (n <=? 90)%nat)%bool then ascii_of_nat (n + 32) else c.

Fixpoint normcase (s : string) : string :=
  match s with
  | EmptyString => EmptyString
  | String c s' => String (lower_ascii c) (normcase s')
  end.

(** The loop of [os.path.relpath] that counts the leading components on
    which [start] and [p] agree (compared after [normcase]). *)
Fixpoint common_len (start p : list string) : nat :=
  match start, p with
  | e1 :: start', e2 :: p' =>
      if String.eqb (normcase e1) (normcase e2) then S (common_len start' p') else O
  | _, _ => O
  end.

(** [os.path.relpath(p, start)] on absolute component lists:
    [[pardir] * (len(start_list) - i) + path_list[i:]], and [curdir] when
    that list is empty. *)
Definition os_path_relpath (p start : list string) : list string :=
  let i := common_len start p in
  let rel_list := replicate (length start - i) ".." ++ drop i p in
  match rel_list with
  | [] => ["."]
  | _ => rel_list
  end.

Definition root_eqb (r s : root) : bool :=
  match r, s with
  | ZipsDir, ZipsDir | DesktopDir, DesktopDir | VenvScripts, VenvScripts => true
  | _, _ => false
  end.

Fixpoint components_eqb (l m : list string) : bool :=
  match l, m with
  | [], [] => true
  | a :: l', b :: m' => String.eqb a b && components_eqb l' m'
  | _, _ => false
  end.

Definition path_eqb (p q : path) : bool :=
  root_eqb (proot p) (proot q) && components_eqb (rel p) (rel q).

End Path.
Import Path.

(* ===================================================================== *)
(** * Decimal formatting and [datetime] *)
(* ===================================================================== *)

Module Fmt.

Definition digit_char (d : Z) : ascii := ascii_of_nat (48 + Z.to_nat d).

(** The [k] low decimal digits of [n], most significant first. *)
Fixpoint digits (k : nat) (n : Z) : list ascii :=
  match k with
  | O => []
  | S k' => digits k' (n / 10) ++ [digit_char (n mod 10)]
  end.

(** Number of decimal digits of [n >= 0] (1 for 0). *)
Fixpoint ndigits_go (fuel : nat) (n : Z) : nat :=
  match fuel with
  | O => 1%nat
  | S f => if n <? 10 then 1%nat else S (ndigits_go f (n / 10))
  end.

Definition ndigits (n : Z) : nat := ndigits_go (S (Z.to_nat (Z.log2 n))) n.

(** ["%0kd" % n] for [n >= 0]; [str(n)] is the case [k = 1]. *)
Definition fmt_d (k : nat) (n : Z) : string :=
  string_of_list_ascii (digits (Nat.max k (ndigits n)) n).

Definition str_Z (z : Z) : string :=
  if z <? 0 then "-" +:+ fmt_d 1 (- z) else fmt_d 1 z.

(** Round-half-even of [a / b] for [0 <= a], [0 < b]. *)
Definition round_half_even (a b : Z) : Z :=
  let q := a / b in
  let r := a mod b in
  if 2 * r <? b then q
  else if b <? 2 * r then q + 1
  else if Z.even q then q else q + 1.

(** [f"{a / b:.1f}"] for integers [0 <= a], [b] a power of two (the
    quotient is then an exact float and the format rounds it half-even). *)
Definition fmt_1f (a b : Z) : string :=
  let t := round_half_even (a * 10) b in
  str_Z (t / 10) +:+ "." +:+ str_Z (t mod 10).

End Fmt.
Import Fmt.

Module Text.

(** The strings of this development hold UTF-8. The code points of a
    text, read off its bytes: [pending] continuation bytes are still to
    come for the code point begun in [acc]. *)
Fixpoint code_points (s : string) (pending : nat) (acc : N) : list N :=
  match s with
  | EmptyString => []
  | String c s' =>
      let b := N_of_ascii c in
      match pending with
      | O =>
          if (b <? 128)%N then b :: code_points s' 0 0
          else if (b <? 224)%N then code_points s' 1 (b - 192)
          else if (b <? 240)%N then code_points s' 2 (b - 224)
          else code_points s' 3 (b - 240)
      | S O => (acc * 64 + (b - 128))%N :: code_points s' 0 0
      | S p => code_points s' p (acc * 64 + (b - 128))%N
      end
  end.

(** [s.encode('latin-1', 'strict')] raises nothing: every code point is
    below 256. *)
Definition latin1 (s : string) : bool :=
  forallb (fun cp => (cp <? 256)%N) (code_points s 0 0).

Definition hex_char (d : N) : ascii :=
  if (d <? 10)%N then ascii_of_N (48 + d) else ascii_of_N (87 + d).

(** The [k] low hexadecimal digits of [n], in lower case. *)
Fixpoint hex (k : nat) (n : N) : string :=
  match k with
  | O => EmptyString
  | S k' => hex k' (n / 16) +:+ String (hex_char (n mod 16)) EmptyString
  end.

(** The number of code points at the head of [cps] that Latin-1 lacks. *)
Fixpoint unencodable_run (cps : list N) : nat :=
  match cps with
  | cp :: rest => if (256 <=? cp)%N then S (unencodable_run rest) else O
  | [] => O
  end.

(** The first run of code points that Latin-1 lacks: where it starts, its
    first code point and its length. *)
Fixpoint first_unencodable (cps : list N) (pos : Z) : option (Z * N * nat) :=
  match cps with
  | [] => None
  | cp :: rest =>
      if (256 <=? cp)%N then Some (pos, cp, unencodable_run cps)
      else first_unencodable rest (pos + 1)
  end.

Definition backslash : ascii := ascii_of_nat 92.

(** [str(e)] for the [UnicodeEncodeError] that encoding [object] raised. *)
Definition unicode_encode_error_text (encoding object : string) : string :=
  match first_unencodable (code_points object 0 0) 0 with
  | Some (start, cp, 1%nat) =>
      "'" +:+ encoding +:+ "' codec can't encode character '"
      +:+ String backslash
            (if (cp <? 65536)%N then "u" +:+ hex 4 cp else "U" +:+ hex 8 cp)
      +:+ "' in position " +:+ str_Z start +:+ ": ordinal not in range(256)"
  | Some (start, _, n) =>
      "'" +:+ encoding +:+ "' codec can't encode characters in position "
      +:+ str_Z start +:+ "-" +:+ str_Z (start + Z.of_nat n - 1)
      +:+ ": ordinal not in range(256)"
  | None => EmptyString
  end.

Fixpoint contains (c : ascii) (s : string) : bool :=
  match s with
  | EmptyString => false
  | String c' s' => Ascii.eqb c' c || contains c s'
  end.

(** The body of [repr(s)] between the quotes: the backslash and the
    quote in use are escaped, control characters are written as escapes;
    the bytes of a character beyond ASCII stay (it is taken as printable,
    as the characters of a file name are). *)
Fixpoint repr_body (quote : ascii) (s : string) : string :=
  match s with
  | EmptyString => EmptyString
  | String c s' =>
      let n := N_of_ascii c in
      let rest := repr_body quote s' in
      if Ascii.eqb c backslash then String backslash (String backslash rest)
      else if Ascii.eqb c quote then String backslash (String quote rest)
      else if (n =? 9)%N then String backslash (String "t" rest)
      else if (n =? 10)%N then String backslash (String "n" rest)
      else if (n =? 13)%N then String backslash (String "r" rest)
      else if ((n <? 32) || (n =? 127))%N then String backslash ("x" +:+ hex 2 n +:+ rest)
      else String c rest
  end.

(** [repr(s)]: in double quotes when [s] has a single quote and no double
    quote, in single quotes otherwise. *)
Definition py_repr (s : string) : string :=
  let dq := ascii_of_nat 34 in
  let quote := if contains "'" s && negb (contains dq s) then dq else "'"%char in
  String quote (repr_body quote s +:+ String quote EmptyString).

(** [str(l)] for a list of strings. *)
Definition str_list (l : list string) : string :=
  "[" +:+ join_with ", " (List.map py_repr l) +:+ "]".

End Text.
Import Text.

Module DateTime.

(** A [datetime] value: its calendar fields, and the POSIX time stamp
    [datetime.timestamp()] gives for it (the conversion goes through the
    local time zone, which the program does not control, so the two views
    are carried side by side). Time stamps are in seconds. *)
Record datetime := {
  year : Z; month : Z; day : Z;
  hour : Z; minute : Z; second : Z; microsecond : Z;
  timestamp : Z
}.

Definition is_leap (y : Z) : bool :=
  (y mod 4 =? 0) && (negb (y mod 100 =? 0) || (y mod 400 =? 0)).

Definition days_in_month (y m : Z) : Z :=
  match m with
  | 2 => if is_leap y then 29 else 28
  | 4 | 6 | 9 | 11 => 30
  | _ => 31
  end.

(** The range checks of the [datetime] constructor. *)
Definition valid_datetime (d : datetime) : Prop :=
  1 <= year d <= 9999 /\ 1 <= month d <= 12 /\
  1 <= day d <= days_in_month (year d) (month d) /\
  0 <= hour d < 24 /\ 0 <= minute d < 60 /\ 0 <= second d < 60 /\
  0 <= microsecond d < 1000000.

Definition fmt_date (sep : string) (d : datetime) : string :=
  fmt_d 4 (year d) +:+ "-" +:+ fmt_d 2 (month d) +:+ "-" +:+ fmt_d 2 (day d)
  +:+ sep +:+
  fmt_d 2 (hour d) +:+ ":" +:+ fmt_d 2 (minute d) +:+ ":" +:+ fmt_d 2 (second d).

(** [datetime.isoformat()]: the fraction is printed only when non-zero. *)
Definition isoformat (d : datetime) : string :=
  if microsecond d =? 0 then fmt_date "T" d
  else fmt_date "T" d +:+ "." +:+ fmt_d 6 (microsecond d).

(** [d.strftime('%Y-%m-%d %H:%M:%S')]. *)
Definition strftime_ymd_hms (d : datetime) : string := fmt_date " " d.

End DateTime.
Import DateTime.

(* ===================================================================== *)
(** * Files, folders and zip archives *)
(* ===================================================================== *)

Module FS.

(** What a job leaves on the Desktop: a tree of folders and regular files.
    The entries of a folder are in the order [os.scandir] lists them. *)
Inductive node :=
| File (data : list byte)
| Dir (entries : list (string * node)).

Fixpoint dirnames (es : list (string * node)) : list string :=
  match es with
  | [] => []
  | (name, Dir _) :: es' => name :: dirnames es'
  | (_, File _) :: es' => dirnames es'
  end.

(** The regular files of a folder. Each name comes with the bytes of its
    file, which is what [zipf.write(file_path, arcname)] reads: entry names
    in a folder are unique, so the file opened by path is the one listed. *)
Fixpoint filenames (es : list (string * node)) : list (string * list byte) :=
  match es with
  | [] => []
  | (name, File data) :: es' => (name, data) :: filenames es'
  | (_, Dir _) :: es' => filenames es'
  end.

(** One [(root, dirs, files)] triple of [os.walk]. *)
Record walk_item := {
  wroot : path;
  wdirs : list string;
  wfiles : list (string * list byte)
}.

(** [os.walk(top)], top-down: the triple of [top], then the walk of each
    sub-folder in turn. Walking something that is not a folder yields
    nothing (the [scandir] error is ignored). *)
Fixpoint os_walk (top : path) (n : node) {struct n} : list walk_item :=
  match n with
  | File _ => []
  | Dir es =>
      {| wroot := top; wdirs := dirnames es; wfiles := filenames es |} ::
      (fix walk_subdirs (es : list (string * node)) : list walk_item :=
         match es with
         | [] => []
         | (name, child) :: es' =>
             os_walk (os_path_join top name) child ++ walk_subdirs es'
         end) es
  end.

(** The node reached from [n] by the components [cs] (first match). *)
Fixpoint assoc_node (c : string) (es : list (string * node)) : option node :=
  match es with
  | [] => None
  | (name, child) :: es' => if String.eqb name c then Some child else assoc_node c es'
  end.

Fixpoint node_at (cs : list string) (n : node) : option node :=
  match cs with
  | [] => Some n
  | c :: cs' =>
      match n with
      | Dir es => match assoc_node c es with
                  | Some child => node_at cs' child
                  | None => None
                  end
      | File _ => None
      end
  end.

Inductive compression := ZIP_STORED | ZIP_DEFLATED.

(** A member of a zip archive. [arcname] is kept as components; the member
    name in the file joins them with ["/"]. *)
Record zip_entry := {
  arcname : list string;
  zdata : list byte
}.

Record archive := {
  zmethod : compression;
  members : list zip_entry
}.

(** The bytes [zipfile] writes for an archive. The format and the deflate
    algorithm belong to the [zipfile] module, not to this program. *)
Class ZipCodec := zip_encode : archive -> list byte.

(** What a file of the archive folder holds: a zip archive written by
    [zipfile], or any other bytes. *)
Inductive content :=
| Zip (a : archive)
| Raw (b : list byte).

Definition bytes_of `{ZipCodec} (c : content) : list byte :=
  match c with
  | Zip a => zip_encode a
  | Raw b => b
  end.

(** What the environment may refuse the program on a file that is there:
    - [read_denied]: the account of the server may not read the file, so
      [open(file, 'rb')] raises [PermissionError];
    - [before_1980]: the file was last modified before 1980, a time the
      zip format cannot hold, so [zipfile] raises [ValueError] on it. *)
Inductive fault := read_denied | before_1980.

(** A file of the archive folder: what it holds, its creation time
    ([os.path.getctime]), and whether another handle is open on it (a
    download in progress, for instance), in which case Windows refuses to
    delete it and [os.remove] raises [PermissionError]. *)
Record zfile := {
  fcontent : content;
  fctime : datetime;
  in_use : bool
}.

End FS.
Import FS.

(* ===================================================================== *)
(** * The world and the monad of Python computations *)
(* ===================================================================== *)

Module Http.

(** [ArchiveEntry]: the dictionary [get_available_files] builds per file.
    [size_mb] is kept in hundredths: [round(size / (1024 * 1024), 2)]. *)
Record file_info := {
  name : string;
  fpath : path;
  size : Z;
  size_mb : Z;
  formatted_size : string;
  created_time : string
}.

Inductive json :=
| JStr (s : string)
| JInt (z : Z)
| JHundredths (z : Z)
| JList (l : list json)
| JObj (fields : list (string * json)).

(** What a handler writes on its connection, call by call. *)
Inductive wire :=
| send_response (code : Z)
| send_header (keyword value : string)
| end_headers
| write_text (s : string)           (* [wfile.write(s.encode('utf-8'))] *)
| write_json (j : json)             (* [wfile.write(json.dumps(j).encode('utf-8'))] *)
| write_page (files : list file_info) (* the HTML of [get_control_page] *)
| write_bytes (b : list byte)
| send_error (code : Z) (message : option string).

End Http.
Import Http.

Record World := {
  home : list string;            (* [os.path.expanduser("~")] *)
  desktop : gmap string node;    (* the entries of the Desktop folder *)
  zips : gmap string zfile;      (* the entries of the folder [zips_path] *)
  venv_python : bool;            (* is there a [python.exe] in [venv_path] *)
  clock : datetime;              (* [datetime.now()] *)
  console : list string;         (* the lines printed so far *)
  wfile : list wire;             (* what the current handler has sent *)
  threads : list string;         (* daemon threads started, by script name *)
  faults : path -> option fault; (* what the environment refuses, file by file *)
  alive : list (list string)     (* the child processes running, by command line *)
}.

Definition set_desktop (f : gmap string node -> gmap string node) (w : World) : World :=
  {| home := home w; desktop := f (desktop w); zips := zips w;
     venv_python := venv_python w; clock := clock w; console := console w;
     wfile := wfile w; threads := threads w;
     faults := faults w; alive := alive w |}.

Definition set_zips (f : gmap string zfile -> gmap string zfile) (w : World) : World :=
  {| home := home w; desktop := desktop w; zips := f (zips w);
     venv_python := venv_python w; clock := clock w; console := console w;
     wfile := wfile w; threads := threads w;
     faults := faults w; alive := alive w |}.

Definition set_console (f : list string -> list string) (w : World) : World :=
  {| home := home w; desktop := desktop w; zips := zips w;
     venv_python := venv_python w; clock := clock w; console := f (console w);
     wfile := wfile w; threads := threads w;
     faults := faults w; alive := alive w |}.

Definition set_wfile (f : list wire -> list wire) (w : World) : World :=
  {| home := home w; desktop := desktop w; zips := zips w;
     venv_python := venv_python w; clock := clock w; console := console w;
     wfile := f (wfile w); threads := threads w;
     faults := faults w; alive := alive w |}.

Definition set_threads (f : list string -> list string) (w : World) : World :=
  {| home := home w; desktop := desktop w; zips := zips w;
     venv_python := venv_python w; clock := clock w; console := console w;
     wfile := wfile w; threads := f (threads w);
     faults := faults w; alive := alive w |}.

Definition set_alive (f : list (list string) -> list (list string)) (w : World) : World :=
  {| home := home w; desktop := desktop w; zips := zips w;
     venv_python := venv_python w; clock := clock w; console := console w;
     wfile := wfile w; threads := threads w;
     faults := faults w; alive := f (alive w) |}.

Definition set_clock (d : datetime) (w : World) : World :=
  {| home := home w; desktop := desktop w; zips := zips w;
     venv_python := venv_python w; clock := d; console := console w;
     wfile := wfile w; threads := threads w;
     faults := faults w; alive := alive w |}.

Definition set_faults (d : path -> option fault) (w : World) : World :=
  {| home := home w; desktop := desktop w; zips := zips w;
     venv_python := venv_python w; clock := clock w; console := console w;
     wfile := wfile w; threads := threads w;
     faults := d; alive := alive w |}.

Module PyMonad.

Inductive exn :=
| TimeoutExpired (cmd : list string) (timeout : Z)
| OSError (msg : string)
| ValueError (msg : string)
| UnicodeEncodeError (encoding object : string).

(** [str(e)]. *)
Definition str_exn (e : exn) : string :=
  match e with
  | TimeoutExpired cmd t =>
      "Command '" +:+ str_list cmd +:+ "' timed out after " +:+ str_Z t +:+ " seconds"
  | OSError msg => msg
  | ValueError msg => msg
  | UnicodeEncodeError encoding object => unicode_encode_error_text encoding object
  end.

Inductive outcome (A : Type) :=
| Return (a : A)
| Raise (e : exn).
Arguments Return {A} a.
Arguments Raise {A} e.

Definition Py (A : Type) : Type := World -> outcome A * World.

#[export] Instance Py_ret : MRet Py := fun A a w => (Return a, w).

#[export] Instance Py_bind : MBind Py := fun A B f m w =>
  match m w with
  | (Return a, w') => f a w'
  | (Raise e, w') => (Raise e, w')
  end.

Definition raise {A} (e : exn) : Py A := fun w => (Raise e, w).

Definition gets {A} (f : World -> A) : Py A := fun w => (Return (f w), w).

Definition modify (f : World -> World) : Py unit := fun w => (Return tt, f w).

(** [try: body  except Exception as e: handler(e)]. Every exception of this
    model derives from [Exception]. *)
Definition try_except {A} (body : Py A) (handler : exn -> Py A) : Py A := fun w =>
  match body w with
  | (Return a, w') => (Return a, w')
  | (Raise e, w') => handler e w'
  end.

(** [for x in l: body(x)], threading the local variables in [acc]. *)
Fixpoint for_in {X A} (l : list X) (body : X -> A -> Py A) (acc : A) : Py A :=
  match l with
  | [] => mret acc
  | x :: l' => acc' ← body x acc; for_in l' body acc'
  end.

Definition print (line : string) : Py unit :=
  modify (set_console (fun c => c ++ [line])).

(** A write on the connection. The client stays connected and takes what
    it is sent, so the write does not fail. *)
Definition send (x : wire) : Py unit :=
  modify (set_wfile (fun o => o ++ [x])).

Definition result {A} (m : Py A) (w : World) : outcome A := fst (m w).
Definition world_after {A} (m : Py A) (w : World) : World := snd (m w).

End PyMonad.
Import PyMonad.

(* ===================================================================== *)
(** * Operating-system and library calls *)
(* ===================================================================== *)

Module Os.
Section WithCodec.
Context {codec : ZipCodec}.

Definition show (p : path) : Py string := gets (fun w => render (home w) p).

(** The [OSError]s of this program; [str(e)] ends in the [repr] of the
    file name. *)
Definition not_found (w : World) (p : path) : exn :=
  OSError ("[WinError 2] The system cannot find the file specified: "
           +:+ py_repr (render (home w) p)).

Definition sharing_violation (w : World) (p : path) : exn :=
  OSError ("[WinError 32] The process cannot access the file because it is being used by another process: "
           +:+ py_repr (render (home w) p)).

Definition permission_denied (w : World) (p : path) : exn :=
  OSError ("[Errno 13] Permission denied: " +:+ py_repr (render (home w) p)).

Definition no_such_file (w : World) (p : path) : exn :=
  OSError ("[Errno 2] No such file or directory: " +:+ py_repr (render (home w) p)).

(** What [zipf.write] raises on a file the environment refuses. *)
Definition refusal (w : World) (p : path) (why : fault) : exn :=
  match why with
  | read_denied => permission_denied w p
  | before_1980 => ValueError "ZIP does not support timestamps before 1980"
  end.

(** The object a path names, when there is one on or below the Desktop. *)
Definition desktop_node (w : World) (cs : list string) : option node :=
  match cs with
  | [] => Some (Dir (map_to_list (desktop w)))
  | c :: cs' => match desktop w !! c with
                | Some n => node_at cs' n
                | None => None
                end
  end.

(** The file a path names, when it is a file of the archive folder. *)
Definition zips_file (w : World) (p : path) : option zfile :=
  match proot p, rel p with
  | ZipsDir, [n] => zips w !! n
  | _, _ => None
  end.

Definition os_path_exists (p : path) : Py bool := gets (fun w =>
  match proot p, rel p with
  | ZipsDir, [] => true
  | ZipsDir, _ => match zips_file w p with Some _ => true | None => false end
  | DesktopDir, cs => match desktop_node w cs with Some _ => true | None => false end
  | VenvScripts, [] => true
  | VenvScripts, [exe] => String.eqb exe "python.exe" && venv_python w
  | VenvScripts, _ => false
  end).

Definition os_path_getsize (p : path) : Py Z := fun w =>
  match zips_file w p with
  | Some f => (Return (Z.of_nat (length (bytes_of (fcontent f)))), w)
  | None => (Raise (not_found w p), w)
  end.

Definition os_path_getctime (p : path) : Py datetime := fun w =>
  match zips_file w p with
  | Some f => (Return (fctime f), w)
  | None => (Raise (not_found w p), w)
  end.

Definition os_remove (p : path) : Py unit := fun w =>
  match proot p, rel p with
  | ZipsDir, [n] =>
      match zips w !! n with
      | Some f => if in_use f then (Raise (sharing_violation w p), w)
                  else (Return tt, set_zips (delete n) w)
      | None => (Raise (not_found w p), w)
      end
  | _, _ => (Raise (not_found w p), w)
  end.

Definition datetime_now : Py datetime := gets clock.

(** [os.walk(p)] for a path below the Desktop. *)
Definition walk (p : path) : Py (list walk_item) := gets (fun w =>
  match proot p with
  | DesktopDir => match desktop_node w (rel p) with
                  | Some n => os_walk p n
                  | None => []
                  end
  | _ => []
  end).

(** [zipfile.ZipFile(p, 'w', method)]: the file is created, or truncated in
    place when it exists. Truncating keeps the file that is there, so its
    creation time and the handles open on it stay. The archive folder
    exists, and the handles that readers keep on an archive (the downloads
    of this server) share writing, so that the file can be opened. On the
    way out of the [with] block, also by an exception, [zipfile] closes the
    archive, which is then a zip file of the members written so far: the
    members the file holds in this model. *)
Definition ZipFile_w (p : path) (method : compression) : Py unit := fun w =>
  match proot p, rel p with
  | ZipsDir, [n] =>
      let empty := Zip {| zmethod := method; members := [] |} in
      let f := match zips w !! n with
               | Some old => {| fcontent := empty; fctime := fctime old; in_use := in_use old |}
               | None => {| fcontent := empty; fctime := clock w; in_use := false |}
               end in
      (Return tt, set_zips (insert n f) w)
  | _, _ => (Raise (not_found w p), w)
  end.

Definition add_member (e : zip_entry) (f : zfile) : zfile :=
  match fcontent f with
  | Zip a => {| fcontent := Zip {| zmethod := zmethod a; members := members a ++ [e] |};
                fctime := fctime f; in_use := in_use f |}
  | Raw _ => f
  end.

(** [zipf.write(file_path, arcname)] on the archive opened at [p]; [data]
    is what [file_path] holds. [zipfile] reads the time stamp of the file
    and refuses one before 1980, then opens the file for reading; either
    may raise before anything of the member is written. *)
Definition zipf_write (p : path) (file_path : path) (arc : list string) (data : list byte)
  : Py unit := fun w =>
  match faults w file_path with
  | Some why => (Raise (refusal w file_path why), w)
  | None =>
      match proot p, rel p with
      | ZipsDir, [n] =>
          (Return tt, set_zips (alter (add_member {| arcname := arc; zdata := data |}) n) w)
      | _, _ => (Raise (not_found w p), w)
      end
  end.

End WithCodec.
End Os.
Import Os.

(* ===================================================================== *)
(** * [down_zip.py]: class [FileManager] *)
(* ===================================================================== *)

Module down_zip.
Section WithCodec.
Context {codec : ZipCodec}.

Definition zips_path : path := Path ZipsDir [].

Definition desktop_path : path := Path DesktopDir [].
Definition contents_folder : path := os_path_join desktop_path "contents".
Definition comments_folder : path := os_path_join desktop_path "comments".

Definition _format_file_size (size_bytes : Z) : string :=
  if size_bytes <? 1024 then str_Z size_bytes +:+ " B"
  else if size_bytes <? 1024 * 1024 then fmt_1f size_bytes 1024 +:+ " KB"
  else if size_bytes <? 1024 * 1024 * 1024 then fmt_1f size_bytes (1024 * 1024) +:+ " MB"
  else fmt_1f size_bytes (1024 * 1024 * 1024) +:+ " GB".

Definition compress_folder (folder_name : string) : Py (bool * string * option path) :=
  match
    (if String.eqb folder_name "contents" then Some (contents_folder, "contents.zip")
     else if String.eqb folder_name "comments" then Some (comments_folder, "comments.zip")
     else None)
  with
  | None => mret (false, "不支持的文件夹: " +:+ folder_name, None)
  | Some (folder_path, zip_name) =>
      let zip_path := os_path_join zips_path zip_name in
      try_except
        (found ← os_path_exists folder_path;
         if negb found then
           shown ← show folder_path;
           mret (false, "文件夹不存在: " +:+ shown, None)
         else
           src ← show folder_path;
           dst ← show zip_path;
           print ("开始压缩文件夹: " +:+ src +:+ " -> " +:+ dst);;
           ZipFile_w zip_path ZIP_DEFLATED;;
           triples ← walk folder_path;
           file_count ←
             for_in (A := Z) triples (fun item file_count =>
               for_in (A := Z) (wfiles item) (fun file file_count =>
                 let file_path := os_path_join (wroot item) (fst file) in
                 h ← gets home;
                 let arc := os_path_relpath
                              (abs_components h file_path)
                              (abs_components h (os_path_dirname folder_path)) in
                 zipf_write zip_path file_path arc (snd file);;
                 mret (file_count + 1)) file_count) 0;
           file_size ← os_path_getsize zip_path;
           let message := "成功压缩: " +:+ zip_name +:+ " (" +:+ str_Z file_count
                          +:+ "个文件, " +:+ _format_file_size file_size +:+ ")" in
           print message;;
           mret (true, message, Some zip_path))
        (fun e =>
           let error_msg := "压缩失败: " +:+ str_exn e in
           print error_msg;;
           mret (false, error_msg, None))
  end.

Definition zip_files : list string := ["contents.zip"; "comments.zip"].

Definition get_available_files : Py (list file_info) :=
  for_in (A := list file_info) zip_files (fun zip_file files =>
    let zip_path := os_path_join zips_path zip_file in
    found ← os_path_exists zip_path;
    if (found : bool) then
      file_size ← os_path_getsize zip_path;
      ctime ← os_path_getctime zip_path;
      mret (files ++ [{| name := zip_file;
                         fpath := zip_path;
                         size := file_size;
                         size_mb := round_half_even (file_size * 100) (1024 * 1024);
                         formatted_size := _format_file_size file_size;
                         created_time := strftime_ymd_hms ctime |}])
    else mret files) [].

Definition cleanup_old_files (days : Z) : Py (Z * string) :=
  try_except
    (now ← datetime_now;
     let cutoff_time := timestamp now - days * 24 * 60 * 60 in
     files ← get_available_files;
     deleted_count ←
       for_in (A := Z) files (fun file_info deleted_count =>
         let file_path := fpath file_info in
         ctime ← os_path_getctime file_path;
         if timestamp ctime <? cutoff_time then
           os_remove file_path;;
           print ("已删除旧文件: " +:+ name file_info);;
           mret (deleted_count + 1)
         else mret deleted_count) 0;
     mret (deleted_count, "清理了 " +:+ str_Z deleted_count +:+ " 个旧文件"))
    (fun e => mret (0, "清理文件时出错: " +:+ str_exn e)).

(** The module-level helpers, on the global [file_manager]. *)
Definition compress_contents := compress_folder "contents".
Definition compress_comments := compress_folder "comments".
Definition get_downloadable_files := get_available_files.
Definition cleanup_files := cleanup_old_files 7.

End WithCodec.
End down_zip.

(* ===================================================================== *)
(** * [server_down.py] *)
(* ===================================================================== *)

Module Str.

(** [s.split(sep)] for a one-character separator. *)
Fixpoint split (sep : ascii) (s : string) : list string :=
  match s with
  | EmptyString => [EmptyString]
  | String c s' =>
      if Ascii.eqb c sep then EmptyString :: split sep s'
      else match split sep s' with
           | h :: t => String c h :: t
           | [] => [String c EmptyString]
           end
  end.

(** [l[-1]] on the result of a split, which is never empty. *)
Definition last_item (l : list string) : string := List.last l EmptyString.

(** [s.startswith(pre)]. *)
Fixpoint startswith (s pre : string) {struct pre} : bool :=
  match pre with
  | EmptyString => true
  | String c pre' =>
      match s with
      | String c' s' => Ascii.eqb c' c && startswith s' pre'
      | EmptyString => false
      end
  end.

(** [os.path.dirname(s)] on the text of a Windows path. *)
Definition os_path_dirname_text (s : string) : string :=
  join_with os_sep (removelast (split (ascii_of_nat 92) s)).

(** [d.get(k)] on a dictionary given by its items. *)
Fixpoint dict_get {V} (d : list (string * V)) (k : string) : option V :=
  match d with
  | [] => None
  | (k', v) :: d' => if String.eqb k' k then Some v else dict_get d' k
  end.

End Str.
Import Str.

Module Subprocess.

(** One run of a job executable, as the server observes it. The job is an
    external program: whether it can be started, how long it runs, what it
    returns and prints, and what it does to the Desktop are its own. *)
Record child := {
  spawn_error : option string;
  duration : Z;
  returncode : Z;
  child_stdout : string;
  child_stderr : string;
  writes : gmap string node -> gmap string node
}.

Record CompletedProcess := {
  cp_returncode : Z;
  stdout : string;
  stderr : string
}.

(** The same run, ending with another exit code. *)
Definition exits_with (code : Z) (c : child) : child :=
  {| spawn_error := spawn_error c; duration := duration c; returncode := code;
     child_stdout := child_stdout c; child_stderr := child_stderr c;
     writes := writes c |}.

(** A [Popen] object: the place of its process among the processes
    running, its command line, and how the child behaves. *)
Record Popen_object := {
  pindex : nat;
  pargs : list string;
  pchild : child
}.

(** [Popen(args, stdout=PIPE, stderr=PIPE, text=True, cwd=cwd)]: starting
    the child may fail with [OSError]; otherwise the child is running. *)
Definition Popen (args : list string) (cwd : option string) (c : child)
  : Py Popen_object := fun w =>
  match spawn_error c with
  | Some msg => (Raise (OSError msg), w)
  | None =>
      (Return {| pindex := length (alive w); pargs := args; pchild := c |},
       set_alive (fun l => l ++ [args]) w)
  end.

(** [process.communicate(timeout=t)]: the child runs until it exits or
    until [t] seconds have passed; what it has done to the Desktop by then
    is [writes]. A child that has exited runs no more; for one that has
    not, [TimeoutExpired] is raised and the child goes on running. *)
Definition communicate (process : Popen_object) (timeout : Z) : Py (string * string) :=
  fun w =>
  let c := pchild process in
  let w' := set_desktop (writes c) w in
  if timeout <? duration c
  then (Raise (TimeoutExpired (pargs process) timeout), w')
  else (Return (child_stdout c, child_stderr c),
        set_alive (delete (pindex process)) w').

(** [process.kill()], followed by the wait for the end of the process. *)
Definition kill (process : Popen_object) : Py unit :=
  modify (set_alive (delete (pindex process))).

(** [subprocess.run(args, capture_output=True, text=True, cwd=cwd,
    timeout=t)]: when [communicate] raises, the child is killed and the
    exception raised again; an exit code other than 0 raises nothing,
    since [check] is not set. *)
Definition subprocess_run (args : list string) (cwd : option string) (timeout : Z)
    (c : child) : Py CompletedProcess :=
  process ← Popen args cwd c;
  output ← try_except (communicate process timeout)
             (fun e => kill process;; raise e);
  mret {| cp_returncode := returncode c;
          stdout := fst output;
          stderr := snd output |}.

End Subprocess.
Import Subprocess.

Module Shutil.

(** [shutil.COPY_BUFSIZE] on Windows. *)
Definition COPY_BUFSIZE : nat := Z.to_nat (1024 * 1024).

(** The reads of [shutil.copyfileobj]: [buf = fsrc.read(len)] until [buf]
    is empty, which it is when nothing remains (or when [len] is 0). *)
Equations? read_chunks (len : nat) (remaining : list byte) : list (list byte)
  by wf (List.length remaining) lt :=
  read_chunks _ [] := [];
  read_chunks O (_ :: _) := [];
  read_chunks (S n) (b :: l) :=
    take (S n) (b :: l) :: read_chunks (S n) (drop (S n) (b :: l)).
Proof.
  rewrite length_drop. simpl. lia.
Qed.

End Shutil.
Import Shutil.

Module server_down.
Section WithCodec.
Context {codec : ZipCodec}.

Definition PORT : Z := 8000.

Definition SCRIPT_PATHS : list (string * string) :=
  [("contents", "D:\AutoViewScript\contents.py");
   ("comments", "D:\AutoViewScript\comments.py")].

Definition venv_path : path := Path VenvScripts [].

Definition dquote : string := String (ascii_of_nat 34) EmptyString.

(** [BaseHTTPRequestHandler.protocol_version], and the end of a line. *)
Definition protocol_version : string := "HTTP/1.0".
Definition CRLF : string :=
  String (ascii_of_nat 13) (String (ascii_of_nat 10) EmptyString).

(** [self.send_error(code, message)]. The status line, which carries the
    message, is encoded with [encode('latin-1', 'strict')] before anything
    of the error is sent: a message outside Latin-1 raises
    [UnicodeEncodeError] there. Without a message the line carries the
    standard phrase of the code. *)
Definition self_send_error (code : Z) (message : option string) : Py unit :=
  match message with
  | None => send (send_error code None)
  | Some text =>
      let line := protocol_version +:+ " " +:+ str_Z code +:+ " " +:+ text +:+ CRLF in
      if latin1 line then send (send_error code message)
      else raise (UnicodeEncodeError "latin-1" line)
  end.

(** The body of the thread [run_script] starts; [c] is how the job started
    by this thread behaves. *)
Definition run_in_thread (script_name script_path : string) (c : child) : Py unit :=
  try_except
    (let python_exe := os_path_join venv_path "python.exe" in
     found ← os_path_exists python_exe;
     if (found : bool) then
       print ("开始执行脚本: " +:+ script_name);;
       exe ← show python_exe;
       result ← subprocess_run [exe; script_path]
                  (Some (os_path_dirname_text script_path)) 300 c;
       print ("脚本 " +:+ script_name +:+ " 执行完成");;
       print ("输出: " +:+ stdout result);;
       compressed ←
         (if String.eqb script_name "contents"
          then down_zip.compress_contents
          else down_zip.compress_comments);
       let '(success, message, zip_path) := compressed in
       print ("压缩结果: " +:+ message);;
       if String.eqb (stderr result) EmptyString then mret tt
       else print ("错误: " +:+ stderr result)
     else
       result ← subprocess_run ["python"; script_path] None 300 c;
       print ("脚本 " +:+ script_name +:+ " 执行完成"))
    (fun e =>
       match e with
       | TimeoutExpired _ _ => print ("脚本 " +:+ script_name +:+ " 执行超时")
       | _ => print ("执行脚本时出错: " +:+ str_exn e)
       end).

(** [thread.start()]: the thread is recorded as started; its body runs
    later, on its own. *)
Definition thread_start (script_name : string) : Py unit :=
  modify (set_threads (fun t => t ++ [script_name])).

Definition run_script (script_name : string) : Py unit :=
  match dict_get SCRIPT_PATHS script_name with
  | Some script_path =>
      thread_start script_name;;
      send (send_response 200);;
      send (send_header "Content-type" "text/plain; charset=utf-8");;
      send end_headers;;
      send (write_text ("已启动 " +:+ script_name +:+ " 脚本，正在分析数据..."))
  | None => self_send_error 404 (Some "Script not found")
  end.

(** [open(file_path, 'rb')]: the file object, as the bytes it has yet to
    give; [PermissionError] when the file may not be read. *)
Definition open_rb (p : path) : Py (list byte) := fun w =>
  match zips_file w p with
  | Some f =>
      match faults w p with
      | Some read_denied => (Raise (permission_denied w p), w)
      | _ => (Return (bytes_of (fcontent f)), w)
      end
  | None => (Raise (no_such_file w p), w)
  end.

(** [shutil.copyfileobj(f, self.wfile)]. *)
Definition copyfileobj (data : list byte) : Py unit :=
  for_in (read_chunks COPY_BUFSIZE data) (fun buf _ => send (write_bytes buf)) tt.

Definition download_file (file_name : string) : Py unit :=
  available_files ← down_zip.get_downloadable_files;
  match List.find (fun f => String.eqb (name f) file_name) available_files with
  | None => self_send_error 404 (Some "File not found")
  | Some file_info =>
      try_except
        (let file_path := fpath file_info in
         let file_size := size file_info in
         send (send_response 200);;
         send (send_header "Content-type" "application/zip");;
         (* [file_name.encode('utf-8').decode('latin-1')]: the same bytes *)
         let encoded_filename := file_name in
         send (send_header "Content-Disposition"
                 ("attachment; filename=" +:+ dquote +:+ encoded_filename +:+ dquote));;
         send (send_header "Content-Length" (str_Z file_size));;
         send end_headers;;
         data ← open_rb file_path;
         copyfileobj data;;
         print ("文件 " +:+ file_name +:+ " 已下载"))
        (fun e => self_send_error 500 (Some ("下载失败: " +:+ str_exn e)))
  end.

Definition cleanup_files : Py unit :=
  cleaned ← down_zip.cleanup_files;
  let '(deleted_count, message) := cleaned in
  send (send_response 200);;
  send (send_header "Content-type" "application/json");;
  send end_headers;;
  send (write_json (JObj [("deleted_count", JInt deleted_count);
                          ("message", JStr message)])).

Definition json_of_file_info (home : list string) (f : file_info) : json :=
  JObj [("name", JStr (name f));
        ("path", JStr (render home (fpath f)));
        ("size", JInt (size f));
        ("size_mb", JHundredths (size_mb f));
        ("formatted_size", JStr (formatted_size f));
        ("created_time", JStr (created_time f))].

Definition do_GET (self_path : string) : Py unit :=
  if String.eqb self_path "/" then
    send (send_response 200);;
    send (send_header "Content-type" "text/html; charset=utf-8");;
    send end_headers;;
    available_files ← down_zip.get_downloadable_files;
    send (write_page available_files)
  else if startswith self_path "/run/" then
    let script_name := last_item (split "/" self_path) in
    run_script script_name
  else if startswith self_path "/download/" then
    let file_name := last_item (split "/" self_path) in
    download_file file_name
  else if String.eqb self_path "/status" then
    send (send_response 200);;
    send (send_header "Content-type" "application/json");;
    send end_headers;;
    now ← datetime_now;
    files ← down_zip.get_downloadable_files;
    h ← gets home;
    send (write_json (JObj [("status", JStr "running");
                            ("timestamp", JStr (isoformat now));
                            ("files", JList (List.map (json_of_file_info h) files))]))
  else if String.eqb self_path "/cleanup" then
    cleanup_files
  else
    self_send_error 404 None.

End WithCodec.
End server_down.

(* ===================================================================== *)
(** * The server as a transition system *)
(* ===================================================================== *)

Module System.
Section WithCodec.
Context {codec : ZipCodec}.

(** What happens, one thing at a time: a request is handled (by a fresh
    handler, whose [wfile] starts empty), a started thread runs its body
    with some behaviour of its job, or time passes. *)
Inductive event :=
| Request (self_path : string)
| ThreadRuns (script_name : string) (c : child)
| Tick (now : datetime).

(** A handler starts with nothing sent. *)
Definition fresh (w : World) : World := set_wfile (fun _ => []) w.

Fixpoint remove_first (x : string) (l : list string) : list string :=
  match l with
  | [] => []
  | y :: l' => if String.eqb x y then l' else y :: remove_first x l'
  end.

Definition step (e : event) (w : World) : World :=
  match e with
  | Request self_path =>
      world_after (server_down.do_GET self_path) (fresh w)
  | ThreadRuns script_name c =>
      match existsb (String.eqb script_name) (threads w),
            dict_get server_down.SCRIPT_PATHS script_name with
      | true, Some script_path =>
          world_after (server_down.run_in_thread script_name script_path c)
                      (set_threads (remove_first script_name) w)
      | _, _ => w
      end
  | Tick now => set_clock now w
  end.

Definition run (es : list event) (w : World) : World :=
  fold_left (fun w e => step e w) es w.

End WithCodec.
End System.
Import System.

(* ===================================================================== *)
(** * Notions used to state the properties *)
(* ===================================================================== *)

Module Iso8601.

(** The calendar fields an ISO 8601 date-time denotes. *)
Record calendar := {
  cyear : Z; cmonth : Z; cday : Z;
  chour : Z; cminute : Z; csecond : Z; cmicrosecond : Z
}.

Definition calendar_of (d : datetime) : calendar :=
  {| cyear := year d; cmonth := month d; cday := day d;
     chour := hour d; cminute := minute d; csecond := second d;
     cmicrosecond := microsecond d |}.

Definition digit_val (c : ascii) : option Z :=
  let n := nat_of_ascii c in
  if ((48 <=? n)%nat && (n <=? 57)%nat)%bool then Some (Z.of_nat (n - 48)) else None.

(** Read exactly [k] decimal digits. *)
Fixpoint read_digits (k : nat) (s : string) (acc : Z) : option (Z * string) :=
  match k with
  | O => Some (acc, s)
  | S k' =>
      match s with
      | String c s' =>
          match digit_val c with
          | Some d => read_digits k' s' (10 * acc + d)
          | None => None
          end
      | EmptyString => None
      end
  end.

Definition expect (c : ascii) (s : string) : option string :=
  match s with
  | String c' s' => if Ascii.eqb c c' then Some s' else None
  | EmptyString => None
  end.

(** An optional fraction of exactly six digits, then the end. *)
Definition read_fraction (s : string) : option Z :=
  match s with
  | EmptyString => Some 0
  | String c s' =>
      if Ascii.eqb c "." then
        match read_digits 6 s' 0 with
        | Some (us, EmptyString) => Some us
        | _ => None
        end
      else None
  end.

Definition in_range (c : calendar) : bool :=
  (1 <=? cmonth c) && (cmonth c <=? 12) &&
  (1 <=? cday c) && (cday c <=? days_in_month (cyear c) (cmonth c)) &&
  (chour c <? 24) && (cminute c <? 60) && (csecond c <? 60).

(** The extended format [YYYY-MM-DDTHH:MM:SS[.ffffff]] of ISO 8601. *)
Definition parse_iso8601 (s : string) : option calendar :=
  '(y, s) ← read_digits 4 s 0;
  s ← expect "-" s;
  '(m, s) ← read_digits 2 s 0;
  s ← expect "-" s;
  '(d, s) ← read_digits 2 s 0;
  s ← expect "T" s;
  '(h, s) ← read_digits 2 s 0;
  s ← expect ":" s;
  '(mi, s) ← read_digits 2 s 0;
  s ← expect ":" s;
  '(sec, s) ← read_digits 2 s 0;
  us ← read_fraction s;
  let c := {| cyear := y; cmonth := m; cday := d; chour := h; cminute := mi;
              csecond := sec; cmicrosecond := us |} in
  if in_range c then Some c else None.

End Iso8601.
Import Iso8601.

Module Json.

Definition field (k : string) (j : json) : option json :=
  match j with
  | JObj fields => dict_get fields k
  | _ => None
  end.

Definition string_field (k : string) (j : json) : option string :=
  match field k j with
  | Some (JStr s) => Some s
  | _ => None
  end.

End Json.

(** The path [cs] below [top]. *)
Definition below (top : path) (cs : list string) : path :=
  Path (proot top) (rel top ++ cs).

(** [file_under tree cs data]: [tree] has a regular file holding [data] at
    the relative path [cs]. *)
Inductive file_under : node -> list string -> list byte -> Prop :=
| file_here es c data :
    In (c, File data) es -> file_under (Dir es) [c] data
| file_below es c sub cs data :
    In (c, Dir sub) es -> file_under (Dir sub) cs data ->
    file_under (Dir es) (c :: cs) data.

(** The member [compress_folder] writes for one file of one [os.walk]
    triple, and the members it writes for a whole walk. *)
Definition member_for (h : list string) (folder_path : path) (item : walk_item)
    (file : string * list byte) : zip_entry :=
  {| arcname := os_path_relpath
                  (abs_components h (os_path_join (wroot item) (fst file)))
                  (abs_components h (os_path_dirname folder_path));
     zdata := snd file |}.

Definition members_for (h : list string) (folder_path : path) (triples : list walk_item)
  : list zip_entry :=
  flat_map (fun item => List.map (member_for h folder_path item) (wfiles item)) triples.

(** The archive of a folder of the Desktop, as [compress_folder] builds it. *)
Definition archive_of_folder (h : list string) (folder_name : string) (tree : node) : archive :=
  let folder_path := os_path_join (Path DesktopDir []) folder_name in
  {| zmethod := ZIP_DEFLATED;
     members := members_for h folder_path (os_walk folder_path tree) |}.

Definition append_members (es : list zip_entry) (f : zfile) : zfile :=
  fold_left (fun f e => add_member e f) es f.

(** The files a walk hands to [zipf.write], in the order of the two loops
    of [compress_folder], each with the triple it comes from. *)
Definition walk_entries (triples : list walk_item)
  : list (walk_item * (string * list byte)) :=
  flat_map (fun item => List.map (pair item) (wfiles item)) triples.

Definition entry_path (e : walk_item * (string * list byte)) : path :=
  os_path_join (wroot (fst e)) (fst (snd e)).

(** The entries before the first one the environment refuses, and that
    one with the reason. *)
Fixpoint until_refused (refused : path -> option fault)
    (es : list (walk_item * (string * list byte)))
  : list (walk_item * (string * list byte)) * option (path * fault) :=
  match es with
  | [] => ([], None)
  | e :: es' =>
      match refused (entry_path e) with
      | Some why => ([], Some (entry_path e, why))
      | None =>
          let '(before, stop) := until_refused refused es' in (e :: before, stop)
      end
  end.

Definition zip_name_of (folder_name : string) : string := folder_name +:+ ".zip".

(** No two entries of a folder have the same name, at any depth: what a
    file system guarantees of the folders it holds. *)
Fixpoint distinct (l : list string) : bool :=
  match l with
  | [] => true
  | c :: l' => negb (existsb (String.eqb c) l') && distinct l'
  end.

Fixpoint unique_names (n : node) {struct n} : bool :=
  match n with
  | File _ => true
  | Dir es =>
      distinct (List.map fst es) &&
      (fix all_unique (es : list (string * node)) : bool :=
         match es with
         | [] => true
         | (_, child) :: es' => unique_names child && all_unique es'
         end) es
  end.

(** The places of the files a walk lists: the components of their paths. *)
Definition walked (item : walk_item) : list (list string) :=
  List.map (fun file : string * list byte => rel (wroot item) ++ [fst file]) (wfiles item).

Section Notions.
Context {codec : ZipCodec}.

Definition entry_of (n : string) (f : zfile) : file_info :=
  let file_size := Z.of_nat (length (bytes_of (fcontent f))) in
  {| name := n;
     fpath := os_path_join down_zip.zips_path n;
     size := file_size;
     size_mb := round_half_even (file_size * 100) (1024 * 1024);
     formatted_size := down_zip._format_file_size file_size;
     created_time := strftime_ymd_hms (fctime f) |}.

Definition listing_of (store : gmap string zfile) (names : list string) : list file_info :=
  omap (fun n => entry_of n <$> store !! n) names.

Definition listing (w : World) : list file_info :=
  listing_of (zips w) down_zip.zip_files.

Definition stale (cutoff : Z) (f : zfile) : bool := timestamp (fctime f) <? cutoff.

Definition cutoff_of (w : World) (days : Z) : Z :=
  timestamp (clock w) - days * 24 * 60 * 60.

(** The loop of [cleanup_old_files] as a function of the store: the store
    it leaves, the names it deleted, and the name on which [os.remove]
    raised, if it did. *)
Fixpoint sweep (cutoff : Z) (names : list string) (store : gmap string zfile)
  : gmap string zfile * list string * option string :=
  match names with
  | [] => (store, [], None)
  | n :: names' =>
      match store !! n with
      | Some f =>
          if stale cutoff f then
            if in_use f then (store, [], Some n)
            else let '(store', deleted, failed) := sweep cutoff names' (delete n store) in
                 (store', n :: deleted, failed)
          else sweep cutoff names' store
      | None => sweep cutoff names' store
      end
  end.

Definition deleted_line (n : string) : string := "已删除旧文件: " +:+ n.

Definition after_sweep (store : gmap string zfile) (deleted : list string) (w : World) : World :=
  set_console (fun c => c ++ List.map deleted_line deleted) (set_zips (fun _ => store) w).

Definition sweep_body (cutoff : Z) (info : file_info) (deleted_count : Z) : Py Z :=
  let file_path := fpath info in
  ctime ← os_path_getctime file_path;
  if timestamp ctime <? cutoff then
    os_remove file_path;;
    print ("已删除旧文件: " +:+ name info);;
    mret (deleted_count + 1)
  else mret deleted_count.

Definition is_stale (cutoff : Z) (store : gmap string zfile) (n : string) : bool :=
  match store !! n with
  | Some f => stale cutoff f
  | None => false
  end.

(** What [compress_folder] gets done on the folder [tree]: the members it
    writes, and the file on which [zipf.write] raises, if it does. *)
Definition written (w : World) (folder_name : string) (tree : node)
  : list zip_entry * option (path * fault) :=
  let folder_path := os_path_join down_zip.desktop_path folder_name in
  let '(before, stop) :=
    until_refused (faults w) (walk_entries (os_walk folder_path tree)) in
  (List.map (fun e => member_for (home w) folder_path (fst e) (snd e)) before, stop).

(** [zipfile] accepts every file under the folder: none is refused. *)
Definition accepted (w : World) (folder_name : string) (tree : node) : Prop :=
  forall cs data, file_under tree cs data ->
    faults w (below (os_path_join down_zip.desktop_path folder_name) cs) = None.

(** The file at the archive path of a folder when it holds the members
    [ms]: when a file was there before, its creation time and the handles
    open on it are kept. *)
Definition file_with (w : World) (folder_name : string) (ms : list zip_entry) : zfile :=
  let a := Zip {| zmethod := ZIP_DEFLATED; members := ms |} in
  match zips w !! zip_name_of folder_name with
  | Some old => {| fcontent := a; fctime := fctime old; in_use := in_use old |}
  | None => {| fcontent := a; fctime := clock w; in_use := false |}
  end.

(** The file [compress_folder] leaves at the archive path: it holds the
    archive of the folder; when a file was there before, its creation time
    and the handles open on it are kept. *)
Definition archive_file (w : World) (folder_name : string) (tree : node) : zfile :=
  let a := Zip (archive_of_folder (home w) folder_name tree) in
  match zips w !! zip_name_of folder_name with
  | Some old => {| fcontent := a; fctime := fctime old; in_use := in_use old |}
  | None => {| fcontent := a; fctime := clock w; in_use := false |}
  end.

Definition started_line (w : World) (folder_name : string) : string :=
  "开始压缩文件夹: "
  +:+ render (home w) (os_path_join down_zip.desktop_path folder_name)
  +:+ " -> "
  +:+ render (home w) (os_path_join down_zip.zips_path (zip_name_of folder_name)).

Definition success_message (w : World) (folder_name : string) (tree : node) : string :=
  let a := archive_of_folder (home w) folder_name tree in
  "成功压缩: " +:+ zip_name_of folder_name +:+ " ("
  +:+ str_Z (Z.of_nat (length (members a))) +:+ "个文件, "
  +:+ down_zip._format_file_size (Z.of_nat (length (zip_encode a))) +:+ ")".

Definition missing_message (w : World) (folder_name : string) : string :=
  "文件夹不存在: " +:+ render (home w) (os_path_join down_zip.desktop_path folder_name).

(** The world [compress_folder] leaves when the folder is there. *)
Definition after_compress (w : World) (folder_name : string) (tree : node) : World :=
  set_console (fun c => c ++ [started_line w folder_name; success_message w folder_name tree])
    (set_zips (insert (zip_name_of folder_name) (archive_file w folder_name tree)) w).

(** The message of [compress_folder] when [zipf.write] raised on the file
    [p], and the world it leaves then: the archive holds the members
    written before that file, and two lines are printed. *)
Definition failure_message (w : World) (p : path) (why : fault) : string :=
  "压缩失败: " +:+ str_exn (refusal w p why).

Definition after_failed_compress (w : World) (folder_name : string) (tree : node)
    (p : path) (why : fault) : World :=
  set_console (fun c => c ++ [started_line w folder_name; failure_message w p why])
    (set_zips (insert (zip_name_of folder_name)
                 (file_with w folder_name (fst (written w folder_name tree)))) w).

Definition log (line : string) (w : World) : World :=
  set_console (fun c => c ++ [line]) w.

(** The folder the thread of a script has compressed. *)
Definition folder_of (script_name : string) : string :=
  if String.eqb script_name "contents" then "contents" else "comments".

(** The world after the compress step of a thread, and its message. *)
Definition compress_step (folder_name : string) (w : World) : string * World :=
  match desktop w !! folder_name with
  | Some tree =>
      match snd (written w folder_name tree) with
      | None => (success_message w folder_name tree, after_compress w folder_name tree)
      | Some (p, why) =>
          (failure_message w p why, after_failed_compress w folder_name tree p why)
      end
  | None => (missing_message w folder_name, w)
  end.

(** The world a thread leaves, case by case. *)
Definition thread_outcome (script_name : string) (c : child) (w : World) : World :=
  if venv_python w then
    let w0 := log ("开始执行脚本: " +:+ script_name) w in
    match spawn_error c with
    | Some msg => log ("执行脚本时出错: " +:+ msg) w0
    | None =>
        let w1 := set_desktop (writes c) w0 in
        if 300 <? duration c then log ("脚本 " +:+ script_name +:+ " 执行超时") w1
        else
          let w2 := log ("输出: " +:+ child_stdout c)
                        (log ("脚本 " +:+ script_name +:+ " 执行完成") w1) in
          let w3 := log ("压缩结果: " +:+ fst (compress_step (folder_of script_name) w2))
                        (snd (compress_step (folder_of script_name) w2)) in
          if String.eqb (child_stderr c) EmptyString then w3
          else log ("错误: " +:+ child_stderr c) w3
    end
  else
    match spawn_error c with
    | Some msg => log ("执行脚本时出错: " +:+ msg) w
    | None =>
        let w1 := set_desktop (writes c) w in
        if 300 <? duration c then log ("脚本 " +:+ script_name +:+ " 执行超时") w1
        else log ("脚本 " +:+ script_name +:+ " 执行完成") w1
    end.

(** The Job Runner as the specification words it: the archive of the job
    is written when the job exits with code 0, and on any other exit code
    no archive is written. *)
Definition archives_exactly_on_success
    (script_name script_path : string) (c : child) (w : World) : Prop :=
  let w' := world_after (server_down.run_in_thread script_name script_path c) w in
  (returncode c = 0 ->
     forall tree, writes c (desktop w) !! script_name = Some tree ->
       fcontent <$> zips w' !! zip_name_of script_name
       = Some (Zip (archive_of_folder (home w) script_name tree)))
  /\ (returncode c <> 0 -> zips w' = zips w).

(** What the server may add to the archive folder: nothing but the two
    job archives. *)
Definition adds_only_job_archives (w w' : World) : Prop :=
  forall k, is_Some (zips w' !! k) -> is_Some (zips w !! k) \/ In k down_zip.zip_files.

(** The head of the answer to a download. *)
Definition download_head (file_name : string) (file_size : Z) : list wire :=
  [send_response 200;
   send_header "Content-type" "application/zip";
   send_header "Content-Disposition"
     ("attachment; filename=" +:+ server_down.dquote +:+ file_name +:+ server_down.dquote);
   send_header "Content-Length" (str_Z file_size);
   end_headers].

(** What leaves [do_GET] when a download fails with the exception [e]:
    the [UnicodeEncodeError] of the status line [send_error] was to send. *)
Definition download_failure (e : exn) : exn :=
  UnicodeEncodeError "latin-1"
    (server_down.protocol_version +:+ " 500 下载失败: " +:+ str_exn e +:+ server_down.CRLF).

(** The server may open the archive [n] for reading. *)
Definition readable (w : World) (n : string) : Prop :=
  faults w (os_path_join down_zip.zips_path n) <> Some read_denied.

(** The acknowledgment a trigger is answered with. *)
Definition acknowledgment (script_name : string) : list wire :=
  [send_response 200;
   send_header "Content-type" "text/plain; charset=utf-8";
   end_headers;
   write_text ("已启动 " +:+ script_name +:+ " 脚本，正在分析数据...")].

Fixpoint has_char (c : ascii) (s : string) : bool :=
  match s with
  | EmptyString => false
  | String c' s' => Ascii.eqb c' c || has_char c s'
  end.

(** What became of the store during a computation. *)
Definition deleted_during (w w' : World) (n : string) : Prop :=
  is_Some (zips w !! n) /\ zips w' !! n = None.

(** A download as the specification words it: 404 when no entry has the
    name, and otherwise 200 with the size of the file as [Content-Length]
    and the bytes of the file as body, in bounded chunks. *)
Definition download_as_specified (w : World) (archive_name : string) : Prop :=
  let out := wfile (world_after (server_down.do_GET ("/download/" +:+ archive_name))
                                (fresh w)) in
  match List.find (fun f => String.eqb (name f) archive_name) (listing w) with
  | None => out = [send_error 404 (Some "File not found")]
  | Some _ =>
      exists f chunks,
        zips w !! archive_name = Some f
        /\ out = download_head archive_name (Z.of_nat (length (bytes_of (fcontent f))))
                 ++ List.map write_bytes chunks
        /\ List.concat chunks = bytes_of (fcontent f)
        /\ Forall (fun buf => (0 < length buf <= COPY_BUFSIZE)%nat) chunks
  end.

(** The retention step as the specification words it: the files deleted
    are exactly those created more than [days] days before now, and the
    count returned is the number of files deleted. *)
Definition cleanup_as_specified (days : Z) (w : World) : Prop :=
  let w' := world_after (down_zip.cleanup_old_files days) w in
  (forall n f, zips w !! n = Some f ->
     (zips w' !! n = None <-> timestamp (fctime f) < timestamp (clock w) - days * (24 * 60 * 60)))
  /\ exists message,
       result (down_zip.cleanup_old_files days) w
       = Return (Z.of_nat (base.size (zips w)) - Z.of_nat (base.size (zips w')), message).

(** The number of files of the archive folder that are gone. *)
Definition number_deleted (w w' : World) : Z :=
  Z.of_nat (base.size (zips w)) - Z.of_nat (base.size (zips w')).

(** The answer to [/cleanup] as the specification words it: the key
    [deletedCount] holds the number of archives deleted. *)
Definition cleanup_answer_as_specified (w : World) : Prop :=
  let w' := world_after (server_down.do_GET "/cleanup") (fresh w) in
  exists message,
    wfile w' =
    [send_response 200;
     send_header "Content-type" "application/json";
     end_headers;
     write_json (JObj [("deletedCount", JInt (number_deleted w w'));
                       ("message", JStr message)])].

(** The same under the key the code uses. *)
Definition cleanup_answer_counts_deletions (w : World) : Prop :=
  let w' := world_after (server_down.do_GET "/cleanup") (fresh w) in
  exists message,
    wfile w' =
    [send_response 200;
     send_header "Content-type" "application/json";
     end_headers;
     write_json (JObj [("deleted_count", JInt (number_deleted w w'));
                       ("message", JStr message)])].

(** The rerun of a job as the specification words it: after a successful
    run (the process ends in time with exit code 0 and its output folder is
    there) the archive of the job is the archive of the output folder as
    the run left it. *)
Definition rerun_as_specified
    (script_name script_path : string) (c : child) (w : World) : Prop :=
  let w' := world_after (server_down.run_in_thread script_name script_path c) w in
  spawn_error c = None -> duration c <= 300 -> returncode c = 0 ->
  forall tree, writes c (desktop w) !! script_name = Some tree ->
    fcontent <$> zips w' !! zip_name_of script_name
    = Some (Zip (archive_of_folder (home w) script_name tree)).

(** The archive operation as the specification words it: for an output
    folder that is there, every regular file under it is written into the
    archive of the job, under its path relative to the parent of the
    folder. *)
Definition compress_as_specified
    (w : World) (folder_name : string) (es : list (string * node)) : Prop :=
  let w' := world_after (down_zip.compress_folder folder_name) w in
  desktop w !! folder_name = Some (Dir es) ->
  exists f a,
    zips w' !! zip_name_of folder_name = Some f
    /\ fcontent f = Zip a
    /\ zmethod a = ZIP_DEFLATED
    /\ (forall e, In e (members a) <->
          exists cs data, file_under (Dir es) cs data /\
            e = {| arcname := folder_name :: cs; zdata := data |}).

(** The answer to [/status] as the specification words it: the [files]
    list names exactly the files of the archive folder, and the
    [timestamp] parses as ISO 8601. *)
Definition status_as_specified (w : World) : Prop :=
  exists stamp files,
    wfile (world_after (server_down.do_GET "/status") (fresh w)) =
    [send_response 200;
     send_header "Content-type" "application/json";
     end_headers;
     write_json (JObj [("status", JStr "running");
                       ("timestamp", JStr stamp);
                       ("files", JList files)])]
    /\ is_Some (parse_iso8601 stamp)
    /\ (forall n, In (Some n) (List.map (Json.string_field "name") files)
                  <-> is_Some (zips w !! n)).

End Notions.

(* ===================================================================== *)
(** * Concrete worlds, used to run the model *)
(* ===================================================================== *)

Module Sample.

(** A codec that stores members one after the other, uncompressed; it only
    serves to run the model on the sample worlds below. *)
Definition bytes_of_string (s : string) : list byte :=
  List.map byte_of_ascii (list_ascii_of_string s).

Definition stored_codec : ZipCodec := fun a =>
  List.concat (List.map (fun e => bytes_of_string (join_with "/" (arcname e)) ++ zdata e)
                        (members a)).

Definition at_time (ts : Z) : datetime :=
  {| year := 2024; month := 5; day := 17; hour := 9; minute := 30; second := 0;
     microsecond := 0; timestamp := ts |}.

Definition day_secs : Z := 24 * 60 * 60.

Definition report_v1 : node :=
  Dir [("summary.txt", File [x01; x02; x03]%byte);
       ("charts", Dir [("views.png", File [x10; x11]%byte)])].

Definition report_v2 : node :=
  Dir [("summary.txt", File [x07]%byte)].

Definition base_world : World :=
  {| home := ["C:"; "Users"; "me"];
     desktop := ∅;
     zips := ∅;
     venv_python := true;
     clock := at_time (100 * day_secs);
     console := [];
     wfile := [];
     threads := [];
     faults := fun _ => None;
     alive := [] |}.

Definition archive_made (ts : Z) (held : bool) : zfile :=
  {| fcontent := Zip {| zmethod := ZIP_DEFLATED; members := [] |};
     fctime := at_time ts; in_use := held |}.

(** The example of the specification: now is day 100, archive A was made
    10 days ago and archive B one day ago. *)
Definition retention_world : World :=
  set_zips (fun _ => <["contents.zip" := archive_made (90 * day_secs) false]>
                     (<["comments.zip" := archive_made (99 * day_secs) false]> ∅))
           base_world.

(** Both archives are 10 days old, and [comments.zip] is being downloaded. *)
Definition locked_world : World :=
  set_zips (fun _ => <["contents.zip" := archive_made (90 * day_secs) false]>
                     (<["comments.zip" := archive_made (90 * day_secs) true]> ∅))
           base_world.

(** The archive folder holds one file, which no job wrote. *)
Definition stray_world : World :=
  set_zips (fun _ => <["backup.zip" := archive_made (90 * day_secs) false]> ∅)
           base_world.

Definition job (code : Z) (secs : Z) (out : node) : child :=
  {| spawn_error := None; duration := secs; returncode := code;
     child_stdout := "done"; child_stderr := EmptyString;
     writes := insert "contents" out |}.

(** The Desktop holds the output of the [contents] job; nothing is archived
    yet. *)
Definition job_done_world : World :=
  set_desktop (insert "contents" report_v1) base_world.

(** The archive folder holds the archive of [report_v1]. *)
Definition archived_world : World :=
  set_zips (insert "contents.zip"
              {| fcontent := Zip (archive_of_folder (home base_world) "contents" report_v1);
                 fctime := at_time (99 * day_secs); in_use := false |})
           base_world.

(** The Desktop of [job_done_world], where [zipfile] does not accept the
    time stamp of [charts\views.png]: the file was last modified before
    1980. *)
Definition refusing_world : World :=
  set_faults (fun p =>
                if path_eqb p (Path DesktopDir ["contents"; "charts"; "views.png"])
                then Some before_1980 else None)
             job_done_world.

(** The archive folder of [archived_world], where the server may not read
    [contents.zip]. *)
Definition unreadable_world : World :=
  set_faults (fun p =>
                if path_eqb p (Path ZipsDir ["contents.zip"])
                then Some read_denied else None)
             archived_world.

(** There is no [python.exe] in the virtual environment. *)
Definition no_venv_world : World :=
  {| home := ["C:"; "Users"; "me"];
     desktop := ∅;
     zips := ∅;
     venv_python := false;
     clock := at_time (100 * day_secs);
     console := [];
     wfile := [];
     threads := [];
     faults := fun _ => None;
     alive := [] |}.

(** No [python.exe] in the virtual environment, and the archive of
    [report_v1] in the archive folder. *)
Definition archived_no_venv_world : World :=
  set_zips (insert "contents.zip"
              {| fcontent := Zip (archive_of_folder (home no_venv_world) "contents" report_v1);
                 fctime := at_time (99 * day_secs); in_use := false |})
           no_venv_world.

(** The [contents] job has left a folder that holds an empty folder and no
    file. *)
Definition empty_output : node := Dir [("charts", Dir [])].

Definition empty_output_world : World :=
  set_desktop (insert "contents" empty_output) base_world.

End Sample.

(* ===================================================================== *)
(** * Running the monad *)
(* ===================================================================== *)

Section MonadFacts.
Context {codec : ZipCodec}.

Lemma bind_run {A B} (m : Py A) (k : A -> Py B) (w : World) :
  (m ≫= k) w = match m w with
               | (Return a, w') => k a w'
               | (Raise e, w') => (Raise e, w')
               end.
Proof. reflexivity. Qed.

Lemma ret_run {A} (a : A) (w : World) : (mret a : Py A) w = (Return a, w).
Proof. reflexivity. Qed.

Lemma gets_run {A} (f : World -> A) w : gets f w = (Return (f w), w).
Proof. reflexivity. Qed.

Lemma print_run line w :
  print line w = (Return tt, set_console (fun c => c ++ [line]) w).
Proof. reflexivity. Qed.

Lemma send_run x w : send x w = (Return tt, set_wfile (fun o => o ++ [x]) w).
Proof. reflexivity. Qed.

Lemma show_run p w : show p w = (Return (render (home w) p), w).
Proof. reflexivity. Qed.

Lemma world_eta (w : World) :
  set_console (fun c => c ++ []) (set_zips (fun _ => zips w) w) = w.
Proof. destruct w; unfold set_console, set_zips; cbn. by rewrite app_nil_r. Qed.

(** What a computation may do to the processes and to what the environment
    refuses: the setters of the other fields leave both alone. *)
Lemma alive_set_console f w : alive (set_console f w) = alive w.
Proof. reflexivity. Qed.

Lemma faults_set_console f w : faults (set_console f w) = faults w.
Proof. reflexivity. Qed.

Lemma faults_set_zips f w : faults (set_zips f w) = faults w.
Proof. reflexivity. Qed.

Lemma set_zips_set_zips f g w : set_zips f (set_zips g w) = set_zips (fun m => f (g m)) w.
Proof. reflexivity. Qed.

Lemma set_zips_ext f g w : f (zips w) = g (zips w) -> set_zips f w = set_zips g w.
Proof. unfold set_zips. by intros ->. Qed.

Lemma set_wfile_set_wfile f g w :
  set_wfile f (set_wfile g w) = set_wfile (fun o => f (g o)) w.
Proof. reflexivity. Qed.

Lemma set_wfile_ext f g w : f (wfile w) = g (wfile w) -> set_wfile f w = set_wfile g w.
Proof. unfold set_wfile. by intros ->. Qed.

(** The calls on the archive folder, the Desktop and the child process. *)

Lemma exists_zip_run n w :
  os_path_exists (os_path_join down_zip.zips_path n) w =
  (Return (match zips w !! n with Some _ => true | None => false end), w).
Proof. reflexivity. Qed.

Lemma getctime_run n w f :
  zips w !! n = Some f ->
  os_path_getctime (os_path_join down_zip.zips_path n) w = (Return (fctime f), w).
Proof. intros E. unfold os_path_getctime, zips_file. cbn. by rewrite E. Qed.

Lemma getsize_run n w f :
  zips w !! n = Some f ->
  os_path_getsize (os_path_join down_zip.zips_path n) w =
  (Return (Z.of_nat (length (bytes_of (fcontent f)))), w).
Proof. intros E. unfold os_path_getsize, zips_file. cbn. by rewrite E. Qed.

Lemma remove_run n w f :
  zips w !! n = Some f ->
  os_remove (os_path_join down_zip.zips_path n) w =
  if in_use f then (Raise (sharing_violation w (os_path_join down_zip.zips_path n)), w)
  else (Return tt, set_zips (delete n) w).
Proof. intros E. unfold os_remove. cbn. by rewrite E. Qed.

Lemma open_rb_run n w f :
  zips w !! n = Some f ->
  server_down.open_rb (os_path_join down_zip.zips_path n) w
  = match faults w (os_path_join down_zip.zips_path n) with
    | Some read_denied =>
        (Raise (permission_denied w (os_path_join down_zip.zips_path n)), w)
    | _ => (Return (bytes_of (fcontent f)), w)
    end.
Proof. intros E. unfold server_down.open_rb, zips_file. cbn. by rewrite E. Qed.

Lemma exists_folder_run (folder_name : string) (w : World) :
  os_path_exists (os_path_join down_zip.desktop_path folder_name) w =
  (Return (match desktop w !! folder_name with Some _ => true | None => false end), w).
Proof.
  unfold os_path_exists, gets. cbn. by destruct (desktop w !! folder_name).
Qed.

Lemma walk_folder_run (folder_name : string) (tree : node) (w : World) :
  desktop w !! folder_name = Some tree ->
  walk (os_path_join down_zip.desktop_path folder_name) w =
  (Return (os_walk (os_path_join down_zip.desktop_path folder_name) tree), w).
Proof. intros E. unfold walk, gets. cbn. by rewrite E. Qed.

Lemma ZipFile_w_run n method w :
  ZipFile_w (os_path_join down_zip.zips_path n) method w =
  (Return tt,
   set_zips (insert n
      (match zips w !! n with
       | Some old => {| fcontent := Zip {| zmethod := method; members := [] |};
                        fctime := fctime old; in_use := in_use old |}
       | None => {| fcontent := Zip {| zmethod := method; members := [] |};
                    fctime := clock w; in_use := false |}
       end)) w).
Proof. reflexivity. Qed.

Lemma zipf_write_run n file_path arc data w :
  zipf_write (os_path_join down_zip.zips_path n) file_path arc data w =
  match faults w file_path with
  | Some why => (Raise (refusal w file_path why), w)
  | None =>
      (Return tt, set_zips (alter (add_member {| arcname := arc; zdata := data |}) n) w)
  end.
Proof. reflexivity. Qed.

Lemma exists_python_run (w : World) :
  os_path_exists (os_path_join server_down.venv_path "python.exe") w
  = (Return (venv_python w), w).
Proof. reflexivity. Qed.

Lemma subprocess_run_run (args : list string) (cwd : option string) (timeout : Z)
    (c : child) (w : World) :
  subprocess_run args cwd timeout c w =
  match spawn_error c with
  | Some msg => (Raise (OSError msg), w)
  | None =>
      if timeout <? duration c
      then (Raise (TimeoutExpired args timeout), set_desktop (writes c) w)
      else (Return {| cp_returncode := returncode c; stdout := child_stdout c;
                      stderr := child_stderr c |}, set_desktop (writes c) w)
  end.
Proof.
  unfold subprocess_run. rewrite bind_run. unfold Popen.
  destruct (spawn_error c) as [msg|]; [reflexivity|].
  rewrite bind_run. unfold try_except, communicate.
  cbn [pchild pargs pindex].
  assert (Hgone :
            set_alive (delete (length (alive w)))
              (set_desktop (writes c) (set_alive (fun l => l ++ [args]) w))
            = set_desktop (writes c) w).
  { unfold set_alive, set_desktop. cbn.
    rewrite (delete_middle (alive w) [] args), app_nil_r. by destruct w. }
  destruct (timeout <? duration c).
  - rewrite bind_run. unfold kill, modify, raise. cbn [pindex]. f_equal. exact Hgone.
  - rewrite ret_run. f_equal. exact Hgone.
Qed.

End MonadFacts.

(** One step of a computation at a time: the bind, then the primitive. *)
Ltac py_run :=
  repeat first [ rewrite bind_run | rewrite send_run | rewrite print_run
               | rewrite ret_run | rewrite gets_run | rewrite show_run
               | progress cbn beta iota ].

(* ===================================================================== *)
(** * The list of archives *)
(* ===================================================================== *)

Section Facts.
Context {codec : ZipCodec}.

(** The loop of [get_available_files]: an entry for each name that is in
    the archive folder, in order. *)
Lemma listing_loop (names : list string) : forall (files : list file_info) (w : World),
  for_in names
    (fun zip_file files =>
       let zip_path := os_path_join down_zip.zips_path zip_file in
       found ← os_path_exists zip_path;
       if (found : bool) then
         file_size ← os_path_getsize zip_path;
         ctime ← os_path_getctime zip_path;
         mret (files ++ [{| name := zip_file;
                            fpath := zip_path;
                            size := file_size;
                            size_mb := round_half_even (file_size * 100) (1024 * 1024);
                            formatted_size := down_zip._format_file_size file_size;
                            created_time := strftime_ymd_hms ctime |}])
       else mret files) files w
  = (Return (files ++ listing_of (zips w) names), w).
Proof.
  induction names as [|n names IH]; intros files w.
  - cbn. by rewrite app_nil_r.
  - cbn [for_in listing_of omap list_omap]. fold (listing_of (zips w) names).
    rewrite bind_run, bind_run, exists_zip_run.
    destruct (zips w !! n) as [f|] eqn:Ef; cbn beta iota.
    + rewrite bind_run, (getsize_run n w f Ef). cbn beta iota.
      rewrite bind_run, (getctime_run n w f Ef). cbn beta iota.
      rewrite ret_run, IH. cbn [fmap option_fmap option_map entry_of].
      by rewrite <- app_assoc.
    + rewrite ret_run, IH. reflexivity.
Qed.

Lemma get_available_files_run (w : World) :
  down_zip.get_available_files w = (Return (listing w), w).
Proof. apply (listing_loop down_zip.zip_files [] w). Qed.

End Facts.

(* ===================================================================== *)
(** * The Retention Manager *)
(* ===================================================================== *)

Section CleanupFacts.
Context {codec : ZipCodec}.

Lemma cleanup_old_files_unfold (days : Z) :
  down_zip.cleanup_old_files days =
  try_except
    (now ← datetime_now;
     files ← down_zip.get_available_files;
     deleted_count ← for_in files (sweep_body (timestamp now - days * 24 * 60 * 60)) 0;
     mret (deleted_count, "清理了 " +:+ str_Z deleted_count +:+ " 个旧文件"))
    (fun e => mret (0, "清理文件时出错: " +:+ str_exn e)).
Proof. reflexivity. Qed.

Lemma after_sweep_delete store deleted n w :
  after_sweep store deleted (set_console (fun c => c ++ [deleted_line n]) (set_zips (delete n) w))
  = after_sweep store (n :: deleted) w.
Proof.
  unfold after_sweep, set_console, set_zips; cbn. by rewrite <- app_assoc.
Qed.

Lemma sweep_loop (cutoff : Z) (names : list string) :
  NoDup names ->
  forall (S0 : gmap string zfile) (w : World) (count : Z),
    (forall n, n ∈ names -> zips w !! n = S0 !! n) ->
    for_in (listing_of S0 names) (sweep_body cutoff) count w =
    match sweep cutoff names (zips w) with
    | (store', deleted, None) =>
        (Return (count + Z.of_nat (length deleted)), after_sweep store' deleted w)
    | (store', deleted, Some n) =>
        (Raise (sharing_violation w (os_path_join down_zip.zips_path n)),
         after_sweep store' deleted w)
    end.
Proof.
  induction 1 as [|n names Hn Hnd IH]; intros S0 w count Hagree.
  - cbn. unfold after_sweep. rewrite world_eta. by rewrite Z.add_0_r.
  - cbn [listing_of omap list_omap sweep].
    rewrite <- (Hagree n) by set_solver.
    destruct (zips w !! n) as [f|] eqn:Ef; cbn [fmap option_fmap option_map].
    2:{ apply IH. intros k Hk. apply Hagree. set_solver. }
    cbn [for_in]. rewrite bind_run.
    unfold sweep_body at 1. rewrite bind_run.
    cbn [entry_of fpath name]. rewrite (getctime_run _ _ _ Ef).
    fold (stale cutoff f).
    destruct (stale cutoff f) eqn:Est.
    2:{ cbn. fold (listing_of S0 names). apply IH. intros k Hk. apply Hagree. set_solver. }
    rewrite !bind_run, (remove_run _ _ _ Ef).
    destruct (in_use f) eqn:Eu.
    { unfold after_sweep. by rewrite world_eta. }
    rewrite bind_run, print_run, ret_run.
    rewrite (IH S0).
    2:{ intros k Hk. cbn. rewrite lookup_delete_ne by set_solver. apply Hagree. set_solver. }
    cbn [zips set_console set_zips].
    destruct (sweep cutoff names (delete n (zips w))) as [[store' deleted] failed].
    fold (deleted_line n). rewrite after_sweep_delete.
    destruct failed as [m|].
    + reflexivity.
    + f_equal. f_equal. cbn [length]. lia.
Qed.

Lemma zip_files_NoDup : NoDup down_zip.zip_files.
Proof.
  unfold down_zip.zip_files. rewrite !NoDup_cons. repeat split.
  - rewrite list_elem_of_singleton. discriminate.
  - apply not_elem_of_nil.
  - apply NoDup_nil_2.
Qed.

Lemma elem_of_cons_ne (k n : string) (names : list string) :
  k <> n -> bool_decide (k ∈ n :: names) = bool_decide (k ∈ names).
Proof. intros Hne. apply bool_decide_ext. rewrite elem_of_cons. tauto. Qed.

(** [cleanup_old_files] is the sweep of the two archive names. *)
Lemma cleanup_old_files_run (days : Z) (w : World) :
  down_zip.cleanup_old_files days w =
  match sweep (cutoff_of w days) down_zip.zip_files (zips w) with
  | (store', deleted, None) =>
      (Return (Z.of_nat (length deleted),
               "清理了 " +:+ str_Z (Z.of_nat (length deleted)) +:+ " 个旧文件"),
       after_sweep store' deleted w)
  | (store', deleted, Some n) =>
      (Return (0, "清理文件时出错: "
                  +:+ str_exn (sharing_violation w (os_path_join down_zip.zips_path n))),
       after_sweep store' deleted w)
  end.
Proof.
  rewrite cleanup_old_files_unfold. unfold try_except.
  rewrite bind_run. unfold datetime_now at 1, gets at 1.
  rewrite bind_run, get_available_files_run, bind_run.
  unfold listing. rewrite (sweep_loop _ _ zip_files_NoDup (zips w) w 0) by done.
  fold (cutoff_of w days).
  destruct (sweep (cutoff_of w days) down_zip.zip_files (zips w)) as [[store' deleted] [n|]].
  - reflexivity.
  - rewrite ret_run. reflexivity.
Qed.

(** A sweep only deletes. *)
Lemma sweep_only_deletes cutoff names :
  forall store store' deleted failed,
    sweep cutoff names store = (store', deleted, failed) ->
    forall k, store' !! k = None \/ store' !! k = store !! k.
Proof.
  induction names as [|n names IH]; intros store store' deleted failed Hs k; cbn in Hs.
  - inversion Hs; subst. by right.
  - destruct (store !! n) as [f|] eqn:Ef; [|by eapply IH].
    destruct (stale cutoff f); [|by eapply IH].
    destruct (in_use f).
    + inversion Hs; subst. by right.
    + destruct (sweep cutoff names (delete n store)) as [[s1 d1] f1] eqn:Es.
      inversion Hs; subst.
      destruct (IH _ _ _ _ Es k) as [Hk|Hk]; [by left|].
      rewrite Hk. destruct (decide (n = k)) as [->|Hne].
      * left. apply lookup_delete_eq.
      * right. by apply lookup_delete_ne.
Qed.

(** When no stale archive is held open, the sweep fails nowhere, deletes
    the stale archives among [names] and nothing else. *)
Lemma sweep_ok cutoff names :
  NoDup names ->
  forall store,
    (forall n f, n ∈ names -> store !! n = Some f ->
                 stale cutoff f = true -> in_use f = false) ->
    exists store',
      sweep cutoff names store = (store', List.filter (is_stale cutoff store) names, None) /\
      (forall k, store' !! k =
                 if (bool_decide (k ∈ names) && is_stale cutoff store k)%bool
                 then None else store !! k).
Proof.
  induction 1 as [|n names Hn Hnd IH]; intros store Hfree.
  - exists store. split; [reflexivity|]. intros k. by rewrite bool_decide_eq_false_2 by set_solver.
  - cbn [sweep List.filter]. unfold is_stale at 1.
    destruct (store !! n) as [f|] eqn:Ef.
    2:{ destruct (IH store) as (store' & Hs & Hl); [intros; eapply Hfree; eauto; set_solver|].
        exists store'. split; [done|]. intros k. rewrite Hl.
        destruct (decide (k = n)) as [->|Hne].
        - unfold is_stale. rewrite Ef. by rewrite !andb_false_r.
        - by rewrite elem_of_cons_ne. }
    destruct (stale cutoff f) eqn:Est.
    2:{ destruct (IH store) as (store' & Hs & Hl); [intros; eapply Hfree; eauto; set_solver|].
        exists store'. split; [done|]. intros k. rewrite Hl.
        destruct (decide (k = n)) as [->|Hne].
        - unfold is_stale. rewrite Ef, Est. by rewrite !andb_false_r.
        - by rewrite elem_of_cons_ne. }
    rewrite (Hfree n f) by (done || set_solver).
    destruct (IH (delete n store)) as (store' & Hs & Hl).
    { intros m g Hm Hg. apply (Hfree m g); [set_solver|].
      rewrite lookup_delete_ne in Hg; [done|set_solver]. }
    exists store'. rewrite Hs. split.
    + f_equal. f_equal. f_equal. apply filter_ext_in_iff. intros m Hm.
      unfold is_stale. rewrite lookup_delete_ne; [done|].
      intros ->. apply Hn. by apply list_elem_of_In.
    + intros k. rewrite Hl. destruct (decide (k = n)) as [->|Hne].
      * rewrite (bool_decide_eq_false_2 (n ∈ names)) by done.
        rewrite bool_decide_eq_true_2 by set_solver.
        unfold is_stale. rewrite Ef, Est. cbn. apply lookup_delete_eq.
      * unfold is_stale. rewrite !lookup_delete_ne by done.
        by rewrite elem_of_cons_ne.
Qed.

(** C6 (as amended). When no archive due for deletion is held open, so
    that no removal raises, [cleanup_old_files days] deletes exactly the
    listed archives ([contents.zip], [comments.zip]) created more than
    [days] days before now, leaves every other file of the store as it
    was, and returns the number of files deleted with the summary
    message. *)
Theorem cleanup_deletes_exactly_the_stale_archives (days : Z) (w : World) :
  (forall n f, In n down_zip.zip_files -> zips w !! n = Some f ->
     timestamp (fctime f) < timestamp (clock w) - days * (24 * 60 * 60) ->
     in_use f = false) ->
  exists deleted : list string,
    down_zip.cleanup_old_files days w
    = (Return (Z.of_nat (length deleted),
               "清理了 " +:+ str_Z (Z.of_nat (length deleted)) +:+ " 个旧文件"),
       world_after (down_zip.cleanup_old_files days) w)
    /\ List.NoDup deleted
    /\ (forall n, In n deleted <->
           In n down_zip.zip_files /\
           exists f, zips w !! n = Some f /\
             timestamp (fctime f) < timestamp (clock w) - days * (24 * 60 * 60))
    /\ (forall n, In n deleted ->
           zips (world_after (down_zip.cleanup_old_files days) w) !! n = None)
    /\ (forall n, ~ In n deleted ->
           zips (world_after (down_zip.cleanup_old_files days) w) !! n = zips w !! n).
Proof.
  intros Hfree.
  set (cutoff := cutoff_of w days).
  assert (Hcut : timestamp (clock w) - days * (24 * 60 * 60) = cutoff)
    by (unfold cutoff, cutoff_of; lia).
  rewrite Hcut in *.
  destruct (sweep_ok cutoff down_zip.zip_files zip_files_NoDup (zips w)) as (store' & Hs & Hl).
  { intros n f Hn Hf Hst. apply (Hfree n f); [by apply list_elem_of_In|done|].
    unfold stale in Hst. lia. }
  exists (List.filter (is_stale cutoff (zips w)) down_zip.zip_files).
  unfold world_after. rewrite cleanup_old_files_run. fold cutoff. rewrite Hs. cbn [snd].
  split; [reflexivity|]. split.
  { apply List.NoDup_filter, NoDup_ListNoDup, zip_files_NoDup. }
  split.
  { intros n. rewrite filter_In. unfold is_stale, stale.
    destruct (zips w !! n) as [f|]; split.
    - intros [Hn Hst]. split; [done|]. exists f. split; [done|lia].
    - intros [Hn (g & [= <-] & Hlt)]. split; [done|lia].
    - intros [_ [=]].
    - intros [_ (g & [=] & _)]. }
  split.
  - intros n [Hn Hst]%filter_In. cbn. rewrite Hl.
    rewrite bool_decide_eq_true_2 by (by apply list_elem_of_In). by rewrite Hst.
  - intros n Hn. cbn. rewrite Hl.
    destruct (bool_decide (n ∈ down_zip.zip_files)) eqn:Ein; [|done].
    apply bool_decide_eq_true_1, list_elem_of_In in Ein.
    destruct (is_stale cutoff (zips w) n) eqn:Est; [|done].
    exfalso. apply Hn. by apply filter_In.
Qed.

(** C10. If [os.remove] raises on an archive due for deletion (it is held
    open), [cleanup_old_files] returns the count 0 with an error message;
    the store has only lost files, nothing is put back; and an archive
    deleted before the failure stays deleted although the count is 0. *)
Theorem cleanup_error_reports_zero_without_rollback
    (days : Z) (w : World) (n : string) (f : zfile) :
  In n down_zip.zip_files ->
  zips w !! n = Some f ->
  timestamp (fctime f) < timestamp (clock w) - days * (24 * 60 * 60) ->
  in_use f = true ->
  let w' := world_after (down_zip.cleanup_old_files days) w in
  (exists reason,
     result (down_zip.cleanup_old_files days) w
     = Return (0, "清理文件时出错: " +:+ reason))
  /\ (forall k, zips w' !! k = None \/ zips w' !! k = zips w !! k)
  /\ (forall f1,
        n = "comments.zip" ->
        zips w !! "contents.zip" = Some f1 ->
        timestamp (fctime f1) < timestamp (clock w) - days * (24 * 60 * 60) ->
        in_use f1 = false ->
        deleted_during w w' "contents.zip").
Proof.
  intros Hn Hf Hlt Hu w'.
  set (cutoff := cutoff_of w days).
  assert (Hst : stale cutoff f = true)
    by (unfold stale, cutoff, cutoff_of; apply Z.ltb_lt; lia).
  subst w'. unfold world_after, result. rewrite cleanup_old_files_run. fold cutoff.
  destruct (sweep cutoff down_zip.zip_files (zips w)) as [[store' deleted] failed] eqn:Es.
  assert (Hfailed : failed <> None /\
            (forall f1, n = "comments.zip" -> zips w !! "contents.zip" = Some f1 ->
               stale cutoff f1 = true -> in_use f1 = false ->
               store' !! "contents.zip" = None)).
  { unfold down_zip.zip_files in Es, Hn. cbn [sweep] in Es.
    destruct Hn as [<-|[<-|[]]].
    - rewrite Hf, Hst, Hu in Es. inversion Es; subst. split; [done|]. intros; discriminate.
    - destruct (zips w !! "contents.zip") as [g|] eqn:Eg.
      + destruct (stale cutoff g) eqn:Eg1; [destruct (in_use g) eqn:Eg2|].
        * inversion Es; subst. split; [done|]. intros f1 _ [= <-] _ Hfree. congruence.
        * rewrite lookup_delete_ne, Hf, Hst, Hu in Es by done.
          inversion Es; subst. split; [done|]. intros. apply lookup_delete_eq.
        * rewrite Hf, Hst, Hu in Es. inversion Es; subst. split; [done|].
          intros f1 _ [= <-] Hs1 _. congruence.
      + rewrite Hf, Hst, Hu in Es. inversion Es; subst. split; [done|]. intros; discriminate. }
  destruct Hfailed as [Hsome Hdel].
  destruct failed as [m|]; [|done]. cbn [fst snd].
  split; [eexists; reflexivity|]. split.
  - intros k. cbn. eapply sweep_only_deletes; eauto.
  - intros f1 -> Hf1 Hlt1 Hu1. split; [by rewrite Hf1|]. cbn.
    apply (Hdel f1); [done|done| |done].
    unfold stale, cutoff, cutoff_of. apply Z.ltb_lt. lia.
Qed.

End CleanupFacts.

Section CleanupRequest.
Context {codec : ZipCodec}.

Lemma do_GET_cleanup : server_down.do_GET "/cleanup" = server_down.cleanup_files.
Proof. reflexivity. Qed.

(** [cleanup_old_files] always returns; it raises nothing. *)
Lemma cleanup_old_files_returns (days : Z) (w : World) :
  exists deleted_count message,
    result (down_zip.cleanup_old_files days) w = Return (deleted_count, message).
Proof.
  unfold result. rewrite cleanup_old_files_run.
  destruct (sweep _ _ _) as [[store' deleted] [n|]]; cbn; eauto.
Qed.

(** A sweep removes one file of the store for each name it reports. *)
Lemma sweep_size cutoff names :
  forall store store' deleted failed,
    sweep cutoff names store = (store', deleted, failed) ->
    base.size store = (base.size store' + length deleted)%nat.
Proof.
  induction names as [|n names IH]; intros store store' deleted failed Hs; cbn in Hs.
  - inversion Hs; subst. cbn. lia.
  - destruct (store !! n) as [f|] eqn:Ef; [|by eapply IH].
    destruct (stale cutoff f); [|by eapply IH].
    destruct (in_use f).
    + inversion Hs; subst. cbn. lia.
    + destruct (sweep cutoff names (delete n store)) as [[s1 d1] f1] eqn:Es.
      inversion Hs; subst.
      apply IH in Es. rewrite map_size_delete, Ef in Es. cbn [length].
      assert (base.size store <> 0%nat)
        by (eapply map_size_ne_0_lookup_2; by rewrite Ef).
      lia.
Qed.

(** A sweep stops when a stale archive among [names] is held open. *)
Lemma sweep_stops cutoff names :
  forall store n f,
    In n names -> store !! n = Some f -> stale cutoff f = true -> in_use f = true ->
    exists store' deleted m, sweep cutoff names store = (store', deleted, Some m).
Proof.
  induction names as [|k names IH]; intros store n f Hn Hf Hst Hu; [destruct Hn|].
  cbn [sweep].
  assert (Hrest : k <> n -> In n names) by (destruct Hn; [congruence|done]).
  destruct (store !! k) as [g|] eqn:Eg.
  - destruct (stale cutoff g) eqn:Egs.
    + destruct (in_use g) eqn:Egu; [by eauto|].
      assert (Hne : k <> n) by (intros ->; congruence).
      destruct (IH (delete k store) n f) as (s1 & d1 & m & Hs); try done.
      { by apply Hrest. }
      { by rewrite lookup_delete_ne. }
      rewrite Hs. eauto.
    + assert (Hne : k <> n) by (intros ->; congruence).
      apply (IH store n f); try done. by apply Hrest.
  - assert (Hne : k <> n) by (intros ->; congruence).
    apply (IH store n f); try done. by apply Hrest.
Qed.

(** C3 (as amended). [GET /cleanup] runs the Retention Manager with the
    7-day window and answers 200 with a JSON object whose keys are
    [deleted_count] and [message], holding the pair the Retention Manager
    returned. When no listed archive due for deletion is held open, so
    that no removal raises, [deleted_count] is the number of archives
    deleted; when one is held open, [deleted_count] is 0, whatever was
    deleted before. *)
Theorem cleanup_request_answer (w : World) :
  let w' := world_after (server_down.do_GET "/cleanup") (fresh w) in
  exists deleted_count message,
    result (down_zip.cleanup_old_files 7) (fresh w) = Return (deleted_count, message) /\
    wfile w' =
      [send_response 200;
       send_header "Content-type" "application/json";
       end_headers;
       write_json (JObj [("deleted_count", JInt deleted_count);
                         ("message", JStr message)])] /\
    zips w' = zips (world_after (down_zip.cleanup_old_files 7) (fresh w)) /\
    ((forall n f, In n down_zip.zip_files -> zips w !! n = Some f ->
        timestamp (fctime f) < timestamp (clock w) - 7 * (24 * 60 * 60) ->
        in_use f = false) ->
     deleted_count = number_deleted w w') /\
    (forall n f, In n down_zip.zip_files -> zips w !! n = Some f ->
        timestamp (fctime f) < timestamp (clock w) - 7 * (24 * 60 * 60) ->
        in_use f = true ->
     deleted_count = 0).
Proof.
  intros w'. subst w'.
  rewrite do_GET_cleanup. unfold server_down.cleanup_files, down_zip.cleanup_files.
  unfold world_after, result, number_deleted. rewrite bind_run.
  rewrite cleanup_old_files_run.
  assert (Hcut : timestamp (clock w) - 7 * (24 * 60 * 60) = cutoff_of (fresh w) 7)
    by (unfold cutoff_of; cbn; lia).
  rewrite Hcut.
  change (zips (fresh w)) with (zips w).
  destruct (sweep (cutoff_of (fresh w) 7) down_zip.zip_files (zips w))
    as [[store' deleted] failed] eqn:Es.
  pose proof (sweep_size _ _ _ _ _ _ Es) as Hsize.
  destruct failed as [m|].
  - eexists _, _. split; [reflexivity|]. py_run. cbn.
    split; [reflexivity|]. split; [reflexivity|]. split; [|done].
    intros Hfree.
    destruct (sweep_ok (cutoff_of (fresh w) 7) down_zip.zip_files zip_files_NoDup (zips w))
      as (s1 & Hs & _).
    { intros n f Hn Hf Hst.
      apply (Hfree n f); [exact (proj1 (list_elem_of_In _ _) Hn)|done|].
      unfold stale in Hst. lia. }
    rewrite Es in Hs. discriminate.
  - eexists _, _. split; [reflexivity|]. py_run. cbn.
    split; [reflexivity|]. split; [reflexivity|]. split; [intros _; lia|].
    intros n f Hn Hf Hlt Hu.
    destruct (sweep_stops (cutoff_of (fresh w) 7) down_zip.zip_files (zips w) n f)
      as (s1 & d1 & m & Hs); try done.
    { unfold stale. apply Z.ltb_lt. lia. }
    rewrite Es in Hs. discriminate.
Qed.

End CleanupRequest.

(* ===================================================================== *)
(** * [isoformat] and ISO 8601 *)
(* ===================================================================== *)

Section IsoFacts.

Lemma append_cons c s t : String c s +:+ t = String c (s +:+ t).
Proof. reflexivity. Qed.

Lemma append_assoc s t u : (s +:+ t) +:+ u = s +:+ (t +:+ u).
Proof. induction s as [|c s IH]; [reflexivity|]. by rewrite !append_cons, IH. Qed.

Lemma string_of_list_ascii_snoc l c t :
  string_of_list_ascii (l ++ [c]) +:+ t = string_of_list_ascii l +:+ String c t.
Proof. induction l as [|x l IH]; [reflexivity|]. cbn. by rewrite !append_cons, IH. Qed.

Lemma digit_val_char d : 0 <= d < 10 -> digit_val (digit_char d) = Some d.
Proof.
  intros Hd.
  assert (d = 0 \/ d = 1 \/ d = 2 \/ d = 3 \/ d = 4 \/ d = 5 \/ d = 6 \/ d = 7 \/ d = 8 \/ d = 9)
    as Hc by lia.
  repeat (destruct Hc as [->|Hc]; [reflexivity|]). by subst.
Qed.

(** Reading [S k] digits is reading [k] digits and then one more. *)
Lemma read_digits_S k : forall s acc,
  read_digits (S k) s acc =
  match read_digits k s acc with
  | Some (a, String c s') =>
      match digit_val c with
      | Some d => Some (10 * a + d, s')
      | None => None
      end
  | _ => None
  end.
Proof.
  induction k as [|k IH]; intros s acc.
  - cbn. destruct s as [|c s]; [reflexivity|]. by destruct (digit_val c).
  - change (read_digits (S (S k)) s acc) with
      (match s with
       | String c s' => match digit_val c with
                        | Some d => read_digits (S k) s' (10 * acc + d)
                        | None => None
                        end
       | EmptyString => None
       end).
    destruct s as [|c s]; [reflexivity|]. cbn [read_digits].
    destruct (digit_val c) as [d|]; [|reflexivity].
    apply IH.
Qed.

Lemma read_digits_digits k : forall n acc rest,
  0 <= n ->
  read_digits k (string_of_list_ascii (digits k n) +:+ rest) acc
  = Some (acc * 10 ^ Z.of_nat k + n mod 10 ^ Z.of_nat k, rest).
Proof.
  induction k as [|k IH]; intros n acc rest Hn.
  - cbn. f_equal. f_equal. rewrite Z.mod_1_r. lia.
  - rewrite read_digits_S. cbn [digits].
    rewrite string_of_list_ascii_snoc, IH by (apply Z.div_pos; lia).
    rewrite digit_val_char by (apply Z.mod_pos_bound; lia).
    f_equal. f_equal.
    rewrite Nat2Z.inj_succ, Z.pow_succ_r by lia.
    rewrite (Z.rem_mul_r n 10 (10 ^ Z.of_nat k)) by lia. lia.
Qed.

Lemma ndigits_go_le fuel : forall n k,
  (1 <= k)%nat -> 0 <= n < 10 ^ Z.of_nat k -> (ndigits_go fuel n <= k)%nat.
Proof.
  induction fuel as [|fuel IH]; intros n k Hk Hn; cbn; [lia|].
  destruct (Z.ltb_spec n 10); [lia|].
  destruct k as [|[|k]]; [lia|cbn in Hn; lia|].
  apply le_n_S, IH; [lia|].
  split; [apply Z.div_pos; lia|].
  apply Z.div_lt_upper_bound; [lia|].
  rewrite (Nat2Z.inj_succ (S k)), Z.pow_succ_r in Hn by lia. lia.
Qed.

Lemma fmt_d_digits k n :
  (1 <= k)%nat -> 0 <= n < 10 ^ Z.of_nat k ->
  fmt_d k n = string_of_list_ascii (digits k n).
Proof.
  intros Hk Hn. unfold fmt_d.
  rewrite Nat.max_l; [reflexivity|]. by apply ndigits_go_le.
Qed.

Lemma read_fmt_d k n rest :
  (1 <= k)%nat -> 0 <= n < 10 ^ Z.of_nat k ->
  read_digits k (fmt_d k n +:+ rest) 0 = Some (n, rest).
Proof.
  intros Hk Hn. rewrite fmt_d_digits, read_digits_digits by (done || lia).
  rewrite Z.mod_small by done. f_equal.
Qed.

(** What [isoformat] prints reads back, as ISO 8601, to the fields of the
    [datetime] it was printed from. *)
Lemma parse_isoformat (d : datetime) :
  valid_datetime d -> parse_iso8601 (isoformat d) = Some (calendar_of d).
Proof.
  intros (Hy & Hm & Hd & Hh & Hmi & Hs & Hus).
  assert (Hdim : days_in_month (year d) (month d) <= 31).
  { unfold days_in_month. destruct (month d) as [|[[[[]|[]|]|[[]|[]|]|]|[[[]|[]|]|[[]|[]|]|]|]|];
      try destruct (is_leap _); lia. }
  assert (Hfrac : read_fraction
                    (if microsecond d =? 0 then EmptyString
                     else "." +:+ fmt_d 6 (microsecond d)) = Some (microsecond d)).
  { destruct (Z.eqb_spec (microsecond d) 0) as [->|Hne]; [reflexivity|].
    rewrite append_cons. cbn [read_fraction Ascii.eqb Bool.eqb].
    change ("" +:+ fmt_d 6 (microsecond d)) with (fmt_d 6 (microsecond d)).
    replace (fmt_d 6 (microsecond d)) with (fmt_d 6 (microsecond d) +:+ EmptyString).
    2:{ generalize (fmt_d 6 (microsecond d)). intros s. induction s as [|c s IH]; [reflexivity|].
        by rewrite append_cons, IH. }
    rewrite read_fmt_d by (cbn; lia). reflexivity. }
  assert (Hiso : isoformat d =
                 fmt_d 4 (year d) +:+ "-" +:+ fmt_d 2 (month d) +:+ "-" +:+ fmt_d 2 (day d)
                 +:+ "T" +:+ fmt_d 2 (hour d) +:+ ":" +:+ fmt_d 2 (minute d) +:+ ":"
                 +:+ fmt_d 2 (second d)
                 +:+ (if microsecond d =? 0 then EmptyString
                      else "." +:+ fmt_d 6 (microsecond d))).
  { unfold isoformat, fmt_date. destruct (microsecond d =? 0).
    - repeat f_equal.
      generalize (fmt_d 2 (second d)). intros s. induction s as [|c s IH]; [reflexivity|].
      by rewrite append_cons, <- IH.
    - by rewrite !append_assoc. }
  rewrite Hiso. unfold parse_iso8601.
  repeat first
    [ rewrite read_fmt_d by (cbn; lia)
    | rewrite append_cons
    | progress cbn [mbind option_bind expect Ascii.eqb Bool.eqb]
    | progress change (EmptyString +:+ ?s) with s ].
  rewrite append_cons in Hfrac. change (EmptyString +:+ ?s) with s in Hfrac.
  rewrite Hfrac. cbn [mbind option_bind].
  unfold in_range. cbn [cyear cmonth cday chour cminute csecond].
  replace (1 <=? month d) with true by (symmetry; apply Z.leb_le; lia).
  replace (month d <=? 12) with true by (symmetry; apply Z.leb_le; lia).
  replace (1 <=? day d) with true by (symmetry; apply Z.leb_le; lia).
  replace (day d <=? days_in_month (year d) (month d)) with true by (symmetry; apply Z.leb_le; lia).
  replace (hour d <? 24) with true by (symmetry; apply Z.ltb_lt; lia).
  replace (minute d <? 60) with true by (symmetry; apply Z.ltb_lt; lia).
  replace (second d <? 60) with true by (symmetry; apply Z.ltb_lt; lia).
  reflexivity.
Qed.

End IsoFacts.

(* ===================================================================== *)
(** * [GET /status] *)
(* ===================================================================== *)

Section StatusFacts.
Context {codec : ZipCodec}.

Lemma listing_names (store : gmap string zfile) (names : list string) (n : string) :
  In n (List.map name (listing_of store names)) <-> In n names /\ is_Some (store !! n).
Proof.
  induction names as [|m names IH]; cbn.
  - tauto.
  - destruct (store !! m) as [f|] eqn:Em; cbn; rewrite IH.
    + split.
      * intros [<-|[Hn Hs]]; [split; [by left|by rewrite Em]|split; [by right|done]].
      * intros [[<-|Hn] Hs]; [by left|right; done].
    + split.
      * intros [Hn Hs]. split; [by right|done].
      * intros [[<-|Hn] Hs]; [rewrite Em in Hs; by destruct Hs|done].
Qed.

Lemma json_names (h : list string) (files : list file_info) :
  List.map (Json.string_field "name") (List.map (server_down.json_of_file_info h) files)
  = List.map (fun f => Some (name f)) files.
Proof. induction files as [|f files IH]; [reflexivity|]. cbn. by rewrite IH. Qed.

Lemma do_GET_status_run (w : World) :
  server_down.do_GET "/status" (fresh w) =
  (Return tt,
   set_wfile (fun _ =>
     [send_response 200;
      send_header "Content-type" "application/json";
      end_headers;
      write_json (JObj [("status", JStr "running");
                        ("timestamp", JStr (isoformat (clock w)));
                        ("files", JList (List.map (server_down.json_of_file_info (home w))
                                                  (listing w)))])]) w).
Proof.
  change (server_down.do_GET "/status") with
    (send (send_response 200);;
     send (send_header "Content-type" "application/json");;
     send end_headers;;
     now ← datetime_now;
     files ← down_zip.get_downloadable_files;
     h ← gets home;
     send (write_json (JObj [("status", JStr "running");
                             ("timestamp", JStr (isoformat now));
                             ("files", JList (List.map (server_down.json_of_file_info h) files))]))).
  unfold down_zip.get_downloadable_files, datetime_now.
  py_run. rewrite get_available_files_run. py_run. reflexivity.
Qed.

(** C2 (as amended). [GET /status] answers 200 with a JSON object whose
    [files] list names exactly those of the two job archives
    ([contents.zip], [comments.zip]) that are in the archive folder (other
    files of the folder are not listed), and whose [timestamp] parses as
    ISO 8601, to the current time. *)
Theorem status_lists_the_job_archives_present (w : World) :
  valid_datetime (clock w) ->
  exists stamp files,
    wfile (world_after (server_down.do_GET "/status") (fresh w)) =
    [send_response 200;
     send_header "Content-type" "application/json";
     end_headers;
     write_json (JObj [("status", JStr "running");
                       ("timestamp", JStr stamp);
                       ("files", JList files)])]
    /\ parse_iso8601 stamp = Some (calendar_of (clock w))
    /\ (forall n, In (Some n) (List.map (Json.string_field "name") files)
                  <-> In n down_zip.zip_files /\ is_Some (zips w !! n)).
Proof.
  intros Hvalid.
  exists (isoformat (clock w)),
         (List.map (server_down.json_of_file_info (home w)) (listing w)).
  unfold world_after. rewrite do_GET_status_run. cbn [snd wfile set_wfile].
  split; [reflexivity|]. split; [by apply parse_isoformat|].
  intros n. rewrite json_names. unfold listing. rewrite <- listing_names.
  rewrite !in_map_iff. split.
  - intros (f & [= <-] & Hf). by exists f.
  - intros (f & <- & Hf). by exists f.
Qed.

End StatusFacts.

(* ===================================================================== *)
(** * The Archive Manager *)
(* ===================================================================== *)

Section WalkFacts.

(** Induction on folder trees, with the hypothesis for every entry. *)
Lemma node_tree_ind (P : node -> Prop) :
  (forall data, P (File data)) ->
  (forall es, Forall (fun e => P (snd e)) es -> P (Dir es)) ->
  forall n, P n.
Proof.
  intros Hfile Hdir.
  fix IH 1. intros [data|es]; [apply Hfile|].
  apply Hdir. induction es as [|[c child] es IHes]; constructor; [apply IH|apply IHes].
Qed.

Lemma os_walk_dir (top : path) (es : list (string * node)) :
  os_walk top (Dir es) =
  {| wroot := top; wdirs := dirnames es; wfiles := filenames es |}
  :: flat_map (fun e => os_walk (os_path_join top (fst e)) (snd e)) es.
Proof.
  cbn [os_walk]. f_equal.
  induction es as [|[c child] es IH]; [reflexivity|]. cbn [flat_map fst snd]. by rewrite IH.
Qed.

Lemma in_filenames es c data : In (c, data) (filenames es) <-> In (c, File data) es.
Proof.
  induction es as [|[c' [data'|sub]] es IH]; cbn; [tauto| |].
  - rewrite IH. split; (intros [Heq|Hin]; [left; congruence|by right]).
  - rewrite IH. split; [by right|]. intros [Heq|Hin]; [discriminate|done].
Qed.

Lemma below_join top c cs : below (os_path_join top c) cs = below top (c :: cs).
Proof. unfold below, os_path_join. cbn. by rewrite <- app_assoc. Qed.

(** Every file a walk lists is a regular file of the tree, at the place the
    walk says. *)
Lemma walk_sound (tree : node) : forall top item c data,
  In item (os_walk top tree) -> In (c, data) (wfiles item) ->
  exists cs, wroot item = below top cs /\ file_under tree (cs ++ [c]) data.
Proof.
  induction tree as [data0|es IH] using node_tree_ind; intros top item c data Hitem Hfile.
  - destruct Hitem.
  - rewrite os_walk_dir in Hitem. destruct Hitem as [<-|Hitem].
    + exists []. split.
      * unfold below. cbn. rewrite app_nil_r. by destruct top.
      * cbn. apply file_here. by apply in_filenames.
    + apply in_flat_map in Hitem as ([c' child] & Hin & Hitem). cbn [fst snd] in Hitem.
      rewrite Forall_forall in IH.
      assert (Hchild := IH (c', child) ltac:(by apply list_elem_of_In)). cbn in Hchild.
      destruct (Hchild _ _ _ _ Hitem Hfile) as (cs & Hroot & Hunder).
      exists (c' :: cs). split; [by rewrite <- below_join|].
      destruct child as [data1|sub]; [destruct Hitem|].
      cbn. by apply file_below with sub.
Qed.

(** Every regular file of the tree is listed by the walk. *)
Lemma walk_complete (tree : node) (cs' : list string) (data : list byte) :
  file_under tree cs' data ->
  forall top, exists item cs c,
    cs' = cs ++ [c] /\ In item (os_walk top tree) /\
    wroot item = below top cs /\ In (c, data) (wfiles item).
Proof.
  induction 1 as [es c data Hin|es c sub cs data Hin Hunder IH]; intros top.
  - exists {| wroot := top; wdirs := dirnames es; wfiles := filenames es |}, [], c.
    rewrite os_walk_dir. split; [reflexivity|]. split; [by left|]. split.
    + unfold below. cbn. rewrite app_nil_r. by destruct top.
    + by apply in_filenames.
  - destruct (IH (os_path_join top c)) as (item & cs0 & c0 & -> & Hitem & Hroot & Hfile).
    exists item, (c :: cs0), c0. split; [reflexivity|]. split.
    + rewrite os_walk_dir. right. apply in_flat_map. by exists (c, Dir sub).
    + split; [by rewrite <- below_join|done].
Qed.

Lemma common_len_prefix (d cs : list string) : common_len d (d ++ cs) = length d.
Proof.
  induction d as [|x d IH]; [reflexivity|]. cbn. by rewrite String.eqb_refl, IH.
Qed.

(** A path relative to one of its ancestors is what lies below the
    ancestor. *)
Lemma os_path_relpath_below (d cs : list string) :
  cs <> [] -> os_path_relpath (d ++ cs) d = cs.
Proof.
  intros Hcs. unfold os_path_relpath. rewrite common_len_prefix, Nat.sub_diag.
  rewrite drop_app_length. cbn. by destruct cs.
Qed.

Lemma join_below top cs c : os_path_join (below top cs) c = below top (cs ++ [c]).
Proof. unfold below, os_path_join. cbn. by rewrite <- app_assoc. Qed.

(** The member written for a file at [cs ++ [c]] below the folder is named
    by the folder's name followed by that place. *)
Lemma member_for_below (h : list string) (folder_name : string) (item : walk_item)
    (cs : list string) (c : string) (data : list byte) :
  wroot item = below (os_path_join (Path DesktopDir []) folder_name) cs ->
  member_for h (os_path_join (Path DesktopDir []) folder_name) item (c, data)
  = {| arcname := folder_name :: cs ++ [c]; zdata := data |}.
Proof.
  intros Hroot. unfold member_for. cbn [fst snd]. rewrite Hroot. f_equal.
  unfold abs_components, below, os_path_join, os_path_dirname.
  cbn [proot rel app removelast]. rewrite app_nil_r.
  rewrite os_path_relpath_below; [reflexivity|discriminate].
Qed.

(** The members of the archive of a folder are the regular files of the
    folder, each under the folder's name followed by its place in the
    folder. *)
Lemma archive_members (h : list string) (folder_name : string) (tree : node) (e : zip_entry) :
  In e (members (archive_of_folder h folder_name tree)) <->
  exists cs data, file_under tree cs data /\
                  e = {| arcname := folder_name :: cs; zdata := data |}.
Proof.
  unfold archive_of_folder, members_for. cbn [members].
  set (folder_path := os_path_join (Path DesktopDir []) folder_name).
  rewrite in_flat_map. split.
  - intros (item & Hitem & He). apply in_map_iff in He as ([c data] & <- & Hfile).
    destruct (walk_sound _ _ _ _ _ Hitem Hfile) as (cs & Hroot & Hunder).
    exists (cs ++ [c]), data. split; [done|].
    by apply member_for_below.
  - intros (cs' & data & Hunder & ->).
    destruct (walk_complete _ _ _ Hunder folder_path) as (item & cs & c & -> & Hitem & Hroot & Hfile).
    exists item. split; [done|]. apply in_map_iff. exists (c, data). split; [|done].
    by apply member_for_below.
Qed.

(** The entries of a walk are the regular files of the tree. *)
Lemma walk_entries_sound (tree : node) (top : path) (e : walk_item * (string * list byte)) :
  In e (walk_entries (os_walk top tree)) ->
  exists cs, wroot (fst e) = below top cs
             /\ entry_path e = below top (cs ++ [fst (snd e)])
             /\ file_under tree (cs ++ [fst (snd e)]) (snd (snd e)).
Proof.
  unfold walk_entries. rewrite in_flat_map. intros (item & Hitem & He).
  apply in_map_iff in He as ([c data] & <- & Hfile).
  destruct (walk_sound _ _ _ _ _ Hitem Hfile) as (cs & Hroot & Hunder).
  exists cs. cbn [fst snd]. split; [done|]. split; [|done].
  unfold entry_path. cbn [fst snd]. rewrite Hroot. apply join_below.
Qed.

Lemma walk_entries_complete (tree : node) (top : path) (cs : list string) (data : list byte) :
  file_under tree cs data ->
  exists e, In e (walk_entries (os_walk top tree)) /\ entry_path e = below top cs.
Proof.
  intros Hunder.
  destruct (walk_complete _ _ _ Hunder top) as (item & cs0 & c & -> & Hitem & Hroot & Hfile).
  exists (item, (c, data)). split.
  - unfold walk_entries. rewrite in_flat_map. exists item. split; [done|].
    apply in_map_iff. by exists (c, data).
  - unfold entry_path. cbn [fst snd]. rewrite Hroot. apply join_below.
Qed.

End WalkFacts.

Section CompressFacts.
Context {codec : ZipCodec}.

Lemma append_members_snoc es e f :
  append_members (es ++ [e]) f = add_member e (append_members es f).
Proof. unfold append_members. by rewrite fold_left_app. Qed.

Lemma append_members_zip es method ms ct u :
  append_members es {| fcontent := Zip {| zmethod := method; members := ms |};
                       fctime := ct; in_use := u |}
  = {| fcontent := Zip {| zmethod := method; members := ms ++ es |};
       fctime := ct; in_use := u |}.
Proof.
  revert ms. induction es as [|e es IH]; intros ms.
  - cbn. by rewrite app_nil_r.
  - change (append_members (e :: es) ?f) with (append_members es (add_member e f)).
    unfold add_member. cbn [fcontent fctime in_use zmethod members].
    rewrite IH. by rewrite <- app_assoc.
Qed.

Lemma alter_append_nil (n : string) (m : gmap string zfile) :
  m = alter (append_members []) n m.
Proof.
  apply map_eq. intros k. rewrite lookup_alter.
  destruct (decide (n = k)) as [->|]; [by destruct (m !! k)|done].
Qed.

(** Where a run of entries stops when it is followed by another. *)
Lemma until_refused_app refused es1 es2 :
  until_refused refused (es1 ++ es2) =
  match until_refused refused es1 with
  | (before, None) =>
      let '(before2, stop) := until_refused refused es2 in (before ++ before2, stop)
  | (before, Some stop) => (before, Some stop)
  end.
Proof.
  induction es1 as [|e es1 IH]; cbn [app until_refused].
  - by destruct (until_refused refused es2).
  - destruct (refused (entry_path e)); [reflexivity|]. rewrite IH.
    destruct (until_refused refused es1) as [before [stop|]]; [reflexivity|].
    by destruct (until_refused refused es2).
Qed.

(** What was passed before a stop is the head of the list, and the stop
    is an entry the environment refuses. *)
Lemma until_refused_split refused es :
  match until_refused refused es with
  | (before, None) => before = es
  | (before, Some (p, why)) =>
      exists e rest, es = before ++ e :: rest /\ p = entry_path e /\ refused p = Some why
                     /\ Forall (fun e' => refused (entry_path e') = None) before
  end.
Proof.
  induction es as [|e es IH]; cbn [until_refused]; [reflexivity|].
  destruct (refused (entry_path e)) as [why|] eqn:Er.
  - exists e, es. by repeat split.
  - destruct (until_refused refused es) as [before [[p why]|]].
    + destruct IH as (e' & rest & -> & -> & Hr & Hall).
      exists e', rest. repeat split; [done|]. by constructor.
    + by rewrite IH.
Qed.

Lemma until_refused_None refused es :
  snd (until_refused refused es) = None <->
  Forall (fun e => refused (entry_path e) = None) es.
Proof.
  induction es as [|e es IH]; cbn [until_refused]; [by split; [constructor|]|].
  destruct (refused (entry_path e)) as [why|] eqn:Er.
  - split; [discriminate|]. intros H. inversion H; subst. congruence.
  - destruct (until_refused refused es) as [before stop]. cbn [snd] in *.
    rewrite IH. split; [by constructor|]. intros H. by inversion H.
Qed.

Lemma members_for_entries (h : list string) (folder_path : path) (triples : list walk_item) :
  List.map (fun e => member_for h folder_path (fst e) (snd e)) (walk_entries triples)
  = members_for h folder_path triples.
Proof.
  unfold walk_entries, members_for.
  induction triples as [|item triples IH]; [reflexivity|].
  cbn [flat_map]. rewrite List.map_app, IH. f_equal.
  rewrite List.map_map. reflexivity.
Qed.

(** The inner loop of [compress_folder]: one member per file of the
    triple, in order, up to the first file that [zipf.write] refuses. *)
Lemma write_files_run (n : string) (folder_path : path) (item : walk_item) :
  forall (files : list (string * list byte)) (count : Z) (w : World),
    for_in files
      (fun (file : string * list byte) (file_count : Z) =>
         let file_path := os_path_join (wroot item) (fst file) in
         h ← gets home;
         let arc := os_path_relpath (abs_components h file_path)
                      (abs_components h (os_path_dirname folder_path)) in
         zipf_write (os_path_join down_zip.zips_path n) file_path arc (snd file);;
         mret (file_count + 1)) count w
    = match until_refused (faults w) (List.map (pair item) files) with
      | (before, None) =>
          (Return (count + Z.of_nat (length before)),
           set_zips (alter (append_members
                       (List.map (fun e => member_for (home w) folder_path (fst e) (snd e))
                                 before)) n) w)
      | (before, Some (p, why)) =>
          (Raise (refusal w p why),
           set_zips (alter (append_members
                       (List.map (fun e => member_for (home w) folder_path (fst e) (snd e))
                                 before)) n) w)
      end.
Proof.
  induction files as [|file files IH]; intros count w.
  - cbn. rewrite Z.add_0_r. f_equal.
    rewrite <- (set_zips_ext (fun m => m)) by apply alter_append_nil. by destruct w.
  - cbn [for_in List.map until_refused].
    rewrite bind_run, bind_run, gets_run. cbn beta iota.
    rewrite bind_run, zipf_write_run.
    change (entry_path (item, file)) with (os_path_join (wroot item) (fst file)).
    destruct (faults w (os_path_join (wroot item) (fst file))) as [why|] eqn:Ef.
    { cbn. f_equal.
      rewrite <- (set_zips_ext (fun m => m)) by apply alter_append_nil. by destruct w. }
    cbn beta iota. rewrite ret_run, IH. rewrite faults_set_zips.
    destruct (until_refused (faults w) (List.map (pair item) files)) as [before stop].
    cbn [home set_zips List.map length fst snd].
    assert (Hw : set_zips
                   (alter (append_members
                      (List.map (fun e => member_for (home w) folder_path (fst e) (snd e))
                                before)) n)
                   (set_zips (alter (add_member
                      {| arcname := os_path_relpath
                                      (abs_components (home w)
                                         (os_path_join (wroot item) (fst file)))
                                      (abs_components (home w) (os_path_dirname folder_path));
                         zdata := snd file |}) n) w)
                 = set_zips (alter (append_members
                      (member_for (home w) folder_path item file
                       :: List.map (fun e => member_for (home w) folder_path (fst e) (snd e))
                                   before)) n) w).
    { rewrite set_zips_set_zips. apply set_zips_ext.
      rewrite alter_alter_eq. apply alter_ext. intros f _. reflexivity. }
    destruct stop as [[p why]|].
    + f_equal. exact Hw.
    + f_equal; [f_equal; lia|exact Hw].
Qed.

(** The outer loop: the members of every triple of the walk, up to the
    first file that [zipf.write] refuses. *)
Lemma write_walk_run (n : string) (folder_path : path) :
  forall (triples : list walk_item) (count : Z) (w : World),
    for_in triples
      (fun (item : walk_item) (file_count : Z) =>
         for_in (wfiles item)
           (fun (file : string * list byte) (file_count : Z) =>
              let file_path := os_path_join (wroot item) (fst file) in
              h ← gets home;
              let arc := os_path_relpath (abs_components h file_path)
                           (abs_components h (os_path_dirname folder_path)) in
              zipf_write (os_path_join down_zip.zips_path n) file_path arc (snd file);;
              mret (file_count + 1)) file_count) count w
    = match until_refused (faults w) (walk_entries triples) with
      | (before, None) =>
          (Return (count + Z.of_nat (length before)),
           set_zips (alter (append_members
                       (List.map (fun e => member_for (home w) folder_path (fst e) (snd e))
                                 before)) n) w)
      | (before, Some (p, why)) =>
          (Raise (refusal w p why),
           set_zips (alter (append_members
                       (List.map (fun e => member_for (home w) folder_path (fst e) (snd e))
                                 before)) n) w)
      end.
Proof.
  induction triples as [|item triples IH]; intros count w.
  - cbn. rewrite Z.add_0_r. f_equal.
    rewrite <- (set_zips_ext (fun m => m)) by apply alter_append_nil. by destruct w.
  - cbn [for_in]. rewrite bind_run, write_files_run.
    change (walk_entries (item :: triples))
      with (List.map (pair item) (wfiles item) ++ walk_entries triples).
    rewrite until_refused_app.
    destruct (until_refused (faults w) (List.map (pair item) (wfiles item)))
      as [before [[p why]|]]; [reflexivity|].
    rewrite IH. rewrite faults_set_zips.
    destruct (until_refused (faults w) (walk_entries triples)) as [before2 stop].
    cbn [home set_zips].
    assert (Hw : forall ms1 ms2,
              set_zips (alter (append_members ms2) n)
                (set_zips (alter (append_members ms1) n) w)
              = set_zips (alter (append_members (ms1 ++ ms2)) n) w).
    { intros ms1 ms2. rewrite set_zips_set_zips. apply set_zips_ext.
      rewrite alter_alter_eq. apply alter_ext. intros f _. cbn.
      unfold append_members. by rewrite fold_left_app. }
    rewrite Hw, <- List.map_app.
    destruct stop as [[p why]|]; [reflexivity|].
    f_equal. f_equal. rewrite length_app. lia.
Qed.

Lemma written_unfold (w : World) (folder_name : string) (tree : node) :
  written w folder_name tree =
  (List.map (fun e => member_for (home w)
                        (os_path_join down_zip.desktop_path folder_name) (fst e) (snd e))
            (fst (until_refused (faults w)
                    (walk_entries (os_walk (os_path_join down_zip.desktop_path folder_name)
                                           tree)))),
   snd (until_refused (faults w)
          (walk_entries (os_walk (os_path_join down_zip.desktop_path folder_name) tree)))).
Proof. unfold written. by destruct (until_refused _ _). Qed.

(** When no file is refused, what is written is the archive of the folder. *)
Lemma written_all (w : World) (folder_name : string) (tree : node) :
  snd (written w folder_name tree) = None ->
  fst (written w folder_name tree) = members (archive_of_folder (home w) folder_name tree).
Proof.
  rewrite written_unfold. cbn [fst snd]. intros Hnone.
  pose proof (until_refused_split (faults w)
                (walk_entries (os_walk (os_path_join down_zip.desktop_path folder_name) tree)))
    as Hsplit.
  destruct (until_refused _ _) as [before stop]. cbn [fst snd] in *. subst stop.
  rewrite Hsplit. unfold archive_of_folder. cbn [members].
  apply members_for_entries.
Qed.

Lemma file_with_all (w : World) (folder_name : string) (tree : node) :
  file_with w folder_name (members (archive_of_folder (home w) folder_name tree))
  = archive_file w folder_name tree.
Proof. reflexivity. Qed.

Lemma compress_body_run (folder_name zip_name : string) (tree : node) (w : World) :
  zip_name = zip_name_of folder_name ->
  desktop w !! folder_name = Some tree ->
  let folder_path := os_path_join down_zip.desktop_path folder_name in
  let zip_path := os_path_join down_zip.zips_path zip_name in
  (found ← os_path_exists folder_path;
   if negb found then
     shown ← show folder_path;
     mret (false, "文件夹不存在: " +:+ shown, None)
   else
     src ← show folder_path;
     dst ← show zip_path;
     print ("开始压缩文件夹: " +:+ src +:+ " -> " +:+ dst);;
     ZipFile_w zip_path ZIP_DEFLATED;;
     triples ← walk folder_path;
     file_count ←
       for_in (A := Z) triples (fun item file_count =>
         for_in (A := Z) (wfiles item) (fun file file_count =>
           let file_path := os_path_join (wroot item) (fst file) in
           h ← gets home;
           let arc := os_path_relpath
                        (abs_components h file_path)
                        (abs_components h (os_path_dirname folder_path)) in
           zipf_write zip_path file_path arc (snd file);;
           mret (file_count + 1)) file_count) 0;
     file_size ← os_path_getsize zip_path;
     let message := "成功压缩: " +:+ zip_name +:+ " (" +:+ str_Z file_count
                    +:+ "个文件, " +:+ down_zip._format_file_size file_size +:+ ")" in
     print message;;
     mret (true, message, Some zip_path)) w
  = match snd (written w folder_name tree) with
    | None =>
        (Return (true, success_message w folder_name tree, Some zip_path),
         after_compress w folder_name tree)
    | Some (p, why) =>
        (Raise (refusal w p why),
         set_console (fun c => c ++ [started_line w folder_name])
           (set_zips (insert (zip_name_of folder_name)
                        (file_with w folder_name (fst (written w folder_name tree)))) w))
    end.
Proof.
  intros -> Htree folder_path zip_path. subst folder_path zip_path.
  rewrite bind_run, exists_folder_run, Htree. cbn beta iota. cbn [negb].
  rewrite bind_run, show_run. cbn beta iota.
  rewrite bind_run, show_run. cbn beta iota.
  rewrite bind_run, print_run. cbn beta iota.
  rewrite bind_run.
  rewrite ZipFile_w_run.
  cbn beta iota.
  rewrite bind_run, (walk_folder_run folder_name tree) by done. cbn beta iota.
  rewrite bind_run, write_walk_run.
  pose proof (written_all w folder_name tree) as Hall.
  rewrite written_unfold in *. cbn [fst snd] in *.
  cbn [faults home zips clock set_zips set_console].
  destruct (until_refused (faults w)
              (walk_entries (os_walk (os_path_join down_zip.desktop_path folder_name) tree)))
    as [before stop].
  cbn [fst snd] in *.
  set (ms := List.map (fun e => member_for (home w)
                         (os_path_join down_zip.desktop_path folder_name) (fst e) (snd e))
                      before) in *.
  assert (Hfile :
    alter (append_members ms) (zip_name_of folder_name)
      (<[zip_name_of folder_name :=
           match zips w !! zip_name_of folder_name with
           | Some old => {| fcontent := Zip {| zmethod := ZIP_DEFLATED; members := [] |};
                            fctime := fctime old; in_use := in_use old |}
           | None => {| fcontent := Zip {| zmethod := ZIP_DEFLATED; members := [] |};
                        fctime := clock w; in_use := false |}
           end]> (zips w))
    = <[zip_name_of folder_name := file_with w folder_name ms]> (zips w)).
  { rewrite alter_insert_eq. f_equal. unfold file_with.
    destruct (zips w !! zip_name_of folder_name); by rewrite append_members_zip. }
  destruct stop as [[p why]|].
  - f_equal.
    unfold set_console, set_zips. cbn. by rewrite Hfile.
  - cbn beta iota.
    specialize (Hall eq_refl).
    assert (Hfw : file_with w folder_name ms = archive_file w folder_name tree)
      by (rewrite Hall; apply file_with_all).
    rewrite Hfw in Hfile.
    rewrite bind_run, (getsize_run _ _ (archive_file w folder_name tree)).
    2:{ cbn [zips clock set_zips set_console]. rewrite Hfile. apply lookup_insert_eq. }
    cbn beta iota. rewrite bind_run, print_run. cbn beta iota. rewrite ret_run.
    assert (Hcontent : fcontent (archive_file w folder_name tree)
                       = Zip (archive_of_folder (home w) folder_name tree)).
    { unfold archive_file. by destruct (zips w !! zip_name_of folder_name). }
    rewrite Hcontent. cbn [bytes_of].
    assert (Hlen : length before
                   = length (members (archive_of_folder (home w) folder_name tree))).
    { rewrite <- Hall. unfold ms. by rewrite length_map. }
    rewrite Z.add_0_l, Hlen.
    f_equal.
    unfold after_compress, set_console, set_zips. cbn. rewrite Hfile.
    by rewrite <- app_assoc.
Qed.

(** What [compress_folder] does for the two folders it knows. With the
    folder on the Desktop and every file of it accepted, it writes the
    archive of the folder at the job's archive path and reports success;
    when [zipf.write] raises on a file, it reports that failure and the
    archive holds the members written before; without the folder it
    reports that and changes nothing. It raises in no case. *)
Lemma compress_folder_run (folder_name : string) (w : World) :
  In folder_name ["contents"; "comments"] ->
  down_zip.compress_folder folder_name w =
  match desktop w !! folder_name with
  | Some tree =>
      match snd (written w folder_name tree) with
      | None =>
          (Return (true, success_message w folder_name tree,
                   Some (os_path_join down_zip.zips_path (zip_name_of folder_name))),
           after_compress w folder_name tree)
      | Some (p, why) =>
          (Return (false, failure_message w p why, None),
           after_failed_compress w folder_name tree p why)
      end
  | None => (Return (false, missing_message w folder_name, None), w)
  end.
Proof.
  intros [<-|[<-|[]]]; unfold down_zip.compress_folder; cbn [String.eqb Ascii.eqb Bool.eqb];
    unfold try_except.
  - destruct (desktop w !! "contents") as [tree|] eqn:Htree.
    + pose proof (compress_body_run "contents" "contents.zip" tree w eq_refl Htree) as Hb.
      cbv zeta in Hb.
      match type of Hb with
      | ?l = _ => match goal with
                  | |- match ?b with _ => _ end = _ => change b with l
                  end
      end.
      rewrite Hb. destruct (snd (written w "contents" tree)) as [[p why]|]; [|reflexivity].
      py_run. unfold after_failed_compress, failure_message, set_console, set_zips. cbn.
      by rewrite <- app_assoc.
    + change down_zip.contents_folder with (os_path_join down_zip.desktop_path "contents").
      rewrite bind_run, exists_folder_run, Htree. reflexivity.
  - destruct (desktop w !! "comments") as [tree|] eqn:Htree.
    + pose proof (compress_body_run "comments" "comments.zip" tree w eq_refl Htree) as Hb.
      cbv zeta in Hb.
      match type of Hb with
      | ?l = _ => match goal with
                  | |- match ?b with _ => _ end = _ => change b with l
                  end
      end.
      rewrite Hb. destruct (snd (written w "comments" tree)) as [[p why]|]; [|reflexivity].
      py_run. unfold after_failed_compress, failure_message, set_console, set_zips. cbn.
      by rewrite <- app_assoc.
    + change down_zip.comments_folder with (os_path_join down_zip.desktop_path "comments").
      rewrite bind_run, exists_folder_run, Htree. reflexivity.
Qed.

End CompressFacts.

Section ArchiveTheorems.
Context {codec : ZipCodec}.

Lemma after_compress_lookup (w : World) (folder_name : string) (tree : node) (k : string) :
  zips (after_compress w folder_name tree) !! k =
  if decide (zip_name_of folder_name = k)
  then Some (archive_file w folder_name tree)
  else zips w !! k.
Proof. unfold after_compress. cbn. apply lookup_insert. Qed.

Lemma after_failed_compress_lookup (w : World) (folder_name : string) (tree : node)
    (p : path) (why : fault) (k : string) :
  zips (after_failed_compress w folder_name tree p why) !! k =
  if decide (zip_name_of folder_name = k)
  then Some (file_with w folder_name (fst (written w folder_name tree)))
  else zips w !! k.
Proof. unfold after_failed_compress. cbn. apply lookup_insert. Qed.

Lemma archive_file_content (w : World) (folder_name : string) (tree : node) :
  fcontent (archive_file w folder_name tree)
  = Zip (archive_of_folder (home w) folder_name tree).
Proof. unfold archive_file. by destruct (zips w !! zip_name_of folder_name). Qed.

Lemma file_with_content (w : World) (folder_name : string) (ms : list zip_entry) :
  fcontent (file_with w folder_name ms) = Zip {| zmethod := ZIP_DEFLATED; members := ms |}.
Proof. unfold file_with. by destruct (zips w !! zip_name_of folder_name). Qed.

(** Nothing is refused on the way exactly when every file under the
    folder is accepted. *)
Lemma written_accepted (w : World) (folder_name : string) (tree : node) :
  snd (written w folder_name tree) = None <-> accepted w folder_name tree.
Proof.
  rewrite written_unfold. cbn [snd]. rewrite until_refused_None, Forall_forall.
  unfold accepted. split.
  - intros Hall cs data Hunder.
    destruct (walk_entries_complete tree (os_path_join down_zip.desktop_path folder_name)
                cs data Hunder) as (e & He & <-).
    apply Hall. by apply list_elem_of_In.
  - intros Hacc e He. apply list_elem_of_In in He.
    destruct (walk_entries_sound _ _ _ He) as (cs & _ & -> & Hunder).
    by apply (Hacc _ _ Hunder).
Qed.

(** When a file is refused, it is a regular file of the folder, and what
    was written before it is the head of the archive of the folder: the
    members of files that are accepted. *)
Lemma written_stop (w : World) (folder_name : string) (tree : node)
    (p : path) (why : fault) :
  snd (written w folder_name tree) = Some (p, why) ->
  exists cs data rest,
    file_under tree cs data
    /\ p = below (os_path_join down_zip.desktop_path folder_name) cs
    /\ faults w p = Some why
    /\ members (archive_of_folder (home w) folder_name tree)
       = fst (written w folder_name tree)
         ++ {| arcname := folder_name :: cs; zdata := data |} :: rest
    /\ Forall (fun e => exists cs' data',
                 file_under tree cs' data'
                 /\ e = {| arcname := folder_name :: cs'; zdata := data' |}
                 /\ faults w (below (os_path_join down_zip.desktop_path folder_name) cs')
                    = None)
              (fst (written w folder_name tree)).
Proof.
  rewrite written_unfold. cbn [fst snd]. intros Hstop.
  set (folder_path := os_path_join down_zip.desktop_path folder_name) in *.
  pose proof (until_refused_split (faults w) (walk_entries (os_walk folder_path tree)))
    as Hsplit.
  destruct (until_refused (faults w) (walk_entries (os_walk folder_path tree)))
    as [before stop]. cbn [fst snd] in *. subst stop.
  destruct Hsplit as (e & rest & Hes & -> & Hr & Hall).
  assert (Hin : forall e', In e' (before ++ e :: rest) ->
            exists cs, entry_path e' = below folder_path (cs ++ [fst (snd e')])
              /\ file_under tree (cs ++ [fst (snd e')]) (snd (snd e'))
              /\ member_for (home w) folder_path (fst e') (snd e')
                 = {| arcname := folder_name :: cs ++ [fst (snd e')];
                      zdata := snd (snd e') |}).
  { intros e' He'. rewrite <- Hes in He'.
    destruct (walk_entries_sound _ _ _ He') as (cs & Hroot & Hpath & Hunder).
    exists cs. split; [done|]. split; [done|].
    destruct e' as [item [c data]]. cbn [fst snd] in *.
    by apply member_for_below. }
  destruct (Hin e) as (cs & Hpath & Hunder & Hmember); [apply in_elt|].
  exists (cs ++ [fst (snd e)]), (snd (snd e)),
         (List.map (fun e => member_for (home w) folder_path (fst e) (snd e)) rest).
  split; [done|]. split; [done|]. split; [done|]. split.
  - unfold archive_of_folder. cbn [members]. fold down_zip.desktop_path. fold folder_path.
    rewrite <- members_for_entries, Hes, List.map_app. cbn [List.map].
    by rewrite Hmember.
  - apply Forall_forall. intros m Hm. apply list_elem_of_In, in_map_iff in Hm.
    destruct Hm as (e' & <- & He').
    destruct (Hin e') as (cs' & Hpath' & Hunder' & Hmember'); [apply in_or_app; by left|].
    exists (cs' ++ [fst (snd e')]), (snd (snd e')).
    split; [done|]. split; [done|].
    rewrite <- Hpath'. rewrite Forall_forall in Hall. apply Hall. by apply list_elem_of_In.
Qed.

(** C9 (as amended). For an output folder that exists on the Desktop,
    [compress_folder] opens the job's fixed archive path anew, whatever was
    there before, as a deflate-compressed zip, and touches no other file of
    the archive folder. When [zipfile] accepts every regular file under the
    folder, it succeeds, and the members of the zip are exactly the regular
    files found under the folder at any depth, each named by the folder's
    name followed by the file's place in the folder, which is the file's
    path relative to the folder's parent. When it refuses one (a file that
    may not be read, or one last modified before 1980), the operation
    raises nothing: it returns failure with the text of that error, and
    the zip holds the members written before that file, all of them of
    accepted files, in the order of the complete archive. *)
Theorem compress_folder_archives_the_folder
    (w : World) (folder_name : string) (es : list (string * node)) :
  In folder_name ["contents"; "comments"] ->
  desktop w !! folder_name = Some (Dir es) ->
  let folder_path := os_path_join down_zip.desktop_path folder_name in
  let zip_path := os_path_join down_zip.zips_path (zip_name_of folder_name) in
  let w' := world_after (down_zip.compress_folder folder_name) w in
  (accepted w folder_name (Dir es) ->
   exists message f a,
     result (down_zip.compress_folder folder_name) w = Return (true, message, Some zip_path)
     /\ zips w' !! zip_name_of folder_name = Some f
     /\ fcontent f = Zip a
     /\ zmethod a = ZIP_DEFLATED
     /\ (forall e, In e (members a) <->
           exists cs data, file_under (Dir es) cs data /\
             e = {| arcname := folder_name :: cs; zdata := data |}))
  /\ (~ accepted w folder_name (Dir es) ->
      exists cs data why f before rest,
        file_under (Dir es) cs data
        /\ faults w (below folder_path cs) = Some why
        /\ result (down_zip.compress_folder folder_name) w
           = Return (false, "压缩失败: " +:+ str_exn (refusal w (below folder_path cs) why),
                     None)
        /\ zips w' !! zip_name_of folder_name = Some f
        /\ fcontent f = Zip {| zmethod := ZIP_DEFLATED; members := before |}
        /\ members (archive_of_folder (home w) folder_name (Dir es))
           = before ++ {| arcname := folder_name :: cs; zdata := data |} :: rest
        /\ Forall (fun e => exists cs' data',
                     file_under (Dir es) cs' data'
                     /\ e = {| arcname := folder_name :: cs'; zdata := data' |}
                     /\ faults w (below folder_path cs') = None) before)
  /\ (forall k, k <> zip_name_of folder_name -> zips w' !! k = zips w !! k).
Proof.
  intros Hname Hdir folder_path zip_path w'. subst folder_path zip_path w'.
  unfold result, world_after. rewrite compress_folder_run, Hdir by done.
  pose proof (written_accepted w folder_name (Dir es)) as Hacc.
  pose proof (written_stop w folder_name (Dir es)) as Hstop.
  destruct (snd (written w folder_name (Dir es))) as [[p why]|]; cbn [fst snd].
  - split; [|split].
    + intros Ha. apply Hacc in Ha. discriminate.
    + intros _.
      destruct (Hstop p why eq_refl) as (cs & data & rest & Hunder & -> & Hf & Hms & Hall).
      exists cs, data, why,
             (file_with w folder_name (fst (written w folder_name (Dir es)))),
             (fst (written w folder_name (Dir es))), rest.
      split; [done|]. split; [done|]. split; [reflexivity|]. split.
      { rewrite after_failed_compress_lookup. by rewrite decide_True. }
      split; [apply file_with_content|]. split; [done|]. done.
    + intros k Hk. rewrite after_failed_compress_lookup. by rewrite decide_False.
  - split; [|split].
    + intros _.
      exists (success_message w folder_name (Dir es)),
             (archive_file w folder_name (Dir es)),
             (archive_of_folder (home w) folder_name (Dir es)).
      split; [reflexivity|]. split.
      { rewrite after_compress_lookup. by rewrite decide_True. }
      split; [apply archive_file_content|]. split; [reflexivity|].
      intros e. apply archive_members.
    + intros Hno. exfalso. apply Hno. by apply Hacc.
    + intros k Hk. rewrite after_compress_lookup. by rewrite decide_False.
Qed.

End ArchiveTheorems.

(* ===================================================================== *)
(** * The Job Runner *)
(* ===================================================================== *)

Section ThreadFacts.
Context {codec : ZipCodec}.

Lemma folder_of_known (script_name : string) :
  In (folder_of script_name) ["contents"; "comments"].
Proof. unfold folder_of. destruct (String.eqb script_name "contents"); cbn; auto. Qed.

Lemma compress_of_script (script_name : string) :
  (if String.eqb script_name "contents"
   then down_zip.compress_contents else down_zip.compress_comments)
  = down_zip.compress_folder (folder_of script_name).
Proof.
  unfold folder_of, down_zip.compress_contents, down_zip.compress_comments.
  by destruct (String.eqb script_name "contents").
Qed.

(** [compress_folder] on a folder it knows returns, and [compress_step]
    gives its message and the world it leaves. *)
Lemma compress_folder_step (folder_name : string) (w : World) :
  In folder_name ["contents"; "comments"] ->
  exists success zip_path,
    down_zip.compress_folder folder_name w
    = (Return (success, fst (compress_step folder_name w), zip_path),
       snd (compress_step folder_name w))
    /\ (success = true <->
        exists tree, desktop w !! folder_name = Some tree
                     /\ snd (written w folder_name tree) = None).
Proof.
  intros Hname. rewrite compress_folder_run by done. unfold compress_step.
  destruct (desktop w !! folder_name) as [tree|].
  - destruct (snd (written w folder_name tree)) as [[p why]|] eqn:Hw.
    + eexists _, _. split; [reflexivity|]. split; [discriminate|].
      intros (tree' & [= <-] & Hnone). congruence.
    + eexists _, _. split; [reflexivity|]. split; [|done]. intros _. by exists tree.
  - eexists _, _. split; [reflexivity|]. split; [discriminate|].
    by intros (tree' & [=] & _).
Qed.

(** The thread of a job raises nothing, whatever its job does: every case
    ends in [thread_outcome]. *)
Lemma run_in_thread_run (script_name script_path : string) (c : child) (w : World) :
  server_down.run_in_thread script_name script_path c w
  = (Return tt, thread_outcome script_name c w).
Proof.
  unfold server_down.run_in_thread, thread_outcome, try_except, log.
  rewrite bind_run, exists_python_run. cbn beta iota.
  destruct (venv_python w).
  - rewrite bind_run, print_run. cbn beta iota.
    rewrite bind_run, show_run. cbn beta iota.
    rewrite bind_run, subprocess_run_run.
    destruct (spawn_error c) as [msg|]; [reflexivity|].
    destruct (300 <? duration c); [reflexivity|]. cbn beta iota.
    rewrite bind_run, print_run. cbn beta iota.
    rewrite bind_run, print_run. cbn beta iota.
    rewrite bind_run, compress_of_script.
    match goal with
    | |- context [down_zip.compress_folder ?f ?w0] =>
        destruct (compress_folder_step f w0 (folder_of_known script_name))
          as (success & zip_path & -> & _)
    end.
    cbn beta iota. cbn [stdout stderr fst snd].
    rewrite bind_run, print_run. cbn beta iota.
    destruct (String.eqb (child_stderr c) EmptyString); reflexivity.
  - rewrite bind_run, subprocess_run_run.
    destruct (spawn_error c) as [msg|]; [reflexivity|].
    destruct (300 <? duration c); reflexivity.
Qed.

(** The step of [compress_folder] touches nothing but the archive folder
    and the console. *)
Lemma compress_step_frame (folder_name : string) (w : World) :
  let w' := snd (compress_step folder_name w) in
  wfile w' = wfile w /\ threads w' = threads w /\ home w' = home w /\
  clock w' = clock w /\ venv_python w' = venv_python w /\
  alive w' = alive w /\ faults w' = faults w /\ desktop w' = desktop w.
Proof.
  unfold compress_step, after_compress, after_failed_compress.
  destruct (desktop w !! folder_name) as [tree|]; [|done].
  by destruct (snd (written w folder_name tree)) as [[p why]|].
Qed.

(** A thread touches neither the connection of a handler nor the list of
    started threads, the clock or the configuration. *)
Lemma thread_outcome_frame (script_name : string) (c : child) (w : World) :
  let w' := thread_outcome script_name c w in
  wfile w' = wfile w /\ threads w' = threads w /\ home w' = home w /\
  clock w' = clock w /\ venv_python w' = venv_python w.
Proof.
  unfold thread_outcome, log.
  destruct (venv_python w) eqn:Hv, (spawn_error c), (300 <? duration c);
    cbn; rewrite ?Hv; try done.
  match goal with
  | |- context [compress_step ?f ?w0] =>
      destruct (compress_step_frame f w0) as (H1 & H2 & H3 & H4 & H5 & _)
  end.
  destruct (String.eqb (child_stderr c) EmptyString); cbn;
    rewrite ?H1, ?H2, ?H3, ?H4, ?H5; cbn; by rewrite ?Hv.
Qed.

(** It leaves no process running, and what the environment refuses is not
    its to change. *)
Lemma thread_outcome_alive (script_name : string) (c : child) (w : World) :
  let w' := thread_outcome script_name c w in
  alive w' = alive w /\ faults w' = faults w.
Proof.
  unfold thread_outcome, log.
  destruct (venv_python w) eqn:Hv, (spawn_error c), (300 <? duration c);
    cbn; try done.
  match goal with
  | |- context [compress_step ?f ?w0] =>
      destruct (compress_step_frame f w0) as (_ & _ & _ & _ & _ & H6 & H7 & _)
  end.
  destruct (String.eqb (child_stderr c) EmptyString); cbn; by rewrite ?H6, ?H7.
Qed.

(** What a job has done by the time its thread calls the Archive Manager:
    the world after the job, with the three lines printed so far. *)
Lemma ran_unfold (script_name : string) (c : child) (w : World) :
  log ("输出: " +:+ child_stdout c)
    (log ("脚本 " +:+ script_name +:+ " 执行完成")
       (set_desktop (writes c) (log ("开始执行脚本: " +:+ script_name) w)))
  = set_console (fun c0 => c0 ++ ["输出: " +:+ child_stdout c])
      (set_console (fun c0 => c0 ++ ["脚本 " +:+ script_name +:+ " 执行完成"])
         (set_desktop (writes c)
            (set_console (fun c0 => c0 ++ ["开始执行脚本: " +:+ script_name]) w))).
Proof. reflexivity. Qed.

Lemma ran_frame (script_name : string) (c : child) (w : World) :
  let ran := log ("输出: " +:+ child_stdout c)
               (log ("脚本 " +:+ script_name +:+ " 执行完成")
                  (set_desktop (writes c) (log ("开始执行脚本: " +:+ script_name) w))) in
  desktop ran = writes c (desktop w) /\ zips ran = zips w /\ home ran = home w
  /\ faults ran = faults w /\ clock ran = clock w
  /\ console ran = console w ++ ["开始执行脚本: " +:+ script_name;
                                  "脚本 " +:+ script_name +:+ " 执行完成";
                                  "输出: " +:+ child_stdout c].
Proof.
  cbn. repeat split. by rewrite <- !app_assoc.
Qed.

(** What is written depends on the world through what it refuses and
    through the home folder alone. *)
Lemma written_ext (w1 w2 : World) (folder_name : string) (tree : node) :
  faults w1 = faults w2 -> home w1 = home w2 ->
  written w1 folder_name tree = written w2 folder_name tree.
Proof. unfold written. by intros -> ->. Qed.

Lemma refusal_ext (w1 w2 : World) (p : path) (why : fault) :
  home w1 = home w2 -> refusal w1 p why = refusal w2 p why.
Proof. unfold refusal, permission_denied. by intros ->. Qed.

Lemma accepted_ext (w1 w2 : World) (folder_name : string) (tree : node) :
  faults w1 = faults w2 -> accepted w1 folder_name tree <-> accepted w2 folder_name tree.
Proof. unfold accepted. by intros ->. Qed.

Lemma compress_step_failed (folder_name : string) (w : World) (tree : node)
    (p : path) (why : fault) :
  desktop w !! folder_name = Some tree ->
  snd (written w folder_name tree) = Some (p, why) ->
  compress_step folder_name w
  = (failure_message w p why, after_failed_compress w folder_name tree p why).
Proof. unfold compress_step. by intros -> ->. Qed.

Lemma compress_step_done (folder_name : string) (w : World) (tree : node) :
  desktop w !! folder_name = Some tree ->
  snd (written w folder_name tree) = None ->
  compress_step folder_name w
  = (success_message w folder_name tree, after_compress w folder_name tree).
Proof. unfold compress_step. by intros -> ->. Qed.

Lemma compress_step_missing (folder_name : string) (w : World) :
  desktop w !! folder_name = None ->
  compress_step folder_name w = (missing_message w folder_name, w).
Proof. unfold compress_step. by intros ->. Qed.

End ThreadFacts.

Section JobRunnerTheorems.
Context {codec : ZipCodec}.

(** C8. The thread of the Job Runner raises nothing, whatever its job
    does; it touches neither a handler's connection nor the list of
    threads, and it leaves no process running. A job that cannot be
    started and a job that exceeds the 300 seconds (its process is killed
    and the run reported as timed out) each leave one line on the console
    and the archive folder as it was. So does an output folder that is
    missing. An error raised while the folder is archived (a file that
    [zipfile] refuses) is caught by the Archive Manager and printed: the
    job's archive then holds the members written before that file, and no
    other file of the archive folder is touched. *)
Theorem job_failures_are_contained
    (script_name script_path : string) (c : child) (w : World) :
  let w' := world_after (server_down.run_in_thread script_name script_path c) w in
  let folder_path := os_path_join down_zip.desktop_path (folder_of script_name) in
  result (server_down.run_in_thread script_name script_path c) w = Return tt
  /\ wfile w' = wfile w /\ threads w' = threads w /\ alive w' = alive w
  /\ (forall msg, spawn_error c = Some msg ->
        zips w' = zips w /\ desktop w' = desktop w /\
        exists lines, console w' = console w ++ lines ++ ["执行脚本时出错: " +:+ msg])
  /\ (spawn_error c = None -> 300 < duration c ->
        zips w' = zips w /\
        exists lines, console w' = console w ++ lines
                                   ++ ["脚本 " +:+ script_name +:+ " 执行超时"])
  /\ (spawn_error c = None -> duration c <= 300 -> venv_python w = true ->
      writes c (desktop w) !! folder_of script_name = None ->
        zips w' = zips w /\
        exists lines rest, console w' = console w ++ lines
          ++ ["压缩结果: " +:+ missing_message w (folder_of script_name)]
          ++ rest)
  /\ (spawn_error c = None -> duration c <= 300 -> venv_python w = true ->
      forall tree,
      writes c (desktop w) !! folder_of script_name = Some tree ->
      ~ accepted w (folder_of script_name) tree ->
        exists cs data why f before rest,
          file_under tree cs data
          /\ faults w (below folder_path cs) = Some why
          /\ zips w' !! zip_name_of (folder_of script_name) = Some f
          /\ fcontent f = Zip {| zmethod := ZIP_DEFLATED; members := before |}
          /\ members (archive_of_folder (home w) (folder_of script_name) tree)
             = before ++ {| arcname := folder_of script_name :: cs; zdata := data |} :: rest
          /\ (forall k, k <> zip_name_of (folder_of script_name) ->
                zips w' !! k = zips w !! k)
          /\ exists lines last,
               console w' = console w ++ lines
                 ++ ["压缩失败: " +:+ str_exn (refusal w (below folder_path cs) why);
                     "压缩结果: 压缩失败: "
                     +:+ str_exn (refusal w (below folder_path cs) why)]
                 ++ last).
Proof.
  intros w' folder_path. subst w' folder_path.
  unfold result, world_after. rewrite run_in_thread_run. cbn [fst snd].
  split; [reflexivity|].
  destruct (thread_outcome_frame script_name c w) as (Hwf & Hth & _).
  destruct (thread_outcome_alive script_name c w) as (Hal & _).
  split; [done|]. split; [done|]. split; [done|].
  unfold thread_outcome, log. split; [|split; [|split]].
  - intros msg ->. destruct (venv_python w); cbn.
    + split; [done|]. split; [done|]. exists ["开始执行脚本: " +:+ script_name].
      by rewrite <- app_assoc.
    + split; [done|]. split; [done|]. by exists [].
  - intros -> Hlate. apply Z.ltb_lt in Hlate. rewrite Hlate.
    destruct (venv_python w); cbn.
    + split; [done|]. exists ["开始执行脚本: " +:+ script_name]. by rewrite <- app_assoc.
    + split; [done|]. by exists [].
  - intros -> Hintime -> Hmissing.
    replace (300 <? duration c) with false by (symmetry; apply Z.ltb_ge; lia).
    unfold compress_step. cbn [desktop set_desktop set_console]. rewrite Hmissing. cbn [fst snd].
    unfold missing_message. cbn [home set_desktop set_console].
    destruct (String.eqb (child_stderr c) EmptyString);
      cbn [zips console set_desktop set_console].
    + split; [done|].
      exists ["开始执行脚本: " +:+ script_name; "脚本 " +:+ script_name +:+ " 执行完成";
              "输出: " +:+ child_stdout c], [].
      rewrite <- !app_assoc. reflexivity.
    + split; [done|].
      exists ["开始执行脚本: " +:+ script_name; "脚本 " +:+ script_name +:+ " 执行完成";
              "输出: " +:+ child_stdout c], ["错误: " +:+ child_stderr c].
      rewrite <- !app_assoc. reflexivity.
  - intros -> Hintime -> tree Htree Hrefused.
    replace (300 <? duration c) with false by (symmetry; apply Z.ltb_ge; lia).
    rewrite <- ran_unfold.
    destruct (ran_frame script_name c w) as (Hrd & Hrz & Hrh & Hrf & Hrc & Hrk).
    set (ran := log ("输出: " +:+ child_stdout c)
                  (log ("脚本 " +:+ script_name +:+ " 执行完成")
                     (set_desktop (writes c) (log ("开始执行脚本: " +:+ script_name) w))))
      in *.
    clearbody ran.
    assert (Hsame : written ran (folder_of script_name) tree
                    = written w (folder_of script_name) tree)
      by (apply written_ext; done).
    destruct (snd (written w (folder_of script_name) tree)) as [[p why]|] eqn:Hstop.
    2:{ exfalso. apply Hrefused. by apply written_accepted. }
    destruct (written_stop w (folder_of script_name) tree p why Hstop)
      as (cs & data & rest & Hunder & -> & Hf & Hms & _).
    rewrite (compress_step_failed _ ran tree _ why) by (by rewrite ?Hrd, ?Hsame).
    cbn [fst snd].
    exists cs, data, why,
           (file_with ran (folder_of script_name)
              (fst (written w (folder_of script_name) tree))),
           (fst (written w (folder_of script_name) tree)), rest.
    split; [done|]. split; [done|].
    assert (Hlookup : forall k,
              zips (after_failed_compress ran (folder_of script_name) tree
                      (below (os_path_join down_zip.desktop_path (folder_of script_name)) cs)
                      why) !! k
              = if decide (zip_name_of (folder_of script_name) = k)
                then Some (file_with ran (folder_of script_name)
                             (fst (written w (folder_of script_name) tree)))
                else zips w !! k).
    { intros k. rewrite after_failed_compress_lookup. by rewrite Hsame, Hrz. }
    assert (Hconsole :
              console (after_failed_compress ran (folder_of script_name) tree
                         (below (os_path_join down_zip.desktop_path (folder_of script_name)) cs)
                         why)
              = console w
                ++ ["开始执行脚本: " +:+ script_name; "脚本 " +:+ script_name +:+ " 执行完成";
                    "输出: " +:+ child_stdout c; started_line w (folder_of script_name)]
                ++ ["压缩失败: " +:+ str_exn
                      (refusal w (below (os_path_join down_zip.desktop_path
                                           (folder_of script_name)) cs) why)]).
    { unfold after_failed_compress, failure_message, started_line.
      cbn [console set_console set_zips]. rewrite Hrk, Hrh.
      rewrite (refusal_ext ran w) by done.
      rewrite <- !app_assoc. reflexivity. }
    unfold failure_message. rewrite (refusal_ext ran w) by done.
    destruct (String.eqb (child_stderr c) EmptyString);
      cbn [zips console set_console]; rewrite Hconsole.
    + split; [by rewrite Hlookup, decide_True|].
      split; [apply file_with_content|]. split; [done|].
      split; [intros k Hk; by rewrite Hlookup, decide_False|].
      exists ["开始执行脚本: " +:+ script_name; "脚本 " +:+ script_name +:+ " 执行完成";
              "输出: " +:+ child_stdout c; started_line w (folder_of script_name)], [].
      rewrite <- !app_assoc. reflexivity.
    + split; [by rewrite Hlookup, decide_True|].
      split; [apply file_with_content|]. split; [done|].
      split; [intros k Hk; by rewrite Hlookup, decide_False|].
      exists ["开始执行脚本: " +:+ script_name; "脚本 " +:+ script_name +:+ " 执行完成";
              "输出: " +:+ child_stdout c; started_line w (folder_of script_name)],
             ["错误: " +:+ child_stderr c].
      rewrite <- !app_assoc. reflexivity.
Qed.

(** C1 (as amended). With the interpreter of the virtual environment in
    place, the thread of a registered job whose process ends within the
    300 seconds calls the Archive Manager on the job's output folder,
    whatever the exit code [code] and whether or not the folder is there:
    the thread goes on from the world [compress_folder] leaves, and prints
    the message it returned. The Archive Manager reports success exactly
    when the folder exists and [zipfile] accepts every file under it; the
    archive of the folder is then at the job's archive path. The exit code
    changes nothing of what the thread does. *)
Theorem archive_follows_every_completed_run
    (script_name script_path : string) (c : child) (code : Z) (w : World) :
  venv_python w = true ->
  In script_name ["contents"; "comments"] ->
  spawn_error c = None ->
  duration c <= 300 ->
  let ran := log ("输出: " +:+ child_stdout c)
               (log ("脚本 " +:+ script_name +:+ " 执行完成")
                  (set_desktop (writes c) (log ("开始执行脚本: " +:+ script_name) w))) in
  let w' := world_after
              (server_down.run_in_thread script_name script_path (exits_with code c)) w in
  (exists success message zip_path,
     result (down_zip.compress_folder script_name) ran
     = Return (success, message, zip_path)
     /\ w' = (if String.eqb (child_stderr c) EmptyString then id
              else log ("错误: " +:+ child_stderr c))
               (log ("压缩结果: " +:+ message)
                  (world_after (down_zip.compress_folder script_name) ran))
     /\ (success = true <->
         exists tree, writes c (desktop w) !! script_name = Some tree
                      /\ accepted w script_name tree))
  /\ (forall tree, writes c (desktop w) !! script_name = Some tree ->
        accepted w script_name tree ->
        exists f, zips w' !! zip_name_of script_name = Some f /\
                  fcontent f = Zip (archive_of_folder (home w) script_name tree))
  /\ w' = world_after (server_down.run_in_thread script_name script_path c) w.
Proof.
  intros Hvenv Hname Hspawn Hintime ran w'. subst w'.
  unfold world_after, result. rewrite !run_in_thread_run. cbn [snd].
  change (thread_outcome script_name (exits_with code c) w)
    with (thread_outcome script_name c w).
  assert (Hfolder : folder_of script_name = script_name).
  { destruct Hname as [<-|[<-|[]]]; reflexivity. }
  assert (Hout : thread_outcome script_name c w
                 = (if String.eqb (child_stderr c) EmptyString then id
                    else log ("错误: " +:+ child_stderr c))
                     (log ("压缩结果: " +:+ fst (compress_step script_name ran))
                        (snd (compress_step script_name ran)))).
  { unfold thread_outcome. rewrite Hvenv, Hspawn, Hfolder.
    replace (300 <? duration c) with false by (symmetry; apply Z.ltb_ge; lia).
    fold ran. by destruct (String.eqb (child_stderr c) EmptyString). }
  split; [|split; [|reflexivity]].
  - destruct (compress_folder_step script_name ran Hname)
      as (success & zip_path & Hrun & Hsuccess).
    exists success, (fst (compress_step script_name ran)), zip_path.
    rewrite Hrun. cbn [fst snd]. split; [reflexivity|]. split; [exact Hout|].
    rewrite Hsuccess. split.
    + intros (tree & Htree & Hnone). exists tree. split; [exact Htree|].
      by apply (written_accepted ran).
    + intros (tree & Htree & Hacc). exists tree. split; [exact Htree|].
      by apply (written_accepted ran).
  - intros tree Htree Hacc. rewrite Hout.
    assert (Hzips : zips (snd (compress_step script_name ran))
                      !! zip_name_of script_name
                    = Some (archive_file ran script_name tree)).
    { unfold compress_step.
      change (desktop ran) with (writes c (desktop w)). rewrite Htree.
      assert (Hnone : snd (written ran script_name tree) = None)
        by (by apply (written_accepted ran)).
      rewrite Hnone. cbn [snd]. rewrite after_compress_lookup. by rewrite decide_True. }
    exists (archive_file ran script_name tree).
    split; [|by rewrite archive_file_content].
    by destruct (String.eqb (child_stderr c) EmptyString).
Qed.

End JobRunnerTheorems.

(* ===================================================================== *)
(** * Downloads and triggers *)
(* ===================================================================== *)

Section ChunkFacts.

Lemma read_chunks_concat (len : nat) (data : list byte) :
  (0 < len)%nat -> List.concat (read_chunks len data) = data.
Proof.
  intros Hlen. funelim (read_chunks len data); simp read_chunks.
  - reflexivity.
  - lia.
  - cbn [List.concat].
    match goal with IH : _ -> List.concat _ = _ |- _ => rewrite IH by lia end.
    apply take_drop.
Qed.

Lemma read_chunks_bounded (len : nat) (data : list byte) :
  Forall (fun buf => (0 < length buf <= len)%nat) (read_chunks len data).
Proof.
  funelim (read_chunks len data); simp read_chunks; [constructor|constructor|].
  constructor; [|done]. rewrite length_take. cbn [length]. lia.
Qed.

Lemma COPY_BUFSIZE_pos : (0 < COPY_BUFSIZE)%nat.
Proof. unfold COPY_BUFSIZE. lia. Qed.

End ChunkFacts.

Section StatusLineFacts.

(** A text that begins with something Latin-1 lacks is not Latin-1. *)
Lemma code_points_prefix (s1 s2 : string) : forall (pending : nat) (acc : N),
  forallb (fun cp => (cp <? 256)%N) (code_points s1 pending acc) = false ->
  forallb (fun cp => (cp <? 256)%N) (code_points (s1 +:+ s2) pending acc) = false.
Proof.
  induction s1 as [|c s1 IH]; intros pending acc; [discriminate|].
  change (String c s1 +:+ s2) with (String c (s1 +:+ s2)).
  cbn [code_points].
  destruct pending as [|[|p]].
  - destruct (N_of_ascii c <? 128)%N.
    + cbn [forallb]. destruct (N_of_ascii c <? 256)%N; [apply IH|reflexivity].
    + destruct (N_of_ascii c <? 224)%N; [apply IH|].
      destruct (N_of_ascii c <? 240)%N; apply IH.
  - cbn [forallb]. destruct (_ <? 256)%N; [apply IH|reflexivity].
  - apply IH.
Qed.

Lemma latin1_prefix (s1 s2 : string) : latin1 s1 = false -> latin1 (s1 +:+ s2) = false.
Proof. apply code_points_prefix. Qed.


Lemma self_send_error_file_not_found (w : World) :
  server_down.self_send_error 404 (Some "File not found") w
  = (Return tt, set_wfile (fun o => o ++ [send_error 404 (Some "File not found")]) w).
Proof.
  unfold server_down.self_send_error.
  replace (latin1 _) with true by (vm_compute; reflexivity). reflexivity.
Qed.

Lemma self_send_error_script_not_found (w : World) :
  server_down.self_send_error 404 (Some "Script not found") w
  = (Return tt, set_wfile (fun o => o ++ [send_error 404 (Some "Script not found")]) w).
Proof.
  unfold server_down.self_send_error.
  replace (latin1 _) with true by (vm_compute; reflexivity). reflexivity.
Qed.

(** The status line of the error [download_file] means to send is never
    Latin-1: [send_error] raises instead of sending. *)
Lemma self_send_error_download_failed (e : exn) (w : World) :
  server_down.self_send_error 500 (Some ("下载失败: " +:+ str_exn e)) w
  = (Raise (download_failure e), w).
Proof.
  unfold server_down.self_send_error, download_failure.
  assert (Hline : server_down.protocol_version +:+ " " +:+ str_Z 500 +:+ " "
                  +:+ ("下载失败: " +:+ str_exn e) +:+ server_down.CRLF
                  = "HTTP/1.0 500 下载失败: " +:+ (str_exn e +:+ server_down.CRLF))
    by reflexivity.
  rewrite Hline.
  rewrite latin1_prefix by (vm_compute; reflexivity).
  reflexivity.
Qed.

End StatusLineFacts.

Section HandlerFacts.
Context {codec : ZipCodec}.

Lemma send_all_run (bufs : list (list byte)) : forall w,
  for_in bufs (fun buf (_ : unit) => send (write_bytes buf)) tt w
  = (Return tt, set_wfile (fun o => o ++ List.map write_bytes bufs) w).
Proof.
  induction bufs as [|buf bufs IH]; intros w.
  - cbn. f_equal. destruct w. unfold set_wfile. cbn. by rewrite app_nil_r.
  - cbn [for_in List.map]. rewrite bind_run, send_run. cbn beta iota. rewrite IH.
    f_equal. unfold set_wfile. cbn. f_equal. by rewrite <- app_assoc.
Qed.

(** The entry [download_file] finds for a name is the entry of the file of
    that name in the archive folder. *)
Lemma find_listing (store : gmap string zfile) (names : list string)
    (file_name : string) (info : file_info) :
  List.find (fun f => String.eqb (name f) file_name) (listing_of store names) = Some info ->
  exists f, store !! file_name = Some f /\ info = entry_of file_name f /\ In file_name names.
Proof.
  induction names as [|n names IH]; cbn; [discriminate|].
  destruct (store !! n) as [f|] eqn:Ef; cbn.
  - destruct (String.eqb_spec n file_name) as [->|Hne].
    + intros [= <-]. exists f. auto.
    + intros Hfind. destruct (IH Hfind) as (g & ? & ? & ?). exists g. auto.
  - intros Hfind. destruct (IH Hfind) as (g & ? & ? & ?). exists g. auto.
Qed.

Lemma find_listing_None (store : gmap string zfile) (names : list string) (file_name : string) :
  List.find (fun f => String.eqb (name f) file_name) (listing_of store names) = None <->
  ~ (In file_name names /\ is_Some (store !! file_name)).
Proof.
  rewrite <- listing_names. split.
  - intros Hnone Hin. apply in_map_iff in Hin as (info & Hname & Hin).
    apply (find_none _ _ Hnone) in Hin. rewrite Hname, String.eqb_refl in Hin. discriminate.
  - intros Hnot. destruct (List.find _ _) as [info|] eqn:Hfind; [|done].
    exfalso. apply Hnot. apply find_some in Hfind as [Hin Heq].
    apply String.eqb_eq in Heq. subst. by apply in_map.
Qed.

Lemma download_file_run (file_name : string) (w : World) :
  server_down.download_file file_name w =
  match List.find (fun f => String.eqb (name f) file_name) (listing w) with
  | None => (Return tt, set_wfile (fun o => o ++ [send_error 404 (Some "File not found")]) w)
  | Some info =>
      match zips w !! file_name with
      | Some f =>
          match faults w (os_path_join down_zip.zips_path file_name) with
          | Some read_denied =>
              (Raise (download_failure
                        (permission_denied w (os_path_join down_zip.zips_path file_name))),
               set_wfile (fun o => o ++ download_head file_name (size info)) w)
          | _ =>
              (Return tt,
               log ("文件 " +:+ file_name +:+ " 已下载")
                 (set_wfile (fun o => o ++ download_head file_name (size info)
                                        ++ List.map write_bytes
                                             (read_chunks COPY_BUFSIZE (bytes_of (fcontent f))))
                            w))
          end
      | None => (Return tt, w)
      end
  end.
Proof.
  unfold server_down.download_file, down_zip.get_downloadable_files.
  rewrite bind_run, get_available_files_run. cbn beta iota.
  destruct (List.find _ _) as [info|] eqn:Hfind; [|apply self_send_error_file_not_found].
  destruct (find_listing _ _ _ _ Hfind) as (f & Hf & -> & Hin). rewrite Hf.
  unfold try_except.
  py_run. cbn [fpath entry_of].
  erewrite open_rb_run by (cbn [zips set_wfile]; exact Hf).
  cbn [faults set_wfile].
  assert (Hdone :
    (let (o, w') :=
       (let (o, w') :=
          (Return (bytes_of (fcontent f)),
           set_wfile (fun o => o ++ [end_headers])
             (set_wfile (fun o => o ++ [send_header "Content-Length"
                                          (str_Z (size (entry_of file_name f)))])
                (set_wfile (fun o => o ++ [send_header "Content-Disposition"
                                             ("attachment; filename=" +:+ server_down.dquote
                                              +:+ file_name +:+ server_down.dquote)])
                   (set_wfile (fun o => o ++ [send_header "Content-type" "application/zip"])
                      (set_wfile (fun o => o ++ [send_response 200]) w))))) in
        match o with
        | Return a =>
            (server_down.copyfileobj a
             ≫= (fun _ : () => print ("文件 " +:+ file_name +:+ " 已下载"))) w'
        | Raise e => (Raise e, w')
        end) in
     match o with
     | Return a => (Return a, w')
     | Raise e =>
         server_down.self_send_error 500 (Some ("下载失败: " +:+ str_exn e)) w'
     end)
    = (Return tt,
       log ("文件 " +:+ file_name +:+ " 已下载")
         (set_wfile (fun o => o ++ download_head file_name (size (entry_of file_name f))
                                ++ List.map write_bytes
                                     (read_chunks COPY_BUFSIZE (bytes_of (fcontent f))))
                    w))).
  { cbn beta iota. unfold server_down.copyfileobj.
    rewrite bind_run, send_all_run. cbn beta iota. rewrite print_run.
    rewrite !set_wfile_set_wfile. unfold log. do 2 f_equal.
    apply set_wfile_ext. unfold download_head. cbn [app]. by rewrite <- !app_assoc. }
  destruct (faults w (os_path_join down_zip.zips_path file_name)) as [[|]|];
    [|exact Hdone|exact Hdone].
  cbn beta iota. rewrite self_send_error_download_failed.
  rewrite !set_wfile_set_wfile. f_equal.
  apply set_wfile_ext. unfold download_head. cbn [app]. by rewrite <- !app_assoc.
Qed.

End HandlerFacts.

Section RoutingFacts.
Context {codec : ZipCodec}.

Lemma split_no_sep (s : string) : has_char "/" s = false -> split "/" s = [s].
Proof.
  induction s as [|c s IH]; [reflexivity|]. cbn [has_char split].
  intros [Hc Hs]%orb_false_iff. rewrite Hc, (IH Hs). reflexivity.
Qed.

Lemma last_segment_run (n : string) :
  has_char "/" n = false -> last_item (split "/" ("/run/" +:+ n)) = n.
Proof.
  intros Hn.
  change ("/run/" +:+ n) with (String "/" (String "r" (String "u" (String "n" (String "/" n))))).
  cbn [split Ascii.eqb Bool.eqb]. rewrite (split_no_sep n Hn). reflexivity.
Qed.

Lemma last_segment_download (n : string) :
  has_char "/" n = false -> last_item (split "/" ("/download/" +:+ n)) = n.
Proof.
  intros Hn.
  change ("/download/" +:+ n) with
    (String "/" (String "d" (String "o" (String "w" (String "n" (String "l"
      (String "o" (String "a" (String "d" (String "/" n)))))))))).
  cbn [split Ascii.eqb Bool.eqb]. rewrite (split_no_sep n Hn). reflexivity.
Qed.

Lemma do_GET_run (n : string) :
  has_char "/" n = false ->
  server_down.do_GET ("/run/" +:+ n) = server_down.run_script n.
Proof.
  intros Hn. unfold server_down.do_GET. rewrite (last_segment_run n Hn).
  change ("/run/" +:+ n) with (String "/" (String "r" (String "u" (String "n" (String "/" n))))).
  cbn [String.eqb Ascii.eqb Bool.eqb startswith andb]. reflexivity.
Qed.

Lemma do_GET_download (n : string) :
  has_char "/" n = false ->
  server_down.do_GET ("/download/" +:+ n) = server_down.download_file n.
Proof.
  intros Hn. unfold server_down.do_GET. rewrite (last_segment_download n Hn).
  change ("/download/" +:+ n) with
    (String "/" (String "d" (String "o" (String "w" (String "n" (String "l"
      (String "o" (String "a" (String "d" (String "/" n)))))))))).
  cbn [String.eqb Ascii.eqb Bool.eqb startswith andb]. reflexivity.
Qed.

Lemma run_script_run (script_name : string) (w : World) :
  server_down.run_script script_name w =
  match dict_get server_down.SCRIPT_PATHS script_name with
  | Some _ =>
      (Return tt,
       set_wfile (fun o => o ++ acknowledgment script_name)
         (set_threads (fun t => t ++ [script_name]) w))
  | None =>
      (Return tt, set_wfile (fun o => o ++ [send_error 404 (Some "Script not found")]) w)
  end.
Proof.
  unfold server_down.run_script.
  destruct (dict_get _ _); [|apply self_send_error_script_not_found].
  unfold server_down.thread_start, modify.
  repeat first [ rewrite bind_run | rewrite send_run | progress cbn beta iota ].
  rewrite !set_wfile_set_wfile. f_equal. apply set_wfile_ext. cbn.
  unfold acknowledgment. by rewrite <- !app_assoc.
Qed.

End RoutingFacts.

Section HandlerTheorems.
Context {codec : ZipCodec}.

(** C7 (as amended). [GET /download/{archiveName}]: when no archive
    entry has that name the answer is 404; otherwise it starts with 200
    and a [Content-Length] equal to the size of the file on disk, and,
    when the server may open the file for reading, goes on with the bytes
    of the file written in chunks of at most [COPY_BUFSIZE] bytes, which
    put together are the file. *)
Theorem download_answer (w : World) (archive_name : string) :
  has_char "/" archive_name = false ->
  let out := wfile (world_after (server_down.do_GET ("/download/" +:+ archive_name)) (fresh w)) in
  match List.find (fun f => String.eqb (name f) archive_name) (listing w) with
  | None => out = [send_error 404 (Some "File not found")]
  | Some _ =>
      exists f,
        zips w !! archive_name = Some f
        /\ (exists body,
              out = download_head archive_name (Z.of_nat (length (bytes_of (fcontent f))))
                    ++ body)
        /\ (readable w archive_name ->
            exists chunks,
              out = download_head archive_name (Z.of_nat (length (bytes_of (fcontent f))))
                    ++ List.map write_bytes chunks
              /\ List.concat chunks = bytes_of (fcontent f)
              /\ Forall (fun buf => (0 < length buf <= COPY_BUFSIZE)%nat) chunks)
  end.
Proof.
  intros Hname out. subst out. rewrite (do_GET_download _ Hname).
  unfold world_after, readable. rewrite download_file_run.
  change (listing (fresh w)) with (listing w).
  change (zips (fresh w)) with (zips w).
  change (faults (fresh w)) with (faults w).
  destruct (List.find _ _) as [info|] eqn:Hfind; [|reflexivity].
  destruct (find_listing _ _ _ _ Hfind) as (f & Hf & -> & _). rewrite Hf.
  exists f. split; [done|].
  assert (Hbody :
    exists chunks,
      download_head archive_name (size (entry_of archive_name f))
      ++ List.map write_bytes (read_chunks COPY_BUFSIZE (bytes_of (fcontent f)))
      = download_head archive_name (Z.of_nat (length (bytes_of (fcontent f))))
        ++ List.map write_bytes chunks
      /\ List.concat chunks = bytes_of (fcontent f)
      /\ Forall (fun buf => (0 < length buf <= COPY_BUFSIZE)%nat) chunks).
  { exists (read_chunks COPY_BUFSIZE (bytes_of (fcontent f))).
    split; [reflexivity|]. split.
    - apply read_chunks_concat, COPY_BUFSIZE_pos.
    - apply read_chunks_bounded. }
  destruct (faults w (os_path_join down_zip.zips_path archive_name)) as [[|]|];
    cbn [snd wfile set_wfile log set_console fresh].
  - split; [exists []; by rewrite app_nil_r|]. intros Hread. by destruct Hread.
  - split; [eexists; reflexivity|]. intros _. exact Hbody.
  - split; [eexists; reflexivity|]. intros _. exact Hbody.
Qed.

(** C5. [GET /run/{jobName}]: an unregistered name is answered 404 and
    starts nothing; a registered name is answered 200 with the
    acknowledgment as soon as the thread is started: at that point the job
    has changed nothing, and whatever it does later leaves the answer as it
    was sent. *)
Theorem trigger_answer (w : World) (job_name : string) :
  has_char "/" job_name = false ->
  let w' := world_after (server_down.do_GET ("/run/" +:+ job_name)) (fresh w) in
  match dict_get server_down.SCRIPT_PATHS job_name with
  | None =>
      wfile w' = [send_error 404 (Some "Script not found")] /\ threads w' = threads w
  | Some _ =>
      wfile w' = acknowledgment job_name
      /\ threads w' = threads w ++ [job_name]
      /\ desktop w' = desktop w /\ zips w' = zips w /\ console w' = console w
      /\ forall c : child, wfile (step (ThreadRuns job_name c) w') = acknowledgment job_name
  end.
Proof.
  intros Hname w'. subst w'. rewrite (do_GET_run _ Hname).
  unfold world_after. rewrite run_script_run.
  destruct (dict_get server_down.SCRIPT_PATHS job_name) as [script_path|] eqn:Hreg.
  2:{ split; reflexivity. }
  cbn [snd]. repeat (split; [reflexivity|]).
  intros c. unfold step. rewrite Hreg.
  replace (existsb (String.eqb job_name) _) with true.
  2:{ symmetry. apply existsb_exists. exists job_name. split.
      - cbn. apply in_or_app. right. by left.
      - apply String.eqb_refl. }
  unfold world_after. rewrite run_in_thread_run. cbn [snd].
  destruct (thread_outcome_frame job_name c
              (set_threads (System.remove_first job_name)
                 (set_wfile (fun o => o ++ acknowledgment job_name)
                    (set_threads (fun t => t ++ [job_name]) (fresh w))))) as (Hw & _).
  rewrite Hw. reflexivity.
Qed.

End HandlerTheorems.

(* ===================================================================== *)
(** * What the server does to the archive folder *)
(* ===================================================================== *)

Section StoreInvariant.
Context {codec : ZipCodec}.

(** A request deletes files of the archive folder or leaves them as they
    are; it writes none. *)
Lemma do_GET_only_deletes (self_path : string) (w : World) (k : string) :
  zips (world_after (server_down.do_GET self_path) w) !! k = None \/
  zips (world_after (server_down.do_GET self_path) w) !! k = zips w !! k.
Proof.
  unfold world_after, server_down.do_GET.
  destruct (String.eqb self_path "/").
  { unfold down_zip.get_downloadable_files. py_run.
    rewrite get_available_files_run. py_run. by right. }
  destruct (startswith self_path "/run/").
  { rewrite run_script_run. destruct (dict_get _ _); by right. }
  destruct (startswith self_path "/download/").
  { rewrite download_file_run.
    destruct (List.find _ _); [destruct (zips w !! _); [destruct (faults w _) as [[|]|]|]|];
      by right. }
  destruct (String.eqb self_path "/status").
  { unfold down_zip.get_downloadable_files, datetime_now. py_run.
    rewrite get_available_files_run. py_run. by right. }
  destruct (String.eqb self_path "/cleanup").
  { unfold server_down.cleanup_files, down_zip.cleanup_files.
    rewrite bind_run, cleanup_old_files_run.
    destruct (sweep _ _ _) as [[store' deleted] failed] eqn:Hs.
    destruct failed; py_run; cbn; eapply sweep_only_deletes; eauto. }
  py_run. by right.
Qed.

Lemma zip_name_of_folder (script_name : string) :
  In (zip_name_of (folder_of script_name)) down_zip.zip_files.
Proof.
  unfold folder_of. destruct (String.eqb script_name "contents");
    [left|right; left]; reflexivity.
Qed.

Lemma thread_outcome_adds (script_name : string) (c : child) (w : World) :
  adds_only_job_archives w (thread_outcome script_name c w).
Proof.
  intros k. unfold thread_outcome, compress_step, log.
  destruct (venv_python w), (spawn_error c), (300 <? duration c); cbn; auto.
  destruct (writes c (desktop w) !! folder_of script_name) as [tree|] eqn:Htree;
    [destruct (snd (written _ _ tree)) as [[p why]|]|];
    destruct (String.eqb (child_stderr c) EmptyString); cbn; auto;
    rewrite lookup_insert; case_decide; subst; auto;
    intros _; right; apply zip_name_of_folder.
Qed.

Lemma step_adds (e : event) (w : World) : adds_only_job_archives w (step e w).
Proof.
  destruct e as [self_path|script_name c|now]; cbn [step].
  - intros k Hk.
    destruct (do_GET_only_deletes self_path (fresh w) k) as [Hnone|Hsame].
    + rewrite Hnone in Hk. by destruct Hk.
    + rewrite Hsame in Hk. by left.
  - destruct (existsb _ _); [|by left].
    destruct (dict_get _ _) as [script_path|]; [|by left].
    unfold world_after. rewrite run_in_thread_run. cbn [snd].
    intros k Hk. by apply thread_outcome_adds in Hk.
  - by left.
Qed.

Lemma run_adds (events : list event) : forall w, adds_only_job_archives w (run events w).
Proof.
  induction events as [|e events IH]; intros w; [by left|].
  unfold run. cbn [fold_left]. fold (run events (step e w)).
  intros k Hk. apply IH in Hk as [Hk|Hk]; [|by right]. by apply (step_adds e w).
Qed.

Lemma run_cons (e : event) (events : list event) (w : World) :
  run (e :: events) w = run events (step e w).
Proof. reflexivity. Qed.

Lemma registered_names (n script_path : string) :
  dict_get server_down.SCRIPT_PATHS n = Some script_path -> In n ["contents"; "comments"].
Proof.
  unfold server_down.SCRIPT_PATHS. cbn [dict_get].
  destruct (String.eqb_spec "contents" n) as [<-|_]; [by left|].
  destruct (String.eqb_spec "comments" n) as [<-|_]; [right; by left|].
  discriminate.
Qed.

Lemma step_trigger (job_name script_path : string) (w : World) :
  has_char "/" job_name = false ->
  dict_get server_down.SCRIPT_PATHS job_name = Some script_path ->
  step (Request ("/run/" +:+ job_name)) w
  = set_wfile (fun o => o ++ acknowledgment job_name)
      (set_threads (fun t => t ++ [job_name]) (fresh w)).
Proof.
  intros Hname Hreg. cbn [step]. rewrite (do_GET_run _ Hname).
  unfold world_after. by rewrite run_script_run, Hreg.
Qed.

(** A trigger followed by the run of its thread is the thread run on the
    world of the trigger, the request answered. *)
Lemma trigger_then_thread (job_name : string) (c : child) (w : World) :
  In job_name ["contents"; "comments"] ->
  exists w1,
    run [Request ("/run/" +:+ job_name); ThreadRuns job_name c] w
    = thread_outcome job_name c w1
    /\ desktop w1 = desktop w /\ zips w1 = zips w /\ home w1 = home w
    /\ clock w1 = clock w /\ venv_python w1 = venv_python w /\ faults w1 = faults w
    /\ console w1 = console w /\ alive w1 = alive w.
Proof.
  intros Hname.
  assert (Hslash : has_char "/" job_name = false)
    by (destruct Hname as [<-|[<-|[]]]; reflexivity).
  assert (Hreg : exists script_path, dict_get server_down.SCRIPT_PATHS job_name = Some script_path)
    by (destruct Hname as [<-|[<-|[]]]; eexists; reflexivity).
  destruct Hreg as [script_path Hreg].
  rewrite !run_cons, (step_trigger _ _ _ Hslash Hreg).
  set (w1 := set_wfile _ _).
  assert (Hstarted : existsb (String.eqb job_name) (threads w1) = true).
  { apply existsb_exists. exists job_name. split; [|apply String.eqb_refl].
    subst w1. cbn. apply in_or_app. right. by left. }
  cbn [run fold_left step]. rewrite Hstarted, Hreg.
  unfold world_after. rewrite run_in_thread_run. cbn [snd].
  exists (set_threads (System.remove_first job_name) w1).
  split; [reflexivity|]. subst w1. by cbn.
Qed.

Lemma archive_file_ext (w1 w2 : World) (folder_name : string) (tree : node) :
  zips w1 = zips w2 -> clock w1 = clock w2 -> home w1 = home w2 ->
  archive_file w1 folder_name tree = archive_file w2 folder_name tree.
Proof. unfold archive_file. by intros -> -> ->. Qed.

(** The thread of a job that ended in time, with the virtual environment
    in place, the output folder there and every file of it accepted,
    leaves the archive of the folder. *)
Lemma thread_leaves_the_archive (job_name : string) (c : child) (w : World) (tree : node) :
  venv_python w = true ->
  In job_name ["contents"; "comments"] ->
  spawn_error c = None ->
  duration c <= 300 ->
  writes c (desktop w) !! job_name = Some tree ->
  accepted w job_name tree ->
  exists f, zips (thread_outcome job_name c w) !! zip_name_of job_name = Some f
            /\ fcontent f = Zip (archive_of_folder (home w) job_name tree).
Proof.
  intros Hvenv Hname Hspawn Hintime Htree Hacc.
  assert (Hfolder : folder_of job_name = job_name)
    by (destruct Hname as [<-|[<-|[]]]; reflexivity).
  unfold thread_outcome. rewrite Hvenv, Hspawn, Hfolder.
  replace (300 <? duration c) with false by (symmetry; apply Z.ltb_ge; lia).
  destruct (ran_frame job_name c w) as (Hrd & Hrz & Hrh & Hrf & Hrc & Hrk).
  set (ran := log ("输出: " +:+ child_stdout c)
                (log ("脚本 " +:+ job_name +:+ " 执行完成")
                   (set_desktop (writes c) (log ("开始执行脚本: " +:+ job_name) w))))
    in *.
  clearbody ran.
  rewrite (compress_step_done job_name ran tree).
  2:{ by rewrite Hrd. }
  2:{ apply written_accepted. by apply (accepted_ext ran w). }
  cbn [fst snd]. exists (archive_file ran job_name tree). split.
  - destruct (String.eqb (child_stderr c) EmptyString); unfold log; cbn [zips set_console];
      rewrite after_compress_lookup; by rewrite decide_True.
  - by rewrite archive_file_content, Hrh.
Qed.

(** C4 (as amended). Whatever requests are served and whatever threads
    run, a file appears in the archive folder only under the one fixed
    name of a registered job's archive, so there is never more than one
    archive per job. When a job is triggered and its thread runs with the
    interpreter of the virtual environment in place, the job ending within
    the 300 seconds with its output folder on the Desktop and every file
    under it accepted by [zipfile], the run leaves under that name the
    archive of the folder as the job left it, whatever archive was there
    before: its members are exactly the files of the folder now, nothing
    of an earlier archive is kept or merged in. *)
Theorem one_archive_per_job_replaced_on_rerun :
  (forall (events : list event) (w : World) (k : string),
     is_Some (zips (run events w) !! k) ->
     is_Some (zips w !! k) \/
     exists job, In job (List.map fst server_down.SCRIPT_PATHS) /\ k = zip_name_of job)
  /\ (forall (w : World) (job : string) (c : child) (tree : node),
        In job (List.map fst server_down.SCRIPT_PATHS) ->
        venv_python w = true ->
        spawn_error c = None ->
        duration c <= 300 ->
        writes c (desktop w) !! job = Some tree ->
        accepted w job tree ->
        let w' := run [Request ("/run/" +:+ job); ThreadRuns job c] w in
        fcontent <$> zips w' !! zip_name_of job
        = Some (Zip (archive_of_folder (home w) job tree))
        /\ (forall e, In e (members (archive_of_folder (home w) job tree)) <->
              exists cs data, file_under tree cs data /\
                e = {| arcname := job :: cs; zdata := data |})).
Proof.
  split.
  - intros events w k Hk. apply run_adds in Hk as [Hk|Hk]; [by left|]. right.
    destruct Hk as [<-|[<-|[]]]; [exists "contents"|exists "comments"]; cbn; auto.
  - intros w job c tree Hjob Hvenv Hspawn Hintime Htree Hacc w'. subst w'.
    destruct (trigger_then_thread job c w Hjob)
      as (w1 & -> & Hd & Hz & Hh & Hc & Hv & Hf & _).
    split; [|intros e; apply archive_members].
    destruct (thread_leaves_the_archive job c w1 tree) as (f & -> & Hcontent).
    + by rewrite Hv.
    + exact Hjob.
    + exact Hspawn.
    + exact Hintime.
    + by rewrite Hd.
    + by apply (accepted_ext w1 w).
    + cbn. by rewrite Hcontent, Hh.
Qed.

End StoreInvariant.

(* ===================================================================== *)
(** * The size shown for an archive *)
(* ===================================================================== *)

Section SizeFacts.

(** Rounding to the nearest integer is off by at most half a unit. *)
Lemma round_half_even_error (a b : Z) :
  0 < b -> 2 * Z.abs (a - b * round_half_even a b) <= b.
Proof.
  intros Hb. unfold round_half_even.
  pose proof (Z.div_mod a b ltac:(lia)) as Hdiv.
  pose proof (Z.mod_pos_bound a b Hb) as Hmod.
  destruct (Z.ltb_spec (2 * (a mod b)) b); [lia|].
  destruct (Z.ltb_spec b (2 * (a mod b))); [lia|].
  destruct (Z.even (a / b)); lia.
Qed.

Lemma fmt_1f_tenths (a b : Z) :
  fmt_1f a b = str_Z (round_half_even (a * 10) b / 10) +:+ "."
               +:+ str_Z (round_half_even (a * 10) b mod 10).
Proof. reflexivity. Qed.

(** X1. From 1024 bytes on, [_format_file_size] prints the size in the
    largest of the units KB, MB and GB that does not exceed it, as a
    number with one decimal: the tenths printed are the tenths of the unit
    nearest to the size, so the text is off by at most a twentieth of the
    unit. *)
Theorem format_file_size_is_the_nearest_tenth (size_bytes : Z) :
  1024 <= size_bytes < 2 ^ 53 ->
  exists (unit tenths : Z) (suffix : string),
    In (unit, suffix) [(1024, " KB"); (1024 * 1024, " MB"); (1024 * 1024 * 1024, " GB")]
    /\ unit <= size_bytes
    /\ (size_bytes < unit * 1024 \/ suffix = " GB")
    /\ down_zip._format_file_size size_bytes
       = (str_Z (tenths / 10) +:+ "." +:+ str_Z (tenths mod 10)) +:+ suffix
    /\ 2 * Z.abs (10 * size_bytes - unit * tenths) <= unit.
Proof.
  intros [Hlo Hhi]. unfold down_zip._format_file_size.
  destruct (Z.ltb_spec size_bytes 1024) as [|_]; [lia|].
  destruct (Z.ltb_spec size_bytes (1024 * 1024)) as [Hkb|Hkb].
  { exists 1024, (round_half_even (size_bytes * 10) 1024), " KB".
    split; [by left|]. split; [lia|]. split; [left; lia|]. split; [reflexivity|].
    pose proof (round_half_even_error (size_bytes * 10) 1024 ltac:(lia)). lia. }
  destruct (Z.ltb_spec size_bytes (1024 * 1024 * 1024)) as [Hmb|Hmb].
  { exists (1024 * 1024), (round_half_even (size_bytes * 10) (1024 * 1024)), " MB".
    split; [by right; left|]. split; [lia|]. split; [left; lia|]. split; [reflexivity|].
    pose proof (round_half_even_error (size_bytes * 10) (1024 * 1024) ltac:(lia)). lia. }
  exists (1024 * 1024 * 1024), (round_half_even (size_bytes * 10) (1024 * 1024 * 1024)), " GB".
  split; [by right; right; left|]. split; [lia|]. split; [by right|]. split; [reflexivity|].
  pose proof (round_half_even_error (size_bytes * 10) (1024 * 1024 * 1024) ltac:(lia)). lia.
Qed.

(** X2. The unit is chosen before the number is rounded: a size in the
    last 51 bytes below 1024 * 1024 is still shown in KB, and rounds up to
    [1024.0 KB]. *)
Theorem format_file_size_just_below_a_megabyte (size_bytes : Z) :
  1024 * 1024 - 51 <= size_bytes < 1024 * 1024 ->
  down_zip._format_file_size size_bytes = "1024.0 KB".
Proof.
  intros [Hlo Hhi]. unfold down_zip._format_file_size.
  destruct (Z.ltb_spec size_bytes 1024) as [|_]; [lia|].
  destruct (Z.ltb_spec size_bytes (1024 * 1024)) as [_|]; [|lia].
  rewrite fmt_1f_tenths.
  assert (Ht : round_half_even (size_bytes * 10) 1024 = 10240).
  { unfold round_half_even.
    assert (Hq : size_bytes * 10 / 1024 = 10239).
    { symmetry. apply (Z.div_unique (size_bytes * 10) 1024 10239 (size_bytes * 10 - 10239 * 1024)); lia. }
    assert (Hr : (size_bytes * 10) mod 1024 = size_bytes * 10 - 10239 * 1024).
    { rewrite Z.mod_eq by lia. lia. }
    rewrite Hq, Hr.
    destruct (Z.ltb_spec (2 * (size_bytes * 10 - 10239 * 1024)) 1024); [lia|].
    destruct (Z.ltb_spec 1024 (2 * (size_bytes * 10 - 10239 * 1024))); [reflexivity|lia]. }
  rewrite Ht. reflexivity.
Qed.

End SizeFacts.

(* ===================================================================== *)
(** * Further properties of the list of archives *)
(* ===================================================================== *)

Section ListingProperties.
Context {codec : ZipCodec}.

Lemma listing_of_names (store : gmap string zfile) (names : list string) :
  List.map name (listing_of store names)
  = List.filter (fun n => bool_decide (is_Some (store !! n))) names.
Proof.
  induction names as [|n names IH]; [reflexivity|]. cbn [listing_of omap list_omap List.filter].
  fold (listing_of store names).
  destruct (store !! n) as [f|] eqn:Ef; cbn [fmap option_fmap option_map].
  - rewrite bool_decide_eq_true_2 by eauto. cbn. by rewrite IH.
  - rewrite bool_decide_eq_false_2 by (intros [? [=]]). exact IH.
Qed.

Lemma listing_of_entries (store : gmap string zfile) (names : list string) (info : file_info) :
  In info (listing_of store names) ->
  exists f, store !! name info = Some f /\ info = entry_of (name info) f.
Proof.
  induction names as [|n names IH]; cbn [listing_of omap list_omap]; [intros []|].
  fold (listing_of store names).
  destruct (store !! n) as [f|] eqn:Ef; cbn [fmap option_fmap option_map]; [|exact IH].
  intros [<-|Hin]; [|by apply IH]. exists f. cbn. auto.
Qed.

(** X3. [get_available_files] only reads: it raises nothing and leaves
    everything as it was. It returns one entry for each of [contents.zip]
    and [comments.zip] that is in the archive folder, in that order, and
    each entry gives the path of the file in the archive folder, the
    number of bytes it holds now, that size once more as text, and its
    creation time to the second. *)
Theorem get_available_files_describes_the_files_there (w : World) :
  exists files : list file_info,
    down_zip.get_available_files w = (Return files, w)
    /\ List.map name files
       = List.filter (fun n => bool_decide (is_Some (zips w !! n))) ["contents.zip"; "comments.zip"]
    /\ (forall info, In info files ->
          exists f, zips w !! name info = Some f
            /\ fpath info = os_path_join down_zip.zips_path (name info)
            /\ size info = Z.of_nat (length (bytes_of (fcontent f)))
            /\ formatted_size info = down_zip._format_file_size (size info)
            /\ created_time info = strftime_ymd_hms (fctime f)).
Proof.
  exists (listing w). split; [apply get_available_files_run|]. split.
  - apply listing_of_names.
  - intros info Hin. destruct (listing_of_entries _ _ _ Hin) as (f & Hf & Hinfo).
    exists f. split; [done|]. rewrite Hinfo. cbn. auto.
Qed.

(** X4. The [size_mb] of an entry is the size in hundredths of
    1024 * 1024 bytes, rounded to the nearest hundredth; so it is 0 for
    every archive of less than 5243 bytes, and for no other. *)
Theorem size_mb_is_the_nearest_hundredth (w : World) :
  exists files : list file_info,
    down_zip.get_available_files w = (Return files, w)
    /\ Forall (fun info =>
                 2 * Z.abs (100 * size info - 1024 * 1024 * size_mb info) <= 1024 * 1024
                 /\ (size_mb info = 0 <-> size info < 5243)) files.
Proof.
  exists (listing w). split; [apply get_available_files_run|].
  apply Forall_forall. intros info Hin%list_elem_of_In.
  destruct (listing_of_entries _ _ _ Hin) as (f & _ & ->).
  cbn [size size_mb entry_of].
  set (n := Z.of_nat (length (bytes_of (fcontent f)))).
  assert (Hn : 0 <= n) by (subst n; lia).
  pose proof (round_half_even_error (n * 100) (1024 * 1024) ltac:(lia)) as Herr.
  split; [lia|]. split; lia.
Qed.

End ListingProperties.

(* ===================================================================== *)
(** * Further properties of the Retention Manager *)
(* ===================================================================== *)

Section RetentionProperties.
Context {codec : ZipCodec}.

(** A sweep keeps every file that is not due, and every file it has no
    name for. *)
Lemma sweep_keeps cutoff names :
  forall store store' deleted failed,
    sweep cutoff names store = (store', deleted, failed) ->
    forall k f, store !! k = Some f -> ~ In k names \/ stale cutoff f = false ->
                store' !! k = Some f.
Proof.
  induction names as [|n names IH]; intros store store' deleted failed Hs k f Hk Hkeep;
    cbn [sweep] in Hs.
  - by inversion Hs; subst.
  - assert (Hkeep' : ~ In k names \/ stale cutoff f = false).
    { destruct Hkeep as [Hnot|Hfresh]; [left|by right]. intros Hin. apply Hnot. by right. }
    destruct (store !! n) as [g|] eqn:Eg; [|by eapply IH].
    destruct (stale cutoff g) eqn:Est; [|by eapply IH].
    destruct (in_use g).
    + by inversion Hs; subst.
    + destruct (sweep cutoff names (delete n store)) as [[s1 d1] f1] eqn:Es.
      inversion Hs; subst. eapply IH; [exact Es| |exact Hkeep'].
      rewrite lookup_delete_ne; [done|]. intros ->.
      destruct Hkeep as [Hnot|Hfresh]; [apply Hnot; by left|congruence].
Qed.

(** The names a sweep reports are the files that are gone after it. *)
Lemma sweep_deleted cutoff names :
  forall store store' deleted failed,
    sweep cutoff names store = (store', deleted, failed) ->
    forall k, In k deleted <-> is_Some (store !! k) /\ store' !! k = None.
Proof.
  induction names as [|n names IH]; intros store store' deleted failed Hs k; cbn [sweep] in Hs.
  - inversion Hs; subst. split; [intros []|]. intros [[f Hf] Hnone]. congruence.
  - assert (Hstop : (store, @nil string, Some n) = (store', deleted, failed) ->
                    In k deleted <-> is_Some (store !! k) /\ store' !! k = None).
    { intros [= <- <- <-]. split; [intros []|]. intros [[f Hf] Hnone]. congruence. }
    destruct (store !! n) as [g|] eqn:Eg; [|by eapply IH].
    destruct (stale cutoff g) eqn:Est; [|by eapply IH].
    destruct (in_use g); [by apply Hstop|].
    destruct (sweep cutoff names (delete n store)) as [[s1 d1] f1] eqn:Es.
    inversion Hs; subst. cbn [In]. rewrite (IH _ _ _ _ Es k).
    destruct (decide (n = k)) as [->|Hne].
    + split.
      * intros _. split; [by rewrite Eg|].
        destruct (sweep_only_deletes _ _ _ _ _ _ Es k) as [Hk|Hk]; [done|].
        rewrite Hk. apply lookup_delete_eq.
      * intros _. by left.
    + rewrite lookup_delete_ne by done. split.
      * intros [Heq|Hk]; [congruence|done].
      * intros Hk. by right.
Qed.

(** Sweeping what a sweep has left deletes nothing more, and stops where
    the first sweep stopped. *)
Lemma sweep_again cutoff names :
  forall store store' deleted failed,
    sweep cutoff names store = (store', deleted, failed) ->
    sweep cutoff names store' = (store', [], failed).
Proof.
  induction names as [|n names IH]; intros store store' deleted failed Hs; cbn [sweep] in Hs.
  - by inversion Hs; subst.
  - destruct (store !! n) as [g|] eqn:Eg.
    2:{ cbn [sweep].
        destruct (sweep_only_deletes _ _ _ _ _ _ Hs n) as [Hn|Hn];
          rewrite Hn, ?Eg; by eapply IH. }
    destruct (stale cutoff g) eqn:Est.
    2:{ cbn [sweep].
        destruct (sweep_only_deletes _ _ _ _ _ _ Hs n) as [Hn|Hn];
          rewrite Hn, ?Eg, ?Est; by eapply IH. }
    destruct (in_use g) eqn:Eu.
    + inversion Hs; subst. cbn [sweep]. by rewrite Eg, Est, Eu.
    + destruct (sweep cutoff names (delete n store)) as [[s1 d1] f1] eqn:Es.
      inversion Hs; subst. cbn [sweep].
      destruct (sweep_only_deletes _ _ _ _ _ _ Es n) as [Hn|Hn].
      * rewrite Hn. by eapply IH.
      * rewrite Hn, lookup_delete_eq. by eapply IH.
Qed.

Lemma after_sweep_again store deleted w :
  after_sweep store [] (after_sweep store deleted w) = after_sweep store deleted w.
Proof.
  unfold after_sweep, set_console, set_zips. cbn. by rewrite app_nil_r.
Qed.

(** X5. A second cleanup right after a cleanup, at the same reading of
    the clock, finds nothing to do: it returns the count 0 and leaves the
    archive folder and the console as the first one left them. This holds
    also when the first cleanup stopped on a file it could not remove. *)
Theorem cleanup_again_changes_nothing (days : Z) (w : World) :
  let w1 := world_after (down_zip.cleanup_old_files days) w in
  world_after (down_zip.cleanup_old_files days) w1 = w1
  /\ exists message, result (down_zip.cleanup_old_files days) w1 = Return (0, message).
Proof.
  intros w1. subst w1. unfold world_after, result.
  rewrite (cleanup_old_files_run days w).
  destruct (sweep (cutoff_of w days) down_zip.zip_files (zips w))
    as [[store' deleted] failed] eqn:Hs.
  assert (Hw1 : forall r : outcome (Z * string),
            snd (match failed with
                 | None => (Return (Z.of_nat (length deleted),
                                    "清理了 " +:+ str_Z (Z.of_nat (length deleted)) +:+ " 个旧文件"),
                            after_sweep store' deleted w)
                 | Some n => (Return (0, "清理文件时出错: "
                                         +:+ str_exn (sharing_violation w
                                                        (os_path_join down_zip.zips_path n))),
                              after_sweep store' deleted w)
                 end) = after_sweep store' deleted w).
  { intros _. by destruct failed. }
  rewrite (Hw1 (Return (0, EmptyString))).
  rewrite (cleanup_old_files_run days (after_sweep store' deleted w)).
  change (cutoff_of (after_sweep store' deleted w) days) with (cutoff_of w days).
  change (zips (after_sweep store' deleted w)) with store'.
  rewrite (sweep_again _ _ _ _ _ _ Hs).
  destruct failed as [n|]; cbn [fst snd]; rewrite after_sweep_again; split; eauto.
Qed.

(** X6. Whatever happens during a cleanup, also when a removal fails, a
    file that is not older than the window is still there afterwards,
    unchanged, and so is every file of the archive folder other than
    [contents.zip] and [comments.zip], however old. *)
Theorem cleanup_keeps_recent_and_other_files
    (days : Z) (w : World) (n : string) (f : zfile) :
  zips w !! n = Some f ->
  ~ In n ["contents.zip"; "comments.zip"]
  \/ timestamp (clock w) - days * (24 * 60 * 60) <= timestamp (fctime f) ->
  zips (world_after (down_zip.cleanup_old_files days) w) !! n = Some f.
Proof.
  intros Hf Hkeep. unfold world_after. rewrite cleanup_old_files_run.
  destruct (sweep (cutoff_of w days) down_zip.zip_files (zips w))
    as [[store' deleted] failed] eqn:Hs.
  assert (Hn : store' !! n = Some f).
  { eapply sweep_keeps; [exact Hs|exact Hf|].
    destruct Hkeep as [Hnot|Hfresh]; [by left|right].
    unfold stale, cutoff_of. apply Z.ltb_ge. lia. }
  by destruct failed.
Qed.

(** The names a sweep reports, in the order it reports them: the names
    of [names], in order, of the files that are gone after it. *)
Lemma sweep_deleted_in_order cutoff names :
  NoDup names ->
  forall store store' deleted failed,
    sweep cutoff names store = (store', deleted, failed) ->
    deleted = List.filter
                (fun n => match store !! n, store' !! n with
                          | Some _, None => true
                          | _, _ => false
                          end) names.
Proof.
  induction 1 as [|n names Hn Hnd IH]; intros store store' deleted failed Hs;
    cbn [sweep] in Hs.
  - by inversion Hs; subst.
  - cbn [List.filter].
    destruct (store !! n) as [g|] eqn:Eg; [|by eapply IH].
    destruct (stale cutoff g) eqn:Est.
    2:{ rewrite (sweep_keeps _ _ _ _ _ _ Hs n g Eg) by (by right). by eapply IH. }
    destruct (in_use g).
    + inversion Hs; subst. rewrite Eg.
      symmetry. clear. induction names as [|m names IH]; [reflexivity|].
      cbn [List.filter]. by destruct (store' !! m).
    + destruct (sweep cutoff names (delete n store)) as [[s1 d1] f1] eqn:Es.
      inversion Hs; subst.
      assert (Hgone : store' !! n = None).
      { destruct (sweep_only_deletes _ _ _ _ _ _ Es n) as [Hk|Hk]; [done|].
        rewrite Hk. apply lookup_delete_eq. }
      rewrite Hgone. f_equal. rewrite (IH _ _ _ _ Es).
      apply filter_ext_in_iff. intros m Hm.
      rewrite lookup_delete_ne; [done|].
      intros ->. apply Hn. by apply list_elem_of_In.
Qed.

(** X7. The console tells what a cleanup deleted, also when the cleanup
    fails and returns the count 0: it prints one line per file removed, in
    the order of removal, which is [contents.zip] before [comments.zip].
    The files named are exactly the files that were in the archive folder
    before and are gone after, each named once, and there are as many
    lines as the folder has lost files. *)
Theorem cleanup_prints_every_deletion (days : Z) (w : World) :
  let w' := world_after (down_zip.cleanup_old_files days) w in
  exists deleted : list string,
    console w' = console w ++ List.map (fun n => "已删除旧文件: " +:+ n) deleted
    /\ deleted = List.filter
                   (fun n => match zips w !! n, zips w' !! n with
                             | Some _, None => true
                             | _, _ => false
                             end) ["contents.zip"; "comments.zip"]
    /\ (forall n, In n deleted <-> is_Some (zips w !! n) /\ zips w' !! n = None)
    /\ List.NoDup deleted
    /\ Z.of_nat (length deleted) = number_deleted w w'.
Proof.
  intros w'. subst w'. unfold world_after, number_deleted. rewrite cleanup_old_files_run.
  destruct (sweep (cutoff_of w days) down_zip.zip_files (zips w))
    as [[store' deleted] failed] eqn:Hs.
  exists deleted.
  assert (Hworld : forall r1 r2 : outcome (Z * string),
            snd (match failed with
                 | None => (r1, after_sweep store' deleted w)
                 | Some n => (r2, after_sweep store' deleted w)
                 end) = after_sweep store' deleted w)
    by (intros; by destruct failed).
  pose proof (sweep_deleted_in_order _ _ zip_files_NoDup _ _ _ _ Hs) as Horder.
  pose proof (sweep_size _ _ _ _ _ _ Hs) as Hsize.
  assert (Hnodup : List.NoDup deleted).
  { rewrite Horder. apply List.NoDup_filter, NoDup_ListNoDup, zip_files_NoDup. }
  destruct failed as [m|]; cbn [snd]; (split; [reflexivity|]);
    (split; [exact Horder|]);
    (split; [intros n; apply (sweep_deleted _ _ _ _ _ _ Hs n)|]);
    (split; [exact Hnodup|]); cbn [zips after_sweep set_console set_zips]; lia.
Qed.

End RetentionProperties.

(* ===================================================================== *)
(** * Further properties of the Archive Manager *)
(* ===================================================================== *)

Section ArchiveProperties.
Context {codec : ZipCodec}.

(** A name other than the two folder names is refused at once. *)
Lemma compress_folder_unknown (folder_name : string) (w : World) :
  ~ In folder_name ["contents"; "comments"] ->
  down_zip.compress_folder folder_name w
  = (Return (false, "不支持的文件夹: " +:+ folder_name, None), w).
Proof.
  intros Hnot. unfold down_zip.compress_folder.
  destruct (String.eqb_spec folder_name "contents") as [->|_].
  { exfalso. apply Hnot. by left. }
  destruct (String.eqb_spec folder_name "comments") as [->|_].
  { exfalso. apply Hnot. right. by left. }
  reflexivity.
Qed.

Lemma known_folder_dec (folder_name : string) :
  sumbool (In folder_name ["contents"; "comments"]) (~ In folder_name ["contents"; "comments"]).
Proof. apply (In_dec string_dec). Qed.

(** X8. [compress_folder] raises for no folder name. It succeeds exactly
    when the name is [contents] or [comments], that folder is on the
    Desktop and [zipfile] accepts every file under it; it then returns the
    job's archive path. For any other name it answers that the folder is
    not supported, and for a folder that is not there that the folder does
    not exist; in both cases it returns no path and has changed and
    printed nothing. When the folder is there and a file under it is
    refused, it returns no path and the text of the error as its message,
    after printing the start line and that message; the archive file is
    there all the same. In every case the Desktop, with the folder it
    read, is as it was. *)
Theorem compress_folder_succeeds_exactly_when_it_can (folder_name : string) (w : World) :
  let w' := world_after (down_zip.compress_folder folder_name) w in
  let folder_path := os_path_join down_zip.desktop_path folder_name in
  exists (success : bool) (message : string) (zip_path : option path),
    result (down_zip.compress_folder folder_name) w = Return (success, message, zip_path)
    /\ (success = true <->
          In folder_name ["contents"; "comments"]
          /\ exists tree, desktop w !! folder_name = Some tree
                          /\ accepted w folder_name tree)
    /\ (success = true ->
          zip_path = Some (os_path_join down_zip.zips_path (zip_name_of folder_name)))
    /\ (~ In folder_name ["contents"; "comments"] ->
          message = "不支持的文件夹: " +:+ folder_name /\ zip_path = None /\ w' = w)
    /\ (In folder_name ["contents"; "comments"] -> desktop w !! folder_name = None ->
          message = "文件夹不存在: " +:+ render (home w) folder_path
          /\ zip_path = None /\ w' = w)
    /\ (In folder_name ["contents"; "comments"] ->
        forall tree, desktop w !! folder_name = Some tree ->
        ~ accepted w folder_name tree ->
          zip_path = None
          /\ (exists cs data why,
                file_under tree cs data
                /\ faults w (below folder_path cs) = Some why
                /\ message = "压缩失败: " +:+ str_exn (refusal w (below folder_path cs) why))
          /\ console w' = console w ++ [started_line w folder_name; message]
          /\ is_Some (zips w' !! zip_name_of folder_name))
    /\ desktop w' = desktop w.
Proof.
  intros w' folder_path. subst w' folder_path. unfold result, world_after.
  destruct (known_folder_dec folder_name) as [Hknown|Hnot].
  - rewrite compress_folder_run by exact Hknown.
    destruct (desktop w !! folder_name) as [tree|] eqn:Htree; cbn [fst snd].
    + pose proof (written_accepted w folder_name tree) as Hacc.
      pose proof (written_stop w folder_name tree) as Hstop.
      destruct (snd (written w folder_name tree)) as [[p why]|]; cbn [fst snd].
      * eexists _, _, _. split; [reflexivity|]. split.
        { split; [discriminate|]. intros (_ & tree' & [= <-] & Ha).
          apply Hacc in Ha. discriminate. }
        split; [discriminate|].
        split; [intros Hnot; contradiction|]. split; [discriminate|].
        split; [|reflexivity].
        intros _ tree' [= <-] _. split; [reflexivity|].
        destruct (Hstop p why eq_refl) as (cs & data & rest & Hunder & -> & Hf & _).
        split; [by exists cs, data, why|]. split; [reflexivity|].
        rewrite after_failed_compress_lookup, decide_True by done. by eexists.
      * eexists _, _, _. split; [reflexivity|]. split.
        { split; [|done]. intros _. split; [done|]. exists tree. split; [done|].
          by apply Hacc. }
        split; [done|].
        split; [intros Hnot; contradiction|]. split; [discriminate|].
        split; [|reflexivity].
        intros _ tree' [= <-] Hno. exfalso. apply Hno. by apply Hacc.
    + eexists _, _, _. split; [reflexivity|]. split.
      { split; [discriminate|]. intros (_ & tree' & [=] & _). }
      split; [discriminate|].
      split; [intros Hnot; contradiction|]. split.
      { intros _ _. split; [reflexivity|]. split; reflexivity. }
      split; [|reflexivity]. intros _ tree' [=].
  - rewrite compress_folder_unknown by exact Hnot. cbn [fst snd].
    eexists _, _, _. split; [reflexivity|]. split.
    { split; [discriminate|]. intros [Hin _]. contradiction. }
    split; [discriminate|].
    split; [intros _; split; [reflexivity|split; reflexivity]|].
    split; [intros Hin; contradiction|].
    split; [intros Hin; contradiction|reflexivity].
Qed.

(** X9. Only regular files become members. When nothing under the folder
    is a regular file (the folder is empty, holds only empty folders, or a
    regular file stands where the folder should be), [compress_folder]
    still succeeds: it writes an archive without members and reports 0
    files. *)
Theorem compress_folder_without_files_writes_an_empty_archive
    (w : World) (folder_name : string) (tree : node) :
  In folder_name ["contents"; "comments"] ->
  desktop w !! folder_name = Some tree ->
  (forall cs data, ~ file_under tree cs data) ->
  let w' := world_after (down_zip.compress_folder folder_name) w in
  exists (size_text : string) (f : zfile),
    result (down_zip.compress_folder folder_name) w
    = Return (true,
              "成功压缩: " +:+ zip_name_of folder_name +:+ " (0个文件, " +:+ size_text +:+ ")",
              Some (os_path_join down_zip.zips_path (zip_name_of folder_name)))
    /\ zips w' !! zip_name_of folder_name = Some f
    /\ fcontent f = Zip {| zmethod := ZIP_DEFLATED; members := [] |}.
Proof.
  intros Hknown Htree Hnone w'. subst w'. unfold result, world_after.
  rewrite compress_folder_run, Htree by exact Hknown.
  assert (Hall : snd (written w folder_name tree) = None).
  { apply written_accepted. intros cs data Hunder. by destruct (Hnone cs data). }
  rewrite Hall. cbn [fst snd].
  assert (Hempty : archive_of_folder (home w) folder_name tree
                   = {| zmethod := ZIP_DEFLATED; members := [] |}).
  { pose proof (archive_members (home w) folder_name tree) as Hm.
    destruct (archive_of_folder (home w) folder_name tree) as [method ms] eqn:Ha.
    assert (method = ZIP_DEFLATED) as -> by (unfold archive_of_folder in Ha; congruence).
    destruct ms as [|e ms]; [reflexivity|].
    destruct (proj1 (Hm e) (or_introl eq_refl)) as (cs & data & Hunder & _).
    by destruct (Hnone cs data). }
  eexists _, (archive_file w folder_name tree).
  split; [|split].
  - unfold success_message. rewrite Hempty. cbn [members length]. reflexivity.
  - rewrite after_compress_lookup. by rewrite decide_True.
  - by rewrite archive_file_content, Hempty.
Qed.

(** X10. Compressing the same folder a second time, with the folder as it
    was, leaves the archive folder as the first time left it. *)
Theorem compress_folder_again_leaves_the_same_archive (folder_name : string) (w : World) :
  let w1 := world_after (down_zip.compress_folder folder_name) w in
  zips (world_after (down_zip.compress_folder folder_name) w1) = zips w1.
Proof.
  intros w1. subst w1. unfold world_after.
  destruct (known_folder_dec folder_name) as [Hknown|Hnot].
  2:{ by rewrite !compress_folder_unknown by exact Hnot. }
  rewrite (compress_folder_run folder_name w) by exact Hknown.
  destruct (desktop w !! folder_name) as [tree|] eqn:Htree; cbn [snd].
  2:{ rewrite compress_folder_run by exact Hknown. by rewrite Htree. }
  destruct (snd (written w folder_name tree)) as [[p why]|] eqn:Hstop; cbn [snd].
  - rewrite compress_folder_run by exact Hknown.
    change (desktop (after_failed_compress w folder_name tree p why)) with (desktop w).
    rewrite Htree.
    rewrite (written_ext (after_failed_compress w folder_name tree p why) w) by done.
    rewrite Hstop. cbn [snd].
    assert (Hsame : file_with (after_failed_compress w folder_name tree p why) folder_name
                      (fst (written w folder_name tree))
                    = file_with w folder_name (fst (written w folder_name tree))).
    { unfold file_with at 1. rewrite after_failed_compress_lookup, decide_True by done.
      unfold file_with. by destruct (zips w !! zip_name_of folder_name). }
    unfold after_failed_compress at 1.
    rewrite (written_ext (after_failed_compress w folder_name tree p why) w) by done.
    rewrite Hsame. unfold after_failed_compress.
    cbn [zips set_console set_zips]. apply insert_insert_eq.
  - rewrite compress_folder_run by exact Hknown.
    change (desktop (after_compress w folder_name tree)) with (desktop w). rewrite Htree.
    rewrite (written_ext (after_compress w folder_name tree) w) by done.
    rewrite Hstop. cbn [snd].
    assert (Hsame : archive_file (after_compress w folder_name tree) folder_name tree
                    = archive_file w folder_name tree).
    { unfold archive_file at 1. rewrite after_compress_lookup, decide_True by done.
      change (home (after_compress w folder_name tree)) with (home w).
      unfold archive_file. by destruct (zips w !! zip_name_of folder_name). }
    unfold after_compress at 1. rewrite Hsame. unfold after_compress.
    cbn [zips set_console set_zips]. apply insert_insert_eq.
Qed.

(** X11. When every file under the folder is accepted, the message of
    [compress_folder] tells the truth about the file it wrote: it names
    the archive, the number of members the archive has, and the size the
    file has on disk. The call prints two lines and nothing else: the
    start line, which names the folder and the archive by their full
    paths, and then this message. *)
Theorem compress_folder_reports_what_it_wrote
    (w : World) (folder_name : string) (tree : node) :
  In folder_name ["contents"; "comments"] ->
  desktop w !! folder_name = Some tree ->
  accepted w folder_name tree ->
  let w' := world_after (down_zip.compress_folder folder_name) w in
  exists (message : string) (f : zfile) (a : archive),
    result (down_zip.compress_folder folder_name) w
    = Return (true, message, Some (os_path_join down_zip.zips_path (zip_name_of folder_name)))
    /\ zips w' !! zip_name_of folder_name = Some f
    /\ fcontent f = Zip a
    /\ message = "成功压缩: " +:+ zip_name_of folder_name
                 +:+ " (" +:+ str_Z (Z.of_nat (length (members a))) +:+ "个文件, "
                 +:+ down_zip._format_file_size (Z.of_nat (length (bytes_of (fcontent f))))
                 +:+ ")"
    /\ console w'
       = console w
         ++ ["开始压缩文件夹: "
             +:+ render (home w) (os_path_join down_zip.desktop_path folder_name)
             +:+ " -> "
             +:+ render (home w) (os_path_join down_zip.zips_path (zip_name_of folder_name));
             message].
Proof.
  intros Hknown Htree Hacc w'. subst w'. unfold result, world_after.
  rewrite compress_folder_run, Htree by exact Hknown.
  apply written_accepted in Hacc. rewrite Hacc. cbn [fst snd].
  exists (success_message w folder_name tree), (archive_file w folder_name tree),
         (archive_of_folder (home w) folder_name tree).
  split; [reflexivity|]. split.
  { rewrite after_compress_lookup. by rewrite decide_True. }
  split; [apply archive_file_content|]. split; [|reflexivity].
  rewrite archive_file_content. reflexivity.
Qed.

End ArchiveProperties.

(* ===================================================================== *)
(** * The names of the members of an archive *)
(* ===================================================================== *)

Section MemberNames.
Context {codec : ZipCodec}.

Lemma distinct_NoDup (l : list string) : distinct l = true -> List.NoDup l.
Proof.
  induction l as [|c l IH]; cbn [distinct]; [constructor|].
  intros [Hc Hl]%andb_true_iff. constructor; [|by apply IH].
  intros Hin. apply negb_true_iff in Hc.
  assert (existsb (String.eqb c) l = true); [|congruence].
  apply existsb_exists. exists c. split; [done|apply String.eqb_refl].
Qed.

Lemma unique_names_dir (es : list (string * node)) :
  unique_names (Dir es) = true ->
  List.NoDup (List.map fst es) /\ Forall (fun e => unique_names (snd e) = true) es.
Proof.
  cbn [unique_names]. intros [Hd Hall]%andb_true_iff. split; [by apply distinct_NoDup|].
  clear Hd. induction es as [|[c child] es IH]; [constructor|].
  apply andb_true_iff in Hall as [Hc Hes]. constructor; [exact Hc|by apply IH].
Qed.

Lemma flat_map_flat_map {A B C} (f : B -> list C) (g : A -> list B) (l : list A) :
  flat_map f (flat_map g l) = flat_map (fun a => flat_map f (g a)) l.
Proof.
  induction l as [|a l IH]; [reflexivity|]. cbn [flat_map]. by rewrite flat_map_app, IH.
Qed.

Lemma flat_map_ext_on {A B} (f g : A -> list B) (l : list A) :
  (forall a, In a l -> f a = g a) -> flat_map f l = flat_map g l.
Proof.
  induction l as [|a l IH]; intros Hfg; [reflexivity|]. cbn [flat_map].
  rewrite (Hfg a) by (by left). rewrite IH; [reflexivity|]. intros b Hb. apply Hfg. by right.
Qed.

Lemma walked_dir (top : path) (es : list (string * node)) :
  flat_map walked (os_walk top (Dir es))
  = List.map (fun file : string * list byte => rel top ++ [fst file]) (filenames es)
    ++ flat_map (fun e => flat_map walked (os_walk (os_path_join top (fst e)) (snd e))) es.
Proof. rewrite os_walk_dir. cbn [flat_map]. by rewrite flat_map_flat_map. Qed.

(** Every place a walk lists is strictly below the top of the walk. *)
Lemma walked_below (tree : node) : forall top x,
  In x (flat_map walked (os_walk top tree)) -> exists c cs, x = rel top ++ c :: cs.
Proof.
  induction tree as [data0|es IH] using node_tree_ind; intros top x Hx.
  - destruct Hx.
  - rewrite walked_dir in Hx. apply in_app_or in Hx as [Hx|Hx].
    + apply in_map_iff in Hx as ([c d] & <- & _). by exists c, [].
    + apply in_flat_map in Hx as ([c child] & Hin & Hx). cbn [fst snd] in Hx.
      rewrite Forall_forall in IH.
      assert (Hchild := IH (c, child) ltac:(by apply list_elem_of_In)). cbn in Hchild.
      destruct (Hchild _ _ Hx) as (c' & cs & ->).
      exists c, (c' :: cs). unfold os_path_join. cbn [rel]. by rewrite <- app_assoc.
Qed.

Lemma filenames_names (es : list (string * node)) :
  List.NoDup (List.map fst es) -> List.NoDup (List.map fst (filenames es)).
Proof.
  induction es as [|[c [data|sub]] es IH]; cbn [filenames List.map fst]; intros Hnd.
  - constructor.
  - inversion Hnd as [|? ? Hc Hes]; subst. constructor; [|by apply IH].
    intros Hin. apply Hc. apply in_map_iff in Hin as ([c' d] & <- & Hin).
    apply in_filenames in Hin. apply in_map_iff. by exists (c', File d).
  - inversion Hnd; subst. by apply IH.
Qed.

Lemma places_NoDup (prefix : list string) (files : list (string * list byte)) :
  List.NoDup (List.map fst files) ->
  List.NoDup (List.map (fun file : string * list byte => prefix ++ [fst file]) files).
Proof.
  induction files as [|[c d] files IH]; cbn [List.map fst]; intros Hnd; [constructor|].
  inversion Hnd as [|? ? Hc Hfiles]; subst. constructor; [|by apply IH].
  intros Hin. apply Hc. apply in_map_iff in Hin as ([c' d'] & Heq & Hin).
  apply app_inv_head in Heq. injection Heq as ->. apply in_map_iff. by exists (c, d').
Qed.

(** The walks of two entries of a folder list no place in common. *)
Lemma sub_walks_NoDup (top : path) (es : list (string * node)) :
  List.NoDup (List.map fst es) ->
  Forall (fun e => List.NoDup (flat_map walked (os_walk (os_path_join top (fst e)) (snd e)))) es ->
  List.NoDup (flat_map (fun e => flat_map walked (os_walk (os_path_join top (fst e)) (snd e))) es).
Proof.
  induction es as [|[c child] es IH]; cbn [List.map fst flat_map]; intros Hnd Hall; [constructor|].
  inversion Hnd as [|? ? Hc Hes]; subst. inversion Hall as [|? ? Hchild Hrest]; subst.
  apply List.NoDup_app; [exact Hchild|by apply IH|].
  intros x Hx Hx'. cbn [fst snd] in Hx.
  apply in_flat_map in Hx' as ([c' child'] & Hin & Hx'). cbn [fst snd] in Hx'.
  destruct (walked_below _ _ _ Hx) as (a & cs & ->).
  destruct (walked_below _ _ _ Hx') as (a' & cs' & Heq).
  unfold os_path_join in Heq. cbn [rel] in Heq. rewrite <- !app_assoc in Heq.
  apply app_inv_head in Heq. injection Heq as -> _ _.
  apply Hc. apply in_map_iff. by exists (c', child').
Qed.

(** In a tree whose folders have no two entries of the same name, a walk
    lists no place twice. *)
Lemma walked_NoDup (tree : node) : forall top,
  unique_names tree = true -> List.NoDup (flat_map walked (os_walk top tree)).
Proof.
  induction tree as [data0|es IH] using node_tree_ind; intros top Hu; [constructor|].
  apply unique_names_dir in Hu as [Hnames Hsub].
  rewrite walked_dir. apply List.NoDup_app.
  - by apply places_NoDup, filenames_names.
  - apply sub_walks_NoDup; [exact Hnames|].
    rewrite Forall_forall in IH, Hsub. apply Forall_forall. intros e He.
    apply IH; [exact He|by apply Hsub].
  - intros x Hx Hx'. apply in_map_iff in Hx as ([c d] & <- & _).
    apply in_flat_map in Hx' as ([c' child] & _ & Hx'). cbn [fst snd] in Hx'.
    destruct (walked_below _ _ _ Hx') as (a & cs & Heq).
    unfold os_path_join in Heq. cbn [rel fst] in Heq. rewrite <- app_assoc in Heq.
    apply app_inv_head in Heq. discriminate Heq.
Qed.

Lemma walk_proot (tree : node) : forall top item,
  In item (os_walk top tree) -> proot (wroot item) = proot top.
Proof.
  induction tree as [data0|es IH] using node_tree_ind; intros top item Hitem.
  - destruct Hitem.
  - rewrite os_walk_dir in Hitem. destruct Hitem as [<-|Hitem]; [reflexivity|].
    apply in_flat_map in Hitem as ([c child] & Hin & Hitem). cbn [fst snd] in Hitem.
    rewrite Forall_forall in IH.
    assert (Hchild := IH (c, child) ltac:(by apply list_elem_of_In)). cbn in Hchild.
    by rewrite (Hchild _ _ Hitem).
Qed.

(** The member names of the archive of a folder are the places the walk
    of the folder lists. *)
Lemma member_names_walked (h : list string) (folder_name : string) (tree : node) :
  List.map arcname (members (archive_of_folder h folder_name tree))
  = flat_map walked (os_walk (os_path_join (Path DesktopDir []) folder_name) tree).
Proof.
  unfold archive_of_folder, members_for. cbn [members].
  set (folder_path := os_path_join (Path DesktopDir []) folder_name).
  rewrite flat_map_concat_map, concat_map, map_map, <- flat_map_concat_map.
  apply flat_map_ext_on. intros item Hitem.
  rewrite map_map. unfold walked. apply map_ext. intros [c d].
  unfold member_for. cbn [arcname fst].
  pose proof (walk_proot _ _ _ Hitem) as Hroot.
  unfold abs_components, os_path_join, os_path_dirname, folder_path.
  cbn [proot rel app removelast]. cbn [proot os_path_join] in Hroot. rewrite Hroot.
  rewrite app_nil_r. apply os_path_relpath_below. by destruct (rel (wroot item)).
Qed.

(** X12. No two members of the archive [compress_folder] writes have the
    same name, as long as no folder under the output folder has two
    entries of the same name (which a file system guarantees): extracting
    the archive overwrites nothing it has just extracted. *)
Theorem archive_members_have_distinct_names
    (w : World) (folder_name : string) (tree : node) :
  In folder_name ["contents"; "comments"] ->
  desktop w !! folder_name = Some tree ->
  unique_names tree = true ->
  let w' := world_after (down_zip.compress_folder folder_name) w in
  exists (f : zfile) (a : archive),
    zips w' !! zip_name_of folder_name = Some f
    /\ fcontent f = Zip a
    /\ List.NoDup (List.map arcname (members a)).
Proof.
  intros Hknown Htree Hu w'. subst w'. unfold world_after.
  rewrite compress_folder_run, Htree by exact Hknown.
  assert (Hnames : List.NoDup (List.map arcname
                      (members (archive_of_folder (home w) folder_name tree))))
    by (rewrite member_names_walked; by apply walked_NoDup).
  pose proof (written_stop w folder_name tree) as Hstop.
  destruct (snd (written w folder_name tree)) as [[p why]|]; cbn [snd].
  - destruct (Hstop p why eq_refl) as (cs & data & rest & _ & _ & _ & Hms & _).
    exists (file_with w folder_name (fst (written w folder_name tree))),
           {| zmethod := ZIP_DEFLATED; members := fst (written w folder_name tree) |}.
    split; [|split].
    + rewrite after_failed_compress_lookup. by rewrite decide_True.
    + apply file_with_content.
    + cbn [members]. rewrite Hms, List.map_app in Hnames.
      by apply List.NoDup_app_remove_r in Hnames.
  - exists (archive_file w folder_name tree), (archive_of_folder (home w) folder_name tree).
    split; [|split].
    + rewrite after_compress_lookup. by rewrite decide_True.
    + apply archive_file_content.
    + exact Hnames.
Qed.

End MemberNames.

(* ===================================================================== *)
(** * Further properties of the Job Runner *)
(* ===================================================================== *)

Section JobRunnerProperties.
Context {codec : ZipCodec}.

(** X13. Without [python.exe] in the virtual environment the thread runs
    the job with the system interpreter and stops there: it never calls
    the Archive Manager, so the archive folder is as it was whatever the
    job did, and the console gets a single line, which for a job that ended
    in time says that the script has been executed. *)
Theorem thread_without_the_virtual_environment_archives_nothing
    (script_name script_path : string) (c : child) (w : World) :
  venv_python w = false ->
  let w' := world_after (server_down.run_in_thread script_name script_path c) w in
  zips w' = zips w
  /\ exists line, console w' = console w ++ [line]
       /\ (spawn_error c = None -> duration c <= 300 ->
           line = "脚本 " +:+ script_name +:+ " 执行完成"
           /\ desktop w' = writes c (desktop w)).
Proof.
  intros Hvenv w'. subst w'. unfold world_after. rewrite run_in_thread_run. cbn [snd].
  unfold thread_outcome, log. rewrite Hvenv.
  destruct (spawn_error c) as [msg|].
  { split; [reflexivity|]. eexists. split; [reflexivity|]. discriminate. }
  destruct (Z.ltb_spec 300 (duration c)).
  { split; [reflexivity|]. eexists. split; [reflexivity|]. intros _ ?. lia. }
  split; [reflexivity|]. eexists. split; [reflexivity|]. intros _ _. split; reflexivity.
Qed.

(** X14. What the thread of a job that ended in time prints, with the
    virtual environment in place and the output folder there: the start
    line, the completion line, the job's standard output (also when it is
    empty), the two lines of the Archive Manager, the result of the
    compression, and last the job's standard error, which is printed only
    when it is not empty. The two lines of the Archive Manager are its
    start line and then its message, which is printed once more as the
    result: the success message when every file under the folder is
    accepted, and the text of the error when one is refused. *)
Theorem thread_console_of_a_completed_job
    (script_name script_path : string) (c : child) (w : World) (tree : node) :
  venv_python w = true ->
  In script_name ["contents"; "comments"] ->
  spawn_error c = None ->
  duration c <= 300 ->
  writes c (desktop w) !! script_name = Some tree ->
  let w' := world_after (server_down.run_in_thread script_name script_path c) w in
  let folder_path := os_path_join down_zip.desktop_path script_name in
  exists message : string,
    console w' =
      console w
      ++ ["开始执行脚本: " +:+ script_name;
          "脚本 " +:+ script_name +:+ " 执行完成";
          "输出: " +:+ child_stdout c;
          started_line w script_name;
          message;
          "压缩结果: " +:+ message]
      ++ (if String.eqb (child_stderr c) EmptyString then []
          else ["错误: " +:+ child_stderr c])
    /\ (accepted w script_name tree -> message = success_message w script_name tree)
    /\ (~ accepted w script_name tree ->
        exists cs data why,
          file_under tree cs data
          /\ faults w (below folder_path cs) = Some why
          /\ message = "压缩失败: " +:+ str_exn (refusal w (below folder_path cs) why)).
Proof.
  intros Hvenv Hname Hspawn Hintime Htree w' folder_path. subst w' folder_path.
  unfold world_after. rewrite run_in_thread_run. cbn [snd].
  assert (Hfolder : folder_of script_name = script_name).
  { destruct Hname as [<-|[<-|[]]]; reflexivity. }
  unfold thread_outcome. rewrite Hvenv, Hspawn, Hfolder.
  replace (300 <? duration c) with false by (symmetry; apply Z.ltb_ge; lia).
  destruct (ran_frame script_name c w) as (Hrd & Hrz & Hrh & Hrf & Hrc & Hrk).
  set (ran := log ("输出: " +:+ child_stdout c)
                (log ("脚本 " +:+ script_name +:+ " 执行完成")
                   (set_desktop (writes c) (log ("开始执行脚本: " +:+ script_name) w))))
    in *.
  clearbody ran.
  assert (Hsame : written ran script_name tree = written w script_name tree)
    by (by apply written_ext).
  assert (Hstart : started_line ran script_name = started_line w script_name)
    by (unfold started_line; by rewrite Hrh).
  pose proof (written_accepted w script_name tree) as Hacc.
  pose proof (written_stop w script_name tree) as Hstop.
  destruct (snd (written w script_name tree)) as [[p why]|] eqn:Hw.
  - rewrite (compress_step_failed script_name ran tree p why)
      by (by rewrite ?Hrd, ?Hsame).
    cbn [fst snd].
    exists (failure_message w p why).
    assert (Hmsg : failure_message ran p why = failure_message w p why)
      by (unfold failure_message; by rewrite (refusal_ext ran w)).
    rewrite Hmsg. split; [|split].
    + unfold after_failed_compress, log. rewrite Hmsg, Hstart.
      destruct (String.eqb (child_stderr c) EmptyString);
        cbn [console set_console set_zips]; rewrite Hrk, <- ?app_assoc; reflexivity.
    + intros Ha. apply Hacc in Ha. discriminate.
    + intros _.
      destruct (Hstop p why eq_refl) as (cs & data & rest & Hunder & -> & Hf & _).
      by exists cs, data, why.
  - rewrite (compress_step_done script_name ran tree) by (by rewrite ?Hrd, ?Hsame).
    cbn [fst snd].
    exists (success_message w script_name tree).
    assert (Hmsg : success_message ran script_name tree = success_message w script_name tree)
      by (unfold success_message; by rewrite Hrh).
    rewrite Hmsg. split; [|split].
    + unfold after_compress, log. rewrite Hmsg, Hstart.
      destruct (String.eqb (child_stderr c) EmptyString);
        cbn [console set_console set_zips]; rewrite Hrk, <- ?app_assoc; reflexivity.
    + done.
    + intros Hno. exfalso. apply Hno. by apply Hacc.
Qed.

(** X15. The thread of a job writes no archive but its own: whatever the
    job does, every other file of the archive folder, the archive of the
    other job included, is afterwards as it was before. *)
Theorem a_thread_writes_only_its_own_archive
    (script_name script_path : string) (c : child) (w : World) (k : string) :
  In script_name ["contents"; "comments"] ->
  k <> zip_name_of script_name ->
  zips (world_after (server_down.run_in_thread script_name script_path c) w) !! k
  = zips w !! k.
Proof.
  intros Hname Hk. unfold world_after. rewrite run_in_thread_run. cbn [snd].
  assert (Hfolder : folder_of script_name = script_name).
  { destruct Hname as [<-|[<-|[]]]; reflexivity. }
  unfold thread_outcome, compress_step, log. rewrite Hfolder.
  destruct (venv_python w), (spawn_error c), (300 <? duration c); cbn; auto.
  destruct (writes c (desktop w) !! script_name) as [tree|];
    [destruct (snd (written _ _ tree)) as [[p why]|]|];
    destruct (String.eqb (child_stderr c) EmptyString); cbn; auto;
    by apply lookup_insert_ne.
Qed.

End JobRunnerProperties.

(* ===================================================================== *)
(** * Further properties of the Control Server *)
(* ===================================================================== *)

Section RoutingProperties.
Context {codec : ZipCodec}.

(** The pieces of a text that ends in a separator followed by [n]. *)
Lemma split_last_segment (a n : string) :
  has_char "/" n = false ->
  exists h t, split "/" (a +:+ "/" +:+ n) = h :: t ++ [n].
Proof.
  intros Hn. induction a as [|c a (h & t & IH)].
  - exists EmptyString, [].
    change (EmptyString +:+ "/" +:+ n) with (String "/" n).
    cbn [split Ascii.eqb Bool.eqb]. by rewrite (split_no_sep n Hn).
  - change (String c a +:+ "/" +:+ n) with (String c (a +:+ "/" +:+ n)).
    cbn [split]. rewrite IH. destruct (Ascii.eqb c "/").
    + by exists EmptyString, (h :: t).
    + by exists (String c h), t.
Qed.

Lemma last_item_last_segment (a n : string) :
  has_char "/" n = false -> last_item (split "/" (a +:+ "/" +:+ n)) = n.
Proof.
  intros Hn. destruct (split_last_segment a n Hn) as (h & t & ->).
  unfold last_item. change (h :: t ++ [n]) with ((h :: t) ++ [n]). apply last_last.
Qed.

Lemma do_GET_run_path (rest : string) :
  server_down.do_GET ("/run/" +:+ rest)
  = server_down.run_script (last_item (split "/" ("/run/" +:+ rest))).
Proof.
  unfold server_down.do_GET.
  change ("/run/" +:+ rest)
    with (String "/" (String "r" (String "u" (String "n" (String "/" rest))))).
  cbn [String.eqb Ascii.eqb Bool.eqb startswith andb]. reflexivity.
Qed.

Lemma do_GET_download_path (rest : string) :
  server_down.do_GET ("/download/" +:+ rest)
  = server_down.download_file (last_item (split "/" ("/download/" +:+ rest))).
Proof.
  unfold server_down.do_GET.
  change ("/download/" +:+ rest) with
    (String "/" (String "d" (String "o" (String "w" (String "n" (String "l"
      (String "o" (String "a" (String "d" (String "/" rest)))))))))).
  cbn [String.eqb Ascii.eqb Bool.eqb startswith andb]. reflexivity.
Qed.

(** X16. Of a path under [/run/] or [/download/] only the last segment
    counts: whatever stands between the prefix and the last slash is
    ignored, so [/run/x/y/contents] triggers [contents] and
    [/download/x/contents.zip] serves [contents.zip]; and a path that ends
    in a slash names the empty string. *)
Theorem only_the_last_segment_of_the_path_counts (between name : string) :
  has_char "/" name = false ->
  server_down.do_GET ("/run/" +:+ between +:+ "/" +:+ name) = server_down.run_script name
  /\ server_down.do_GET ("/download/" +:+ between +:+ "/" +:+ name)
     = server_down.download_file name.
Proof.
  intros Hname. split.
  - rewrite do_GET_run_path. f_equal.
    change ("/run/" +:+ between +:+ "/" +:+ name)
      with (("/run/" +:+ between) +:+ "/" +:+ name).
    by apply last_item_last_segment.
  - rewrite do_GET_download_path. f_equal.
    change ("/download/" +:+ between +:+ "/" +:+ name)
      with (("/download/" +:+ between) +:+ "/" +:+ name).
    by apply last_item_last_segment.
Qed.

(** X17. The server keeps no record of the jobs in flight and refuses no
    trigger: [n] requests for the same registered job start [n] threads,
    one after the other. *)
Theorem every_trigger_starts_one_more_thread (job_name : string) (n : nat) (w : World) :
  has_char "/" job_name = false ->
  is_Some (dict_get server_down.SCRIPT_PATHS job_name) ->
  threads (run (replicate n (Request ("/run/" +:+ job_name))) w)
  = threads w ++ replicate n job_name.
Proof.
  intros Hname [script_path Hreg]. revert w.
  induction n as [|n IH]; intros w.
  - cbn. by rewrite app_nil_r.
  - cbn [replicate]. unfold run. cbn [fold_left].
    fold (run (replicate n (Request ("/run/" +:+ job_name)))
              (step (Request ("/run/" +:+ job_name)) w)).
    rewrite IH, (step_trigger _ _ _ Hname Hreg). cbn [threads set_wfile set_threads fresh].
    by rewrite <- app_assoc.
Qed.



(** Only [/cleanup] changes the archive folder. *)
Lemma do_GET_zips (self_path : string) (w : World) :
  self_path <> "/cleanup" ->
  zips (world_after (server_down.do_GET self_path) w) = zips w.
Proof.
  intros Hne. unfold world_after, server_down.do_GET.
  destruct (String.eqb self_path "/").
  { unfold down_zip.get_downloadable_files. py_run.
    by rewrite get_available_files_run. }
  destruct (startswith self_path "/run/").
  { cbv zeta. rewrite run_script_run. by destruct (dict_get _ _). }
  destruct (startswith self_path "/download/").
  { cbv zeta. rewrite download_file_run.
    by destruct (List.find _ _);
      [destruct (zips w !! _); [destruct (faults w _) as [[|]|]|]|]. }
  destruct (String.eqb self_path "/status").
  { unfold down_zip.get_downloadable_files, datetime_now. py_run.
    by rewrite get_available_files_run. }
  destruct (String.eqb_spec self_path "/cleanup") as [->|_]; [done|].
  reflexivity.
Qed.

(** X19. What a request leaves alone. No request changes the Desktop,
    where the jobs write. Only a path under [/run/] starts a thread; only
    [/cleanup] changes the archive folder; and apart from [/cleanup] only a
    path under [/download/] prints on the console. *)
Theorem what_a_request_leaves_alone (self_path : string) (w : World) :
  let w' := world_after (server_down.do_GET self_path) w in
  desktop w' = desktop w
  /\ (startswith self_path "/run/" = false -> threads w' = threads w)
  /\ (self_path <> "/cleanup" -> zips w' = zips w)
  /\ (self_path <> "/cleanup" -> startswith self_path "/download/" = false ->
      console w' = console w).
Proof.
  intros w'. subst w'. unfold world_after, server_down.do_GET.
  destruct (String.eqb self_path "/").
  { unfold down_zip.get_downloadable_files. py_run.
    rewrite get_available_files_run. py_run. cbn. auto. }
  destruct (startswith self_path "/run/").
  { cbv zeta. rewrite run_script_run. destruct (dict_get _ _); cbn; repeat split; auto; discriminate. }
  destruct (startswith self_path "/download/").
  { cbv zeta. rewrite download_file_run.
    destruct (List.find _ _);
      [destruct (zips w !! _); [destruct (faults w _) as [[|]|]|]|];
      cbn; repeat split; auto; discriminate. }
  destruct (String.eqb self_path "/status").
  { unfold down_zip.get_downloadable_files, datetime_now. py_run.
    rewrite get_available_files_run. py_run. cbn. auto. }
  destruct (String.eqb_spec self_path "/cleanup") as [->|Hne].
  { unfold server_down.cleanup_files, down_zip.cleanup_files.
    rewrite bind_run, cleanup_old_files_run.
    destruct (sweep _ _ _) as [[store' deleted] failed].
    destruct failed; py_run; cbn; repeat split; auto; congruence. }
  py_run. cbn. auto.
Qed.

(** X20. The routes [/status] and [/cleanup] are matched as whole
    paths: with anything after them, a query string or a slash for
    instance, the request is answered 404, and in particular nothing is
    cleaned. *)
Theorem status_and_cleanup_are_exact_paths (more : string) (w : World) :
  more <> EmptyString ->
  world_after (server_down.do_GET ("/status" +:+ more)) w
  = set_wfile (fun o => o ++ [send_error 404 None]) w
  /\ world_after (server_down.do_GET ("/cleanup" +:+ more)) w
     = set_wfile (fun o => o ++ [send_error 404 None]) w.
Proof.
  intros Hmore. destruct more as [|c more]; [done|].
  unfold world_after, server_down.do_GET. split.
  - change ("/status" +:+ String c more) with
      (String "/" (String "s" (String "t" (String "a" (String "t" (String "u"
        (String "s" (String c more)))))))).
    cbn [String.eqb Ascii.eqb Bool.eqb startswith andb]. reflexivity.
  - change ("/cleanup" +:+ String c more) with
      (String "/" (String "c" (String "l" (String "e" (String "a" (String "n"
        (String "u" (String "p" (String c more))))))))).
    cbn [String.eqb Ascii.eqb Bool.eqb startswith andb]. reflexivity.
Qed.

End RoutingProperties.

(* ===================================================================== *)
(** * What can be asked of the server *)
(* ===================================================================== *)

Section ExposureProperties.
Context {codec : ZipCodec}.

Lemma zip_file_no_slash (n : string) : In n down_zip.zip_files -> has_char "/" n = false.
Proof. intros [<-|[<-|[]]]; reflexivity. Qed.

(** The answer to a download of a job archive that is there and that
    the server may read. *)
Lemma download_of_archive (w : World) (n : string) (f : zfile) :
  In n down_zip.zip_files ->
  zips w !! n = Some f ->
  readable w n ->
  wfile (world_after (server_down.download_file n) (fresh w))
  = download_head n (Z.of_nat (length (bytes_of (fcontent f))))
    ++ List.map write_bytes (read_chunks COPY_BUFSIZE (bytes_of (fcontent f))).
Proof.
  intros Hn Hf Hread. unfold world_after. rewrite download_file_run.
  change (listing (fresh w)) with (listing w).
  change (zips (fresh w)) with (zips w).
  change (faults (fresh w)) with (faults w).
  destruct (List.find _ _) as [info|] eqn:Hfind.
  2:{ exfalso. apply (proj1 (find_listing_None (zips w) down_zip.zip_files n) Hfind).
      split; [done|]. by rewrite Hf. }
  destruct (find_listing _ _ _ _ Hfind) as (g & Hg & -> & _).
  rewrite Hf in Hg. injection Hg as <-. rewrite Hf.
  unfold readable in Hread.
  destruct (faults w (os_path_join down_zip.zips_path n)) as [[|]|]; [done| |]; reflexivity.
Qed.

(** The answer to a download of a job archive that is there and that the
    server may not read: the head, and then the exception. *)
Lemma download_of_unreadable_archive (w : World) (n : string) (f : zfile) :
  In n down_zip.zip_files ->
  zips w !! n = Some f ->
  faults w (os_path_join down_zip.zips_path n) = Some read_denied ->
  server_down.download_file n (fresh w)
  = (Raise (download_failure (permission_denied w (os_path_join down_zip.zips_path n))),
     set_wfile (fun _ => download_head n (Z.of_nat (length (bytes_of (fcontent f)))))
               w).
Proof.
  intros Hn Hf Hfault. rewrite download_file_run.
  change (listing (fresh w)) with (listing w).
  change (zips (fresh w)) with (zips w).
  change (faults (fresh w)) with (faults w).
  destruct (List.find _ _) as [info|] eqn:Hfind.
  2:{ exfalso. apply (proj1 (find_listing_None (zips w) down_zip.zip_files n) Hfind).
      split; [done|]. by rewrite Hf. }
  destruct (find_listing _ _ _ _ Hfind) as (g & Hg & -> & _).
  rewrite Hf in Hg. injection Hg as <-. rewrite Hf, Hfault. reflexivity.
Qed.

(** X21. A download serves nothing but the two job archives: whatever
    follows [/download/] in the path, the answer is 404, or it is the
    file [contents.zip] or [comments.zip] of the archive folder, or, when
    the server may not read that file, the head of that answer alone,
    after which [do_GET] raises. No other file of the folder, and no file
    elsewhere, can be fetched. *)
Theorem download_serves_only_the_job_archives (rest : string) (w : World) :
  let out := wfile (world_after (server_down.do_GET ("/download/" +:+ rest)) (fresh w)) in
  out = [send_error 404 (Some "File not found")]
  \/ exists n f,
       In n ["contents.zip"; "comments.zip"]
       /\ zips w !! n = Some f
       /\ ((readable w n
            /\ out = download_head n (Z.of_nat (length (bytes_of (fcontent f))))
                     ++ List.map write_bytes
                          (read_chunks COPY_BUFSIZE (bytes_of (fcontent f)))
            /\ result (server_down.do_GET ("/download/" +:+ rest)) (fresh w) = Return tt)
           \/ (faults w (os_path_join down_zip.zips_path n) = Some read_denied
               /\ out = download_head n (Z.of_nat (length (bytes_of (fcontent f))))
               /\ result (server_down.do_GET ("/download/" +:+ rest)) (fresh w)
                  = Raise (download_failure
                             (permission_denied w (os_path_join down_zip.zips_path n))))).
Proof.
  intros out. subst out. rewrite do_GET_download_path.
  set (file_name := last_item _).
  unfold world_after, result, readable. rewrite download_file_run.
  change (listing (fresh w)) with (listing w).
  change (zips (fresh w)) with (zips w).
  change (faults (fresh w)) with (faults w).
  destruct (List.find _ _) as [info|] eqn:Hfind; [|by left].
  destruct (find_listing _ _ _ _ Hfind) as (f & Hf & -> & Hin). rewrite Hf.
  right. exists file_name, f. split; [exact Hin|]. split; [exact Hf|].
  destruct (faults w (os_path_join down_zip.zips_path file_name)) as [[|]|].
  - right. split; [reflexivity|]. split; reflexivity.
  - left. split; [discriminate|]. split; reflexivity.
  - left. split; [discriminate|]. split; reflexivity.
Qed.

(** X22. A trigger starts nothing but the two registered scripts:
    whatever follows [/run/] in the path, either no thread is started and
    the answer is 404, or one thread is started, for [contents] or for
    [comments], and the answer is the acknowledgment. *)
Theorem trigger_starts_only_registered_scripts (rest : string) (w : World) :
  let w' := world_after (server_down.do_GET ("/run/" +:+ rest)) (fresh w) in
  (threads w' = threads w /\ wfile w' = [send_error 404 (Some "Script not found")])
  \/ exists n,
       In n ["contents"; "comments"]
       /\ threads w' = threads w ++ [n]
       /\ wfile w' = acknowledgment n.
Proof.
  intros w'. subst w'. rewrite do_GET_run_path.
  set (script_name := last_item _).
  unfold world_after. rewrite run_script_run.
  destruct (dict_get server_down.SCRIPT_PATHS script_name) as [script_path|] eqn:Hreg.
  - right. exists script_name. split; [by eapply registered_names|]. split; reflexivity.
  - left. split; reflexivity.
Qed.

(** X23. What is listed can be fetched, as long as the server may read
    it: for every entry that [get_available_files] returns, and so for
    every file the control page and [/status] show, a download under the
    entry's name is answered 200 and announces the size the entry gives;
    when the file may be read, that many bytes follow, and when it may
    not, nothing follows. *)
Theorem every_listed_archive_can_be_downloaded (w : World) :
  exists files : list file_info,
    down_zip.get_available_files w = (Return files, w)
    /\ Forall (fun info =>
                 exists body : list wire,
                   wfile (world_after (server_down.do_GET ("/download/" +:+ name info))
                                      (fresh w))
                   = download_head (name info) (size info) ++ body
                   /\ (readable w (name info) ->
                       exists chunks : list (list byte),
                         body = List.map write_bytes chunks
                         /\ Z.of_nat (length (List.concat chunks)) = size info)
                   /\ (faults w (fpath info) = Some read_denied -> body = [])) files.
Proof.
  exists (listing w). split; [apply get_available_files_run|].
  apply Forall_forall. intros info Hin%list_elem_of_In.
  assert (Hlisted : In (name info) down_zip.zip_files).
  { apply (listing_names (zips w) down_zip.zip_files (name info)). by apply in_map. }
  destruct (listing_of_entries _ _ _ Hin) as (f & Hf & Hinfo).
  rewrite (do_GET_download _ (zip_file_no_slash _ Hlisted)).
  assert (Hpath : fpath info = os_path_join down_zip.zips_path (name info))
    by (rewrite Hinfo; reflexivity).
  assert (Hsize : size info = Z.of_nat (length (bytes_of (fcontent f))))
    by (rewrite Hinfo; reflexivity).
  rewrite Hpath, Hsize.
  destruct (faults w (os_path_join down_zip.zips_path (name info))) as [[|]|] eqn:Hfault.
  - exists []. unfold world_after.
    rewrite (download_of_unreadable_archive w _ f Hlisted Hf Hfault).
    cbn [snd wfile set_wfile]. rewrite app_nil_r. split; [reflexivity|].
    split; [|done]. unfold readable. intros Hread. by rewrite Hfault in Hread.
  - exists (List.map write_bytes (read_chunks COPY_BUFSIZE (bytes_of (fcontent f)))).
    rewrite (download_of_archive w _ f Hlisted Hf)
      by (unfold readable; rewrite Hfault; discriminate).
    split; [reflexivity|]. split; [|discriminate]. intros _.
    exists (read_chunks COPY_BUFSIZE (bytes_of (fcontent f))).
    split; [reflexivity|].
    by rewrite read_chunks_concat by apply COPY_BUFSIZE_pos.
  - exists (List.map write_bytes (read_chunks COPY_BUFSIZE (bytes_of (fcontent f)))).
    rewrite (download_of_archive w _ f Hlisted Hf)
      by (unfold readable; rewrite Hfault; discriminate).
    split; [reflexivity|]. split; [|discriminate]. intros _.
    exists (read_chunks COPY_BUFSIZE (bytes_of (fcontent f))).
    split; [reflexivity|].
    by rewrite read_chunks_concat by apply COPY_BUFSIZE_pos.
Qed.

End ExposureProperties.

(* ===================================================================== *)
(** * Requests and threads, one after the other *)
(* ===================================================================== *)

Section ServerProperties.
Context {codec : ZipCodec}.

Lemma sweep_other cutoff names :
  forall store store' deleted failed,
    sweep cutoff names store = (store', deleted, failed) ->
    forall k, ~ In k names -> store' !! k = store !! k.
Proof.
  intros store store' deleted failed Hs k Hk.
  destruct (store !! k) as [f|] eqn:Ef.
  - eapply sweep_keeps; [exact Hs|exact Ef|by left].
  - destruct (sweep_only_deletes _ _ _ _ _ _ Hs k) as [Hnone|Hsame]; congruence.
Qed.

Lemma do_GET_other (self_path : string) (w : World) (k : string) :
  ~ In k down_zip.zip_files ->
  zips (world_after (server_down.do_GET self_path) w) !! k = zips w !! k.
Proof.
  intros Hk.
  destruct (String.eqb_spec self_path "/cleanup") as [->|Hne].
  - rewrite do_GET_cleanup. unfold world_after, server_down.cleanup_files, down_zip.cleanup_files.
    rewrite bind_run, cleanup_old_files_run.
    destruct (sweep _ _ _) as [[store' deleted] failed] eqn:Hs.
    destruct failed; py_run; cbn; eapply sweep_other; eauto.
  - by rewrite do_GET_zips.
Qed.

Lemma thread_outcome_other (script_name : string) (c : child) (w : World) (k : string) :
  ~ In k down_zip.zip_files ->
  zips (thread_outcome script_name c w) !! k = zips w !! k.
Proof.
  intros Hk. unfold thread_outcome, compress_step, log.
  destruct (venv_python w), (spawn_error c), (300 <? duration c); cbn; auto.
  destruct (writes c (desktop w) !! folder_of script_name) as [tree|];
    [destruct (snd (written _ _ tree)) as [[p why]|]|];
    destruct (String.eqb (child_stderr c) EmptyString); cbn; auto;
    apply lookup_insert_ne; intros Heq; apply Hk; rewrite <- Heq; apply zip_name_of_folder.
Qed.

Lemma step_other (e : event) (w : World) (k : string) :
  ~ In k down_zip.zip_files -> zips (step e w) !! k = zips w !! k.
Proof.
  intros Hk. destruct e as [self_path|script_name c|now]; cbn [step].
  - by rewrite do_GET_other.
  - destruct (existsb _ _); [|done].
    destruct (dict_get _ _) as [script_path|]; [|done].
    unfold world_after. rewrite run_in_thread_run. cbn [snd].
    by rewrite thread_outcome_other.
  - reflexivity.
Qed.

(** X24. The server touches no file of the archive folder but
    [contents.zip] and [comments.zip]: whatever requests are served and
    whatever threads run, any other file of the folder is neither deleted
    nor rewritten, and none appears. *)
Theorem files_of_others_are_never_touched (events : list event) (w : World) (k : string) :
  ~ In k ["contents.zip"; "comments.zip"] ->
  zips (run events w) !! k = zips w !! k.
Proof.
  intros Hk. revert w. induction events as [|e events IH]; intros w; [reflexivity|].
  rewrite run_cons, IH. by apply step_other.
Qed.

(** X25. An archive that a cleanup has removed is no longer served: when
    [/cleanup] meets no file it cannot remove, a download of an archive
    that was older than seven days is answered 404 afterwards. *)
Theorem a_cleaned_archive_is_no_longer_served (w : World) (n : string) (f : zfile) :
  In n ["contents.zip"; "comments.zip"] ->
  zips w !! n = Some f ->
  timestamp (fctime f) < timestamp (clock w) - 7 * (24 * 60 * 60) ->
  (forall m g, In m ["contents.zip"; "comments.zip"] -> zips w !! m = Some g ->
     timestamp (fctime g) < timestamp (clock w) - 7 * (24 * 60 * 60) -> in_use g = false) ->
  wfile (run [Request "/cleanup"; Request ("/download/" +:+ n)] w)
  = [send_error 404 (Some "File not found")].
Proof.
  intros Hn Hf Hold Hfree.
  rewrite !run_cons. cbn [run fold_left step].
  set (w1 := world_after (server_down.do_GET "/cleanup") (fresh w)).
  assert (Hgone : zips w1 !! n = None).
  { subst w1. rewrite do_GET_cleanup.
    unfold world_after, server_down.cleanup_files, down_zip.cleanup_files.
    rewrite bind_run, cleanup_old_files_run.
    change (cutoff_of (fresh w) 7) with (cutoff_of w 7).
    change (zips (fresh w)) with (zips w).
    destruct (sweep_ok (cutoff_of w 7) down_zip.zip_files zip_files_NoDup (zips w))
      as (store' & Hs & Hl).
    { intros m g Hm Hg Hst. apply (Hfree m g); [by apply list_elem_of_In|done|].
      unfold stale, cutoff_of in Hst. lia. }
    rewrite Hs. py_run. cbn. rewrite Hl.
    rewrite bool_decide_eq_true_2 by (by apply list_elem_of_In).
    unfold is_stale, stale, cutoff_of. rewrite Hf.
    replace (timestamp (fctime f) <? timestamp (clock w) - 7 * 24 * 60 * 60) with true
      by (symmetry; apply Z.ltb_lt; lia).
    reflexivity. }
  rewrite (do_GET_download _ (zip_file_no_slash n Hn)).
  unfold world_after at 1. rewrite download_file_run.
  change (listing (fresh w1)) with (listing w1).
  replace (List.find (fun f0 => String.eqb (name f0) n) (listing w1)) with (@None file_info).
  { reflexivity. }
  symmetry. apply find_listing_None. intros [_ [g Hg]]. congruence.
Qed.

(** X26. From the trigger to the download. When a registered job is
    triggered, its thread runs with the virtual environment in place, the
    job ends in time, its output folder is on the Desktop and [zipfile]
    accepts every file under it, then a download of the job's archive,
    which the server may read, sends the zip file of that folder as the
    job left it: the length announced and the bytes sent are those of the
    archive of the folder. *)
Theorem what_is_downloaded_after_a_run
    (job_name : string) (c : child) (w : World) (tree : node) :
  venv_python w = true ->
  In job_name ["contents"; "comments"] ->
  spawn_error c = None ->
  duration c <= 300 ->
  writes c (desktop w) !! job_name = Some tree ->
  accepted w job_name tree ->
  readable w (zip_name_of job_name) ->
  let sent := zip_encode (archive_of_folder (home w) job_name tree) in
  wfile (run [Request ("/run/" +:+ job_name);
              ThreadRuns job_name c;
              Request ("/download/" +:+ zip_name_of job_name)] w)
  = download_head (zip_name_of job_name) (Z.of_nat (length sent))
    ++ List.map write_bytes (read_chunks COPY_BUFSIZE sent).
Proof.
  intros Hvenv Hname Hspawn Hintime Htree Hacc Hread sent. subst sent.
  assert (Hlisted : In (zip_name_of job_name) down_zip.zip_files)
    by (destruct Hname as [<-|[<-|[]]]; cbn; auto).
  assert (Hthread : exists w2 f,
            run [Request ("/run/" +:+ job_name); ThreadRuns job_name c] w = w2
            /\ zips w2 !! zip_name_of job_name = Some f
            /\ fcontent f = Zip (archive_of_folder (home w) job_name tree)
            /\ faults w2 = faults w).
  { destruct (trigger_then_thread job_name c w Hname)
      as (w1 & -> & Hd & Hz & Hh & Hc & Hv & Hf & _).
    destruct (thread_leaves_the_archive job_name c w1 tree) as (f & Hzip & Hcontent).
    - by rewrite Hv.
    - exact Hname.
    - exact Hspawn.
    - exact Hintime.
    - by rewrite Hd.
    - by apply (accepted_ext w1 w).
    - exists (thread_outcome job_name c w1), f.
      split; [reflexivity|]. split; [exact Hzip|]. split; [by rewrite Hcontent, Hh|].
      destruct (thread_outcome_alive job_name c w1) as (_ & Hfaults). by rewrite Hfaults. }
  destruct Hthread as (w2 & f & Hw2 & Hf & Hcontent & Hfaults).
  change (run [Request ("/run/" +:+ job_name); ThreadRuns job_name c;
               Request ("/download/" +:+ zip_name_of job_name)] w)
    with (step (Request ("/download/" +:+ zip_name_of job_name))
            (run [Request ("/run/" +:+ job_name); ThreadRuns job_name c] w)).
  rewrite Hw2. cbn [step].
  rewrite (do_GET_download _ (zip_file_no_slash _ Hlisted)).
  rewrite (download_of_archive w2 _ f Hlisted Hf), Hcontent; [reflexivity|].
  unfold readable. by rewrite Hfaults.
Qed.

End ServerProperties.

(* ===================================================================== *)
(** * The theorems at concrete worlds *)
(* ===================================================================== *)

(** In [refusing_world] a file of the output folder is refused. *)
Lemma views_png_under :
  file_under Sample.report_v1 ["charts"; "views.png"] [x10; x11]%byte.
Proof.
  apply file_below with [("views.png", File [x10; x11]%byte)].
  - right. left. reflexivity.
  - apply file_here. left. reflexivity.
Qed.

Lemma refusing_world_refuses :
  ~ accepted Sample.refusing_world "contents" Sample.report_v1.
Proof.
  intros Hacc. specialize (Hacc _ _ views_png_under).
  vm_compute in Hacc. discriminate Hacc.
Qed.

(** The example of the specification: A is 10 days old, B one day old; a
    7-day cleanup deletes A alone and returns the count 1. *)
Example cleanup_example_of_the_specification :
  let w' := world_after (@down_zip.cleanup_old_files Sample.stored_codec 7) Sample.retention_world in
  result (@down_zip.cleanup_old_files Sample.stored_codec 7) Sample.retention_world
    = Return (1, "清理了 1 个旧文件")
  /\ zips w' !! "contents.zip" = None
  /\ zips w' !! "comments.zip" = Some (Sample.archive_made (99 * Sample.day_secs) false).
Proof. vm_compute. repeat split. Qed.

Lemma cleanup_deletes_exactly_the_stale_archives_witness :
  exists deleted : list string,
    @down_zip.cleanup_old_files Sample.stored_codec 7 Sample.retention_world
    = (Return (Z.of_nat (length deleted),
               "清理了 " +:+ str_Z (Z.of_nat (length deleted)) +:+ " 个旧文件"),
       world_after (@down_zip.cleanup_old_files Sample.stored_codec 7) Sample.retention_world)
    /\ List.NoDup deleted
    /\ (forall n, In n deleted <->
           In n down_zip.zip_files /\
           exists f, zips Sample.retention_world !! n = Some f /\
             timestamp (fctime f) < timestamp (clock Sample.retention_world) - 7 * (24 * 60 * 60))
    /\ (forall n, In n deleted ->
           zips (world_after (@down_zip.cleanup_old_files Sample.stored_codec 7) Sample.retention_world) !! n = None)
    /\ (forall n, ~ In n deleted ->
           zips (world_after (@down_zip.cleanup_old_files Sample.stored_codec 7) Sample.retention_world) !! n
           = zips Sample.retention_world !! n).
Proof.
  apply (@cleanup_deletes_exactly_the_stale_archives Sample.stored_codec 7 Sample.retention_world).
  intros n f [<-|[<-|[]]] Hf; vm_compute in Hf; injection Hf as <-;
    vm_compute; intros; congruence.
Defined.

(** C6 fails as worded: with both archives 10 days old and [comments.zip]
    held open, the 7-day cleanup leaves [comments.zip] on disk and returns
    the count 0 although it deleted [contents.zip]. *)
Lemma cleanup_as_specified_fails :
  ~ @cleanup_as_specified Sample.stored_codec 7 Sample.locked_world.
Proof.
  intros [Hdel _].
  specialize (Hdel "comments.zip" (Sample.archive_made (90 * Sample.day_secs) true) eq_refl).
  destruct Hdel as [_ Hdel].
  assert (Hgone : zips (world_after (@down_zip.cleanup_old_files Sample.stored_codec 7)
                                    Sample.locked_world) !! "comments.zip" = None)
    by (apply Hdel; vm_compute; reflexivity).
  vm_compute in Hgone. discriminate.
Qed.

Lemma cleanup_error_reports_zero_without_rollback_witness :
  let w := Sample.locked_world in
  let w' := world_after (@down_zip.cleanup_old_files Sample.stored_codec 7) w in
  (exists reason,
     result (@down_zip.cleanup_old_files Sample.stored_codec 7) w
     = Return (0, "清理文件时出错: " +:+ reason))
  /\ (forall k, zips w' !! k = None \/ zips w' !! k = zips w !! k)
  /\ (forall f1,
        "comments.zip" = "comments.zip" ->
        zips w !! "contents.zip" = Some f1 ->
        timestamp (fctime f1) < timestamp (clock w) - 7 * (24 * 60 * 60) ->
        in_use f1 = false ->
        deleted_during w w' "contents.zip").
Proof.
  apply (@cleanup_error_reports_zero_without_rollback Sample.stored_codec 7
           Sample.locked_world "comments.zip"
           (Sample.archive_made (90 * Sample.day_secs) true)).
  - simpl. right. left. reflexivity.
  - reflexivity.
  - vm_compute. reflexivity.
  - reflexivity.
Defined.

(** C3 fails as worded, twice over. In the example of the specification
    the object sent has no key [deletedCount]: the key is [deleted_count].
    And under that key the count is not always the number of archives
    deleted: with both archives 10 days old and [comments.zip] held open,
    [contents.zip] is deleted and the count sent is 0. *)
Lemma cleanup_answer_as_specified_fails :
  ~ @cleanup_answer_as_specified Sample.stored_codec Sample.retention_world
  /\ ~ @cleanup_answer_counts_deletions Sample.stored_codec Sample.locked_world.
Proof.
  split.
  - intros (message & Hout). vm_compute in Hout. discriminate.
  - intros (message & Hout). vm_compute in Hout. discriminate.
Qed.

(** The answer to [/cleanup] in these two worlds. *)
Example cleanup_answer_examples :
  wfile (@run Sample.stored_codec [Request "/cleanup"] Sample.retention_world)
  = [send_response 200;
     send_header "Content-type" "application/json";
     end_headers;
     write_json (JObj [("deleted_count", JInt 1);
                       ("message", JStr "清理了 1 个旧文件")])]
  /\ wfile (@run Sample.stored_codec [Request "/cleanup"] Sample.locked_world)
     = [send_response 200;
        send_header "Content-type" "application/json";
        end_headers;
        write_json (JObj [("deleted_count", JInt 0);
                          ("message",
                           JStr "清理文件时出错: [WinError 32] The process cannot access the file because it is being used by another process: 'D:\\pyCharmProject\\AutoViewScript\\zip\\comments.zip'")])]
  /\ zips (@run Sample.stored_codec [Request "/cleanup"] Sample.locked_world)
       !! "contents.zip" = None.
Proof. vm_compute. repeat split. Qed.

Lemma status_lists_the_job_archives_present_witness :
  exists stamp files,
    wfile (world_after (@server_down.do_GET Sample.stored_codec "/status")
                       (fresh Sample.retention_world)) =
    [send_response 200;
     send_header "Content-type" "application/json";
     end_headers;
     write_json (JObj [("status", JStr "running");
                       ("timestamp", JStr stamp);
                       ("files", JList files)])]
    /\ parse_iso8601 stamp = Some (calendar_of (clock Sample.retention_world))
    /\ (forall n, In (Some n) (List.map (Json.string_field "name") files)
                  <-> In n down_zip.zip_files /\ is_Some (zips Sample.retention_world !! n)).
Proof.
  apply (@status_lists_the_job_archives_present Sample.stored_codec Sample.retention_world).
  vm_compute. repeat split; discriminate.
Defined.

(** C2 fails as worded: a file of the archive folder that is not one of
    the two job archives is not listed. *)
Lemma status_as_specified_fails :
  ~ @status_as_specified Sample.stored_codec Sample.stray_world.
Proof.
  intros (stamp & files & Hout & _ & Hfiles).
  vm_compute in Hout. injection Hout as _ <-.
  destruct (Hfiles "backup.zip") as [_ Hlisted].
  apply Hlisted. vm_compute. eauto.
Qed.

(** C1 fails as worded, whichever way it is read. A job that exits with
    code 1 is archived all the same. A job that exits with code 0 is not
    archived when there is no [python.exe] in the virtual environment; and
    when [zipfile] does not accept a file of its output folder, what is
    written is not the archive of the folder. *)
Lemma archives_exactly_on_success_fails :
  ~ @archives_exactly_on_success Sample.stored_codec "contents"
      "D:\AutoViewScript\contents.py" (Sample.job 1 5 Sample.report_v1) Sample.base_world
  /\ ~ @archives_exactly_on_success Sample.stored_codec "contents"
        "D:\AutoViewScript\contents.py" (Sample.job 0 5 Sample.report_v1)
        Sample.no_venv_world
  /\ ~ @archives_exactly_on_success Sample.stored_codec "contents"
        "D:\AutoViewScript\contents.py" (Sample.job 0 5 Sample.report_v1)
        Sample.refusing_world.
Proof.
  split; [|split].
  - intros [_ Hfailed].
    assert (Hsame := Hfailed ltac:(discriminate)).
    apply (f_equal (fun m => m !! "contents.zip")) in Hsame.
    vm_compute in Hsame. discriminate.
  - intros [Hdone _].
    specialize (Hdone eq_refl Sample.report_v1 eq_refl).
    vm_compute in Hdone. discriminate.
  - intros [Hdone _].
    specialize (Hdone eq_refl Sample.report_v1 eq_refl).
    vm_compute in Hdone. discriminate.
Qed.

Lemma archive_follows_every_completed_run_witness :
  let c := Sample.job 0 5 Sample.report_v1 in
  let w' := world_after
              (@server_down.run_in_thread Sample.stored_codec "contents"
                 "D:\AutoViewScript\contents.py" (exits_with 1 c))
              Sample.base_world in
  (exists f, zips w' !! zip_name_of "contents" = Some f /\
             fcontent f = Zip (archive_of_folder (home Sample.base_world) "contents"
                                 Sample.report_v1))
  /\ w' = world_after
             (@server_down.run_in_thread Sample.stored_codec "contents"
                "D:\AutoViewScript\contents.py" c)
             Sample.base_world.
Proof.
  destruct (@archive_follows_every_completed_run Sample.stored_codec "contents"
              "D:\AutoViewScript\contents.py" (Sample.job 0 5 Sample.report_v1) 1
              Sample.base_world) as (_ & Harchive & Hsame).
  - reflexivity.
  - simpl. left. reflexivity.
  - reflexivity.
  - simpl. lia.
  - split; [|exact Hsame].
    apply (Harchive Sample.report_v1); [reflexivity|].
    intros cs data _. reflexivity.
Defined.

Lemma trigger_answer_witness :
  let w' := world_after (@server_down.do_GET Sample.stored_codec ("/run/" +:+ "contents"))
                        (fresh Sample.base_world) in
  match dict_get server_down.SCRIPT_PATHS "contents" with
  | None =>
      wfile w' = [send_error 404 (Some "Script not found")]
      /\ threads w' = threads Sample.base_world
  | Some _ =>
      wfile w' = acknowledgment "contents"
      /\ threads w' = threads Sample.base_world ++ ["contents"]
      /\ desktop w' = desktop Sample.base_world /\ zips w' = zips Sample.base_world
      /\ console w' = console Sample.base_world
      /\ forall c : child,
           wfile (@step Sample.stored_codec (ThreadRuns "contents" c) w')
           = acknowledgment "contents"
  end.
Proof.
  apply (@trigger_answer Sample.stored_codec Sample.base_world "contents").
  reflexivity.
Defined.

Lemma download_answer_witness :
  let out := wfile (world_after
                      (@server_down.do_GET Sample.stored_codec ("/download/" +:+ "contents.zip"))
                      (fresh Sample.archived_world)) in
  match List.find (fun f => String.eqb (name f) "contents.zip")
                  (@listing Sample.stored_codec Sample.archived_world) with
  | None => out = [send_error 404 (Some "File not found")]
  | Some _ =>
      exists f,
        zips Sample.archived_world !! "contents.zip" = Some f
        /\ (exists body,
              out = download_head "contents.zip"
                      (Z.of_nat (length (@bytes_of Sample.stored_codec (fcontent f))))
                    ++ body)
        /\ (readable Sample.archived_world "contents.zip" ->
            exists chunks,
              out = download_head "contents.zip"
                      (Z.of_nat (length (@bytes_of Sample.stored_codec (fcontent f))))
                    ++ List.map write_bytes chunks
              /\ List.concat chunks = @bytes_of Sample.stored_codec (fcontent f)
              /\ Forall (fun buf => (0 < length buf <= COPY_BUFSIZE)%nat) chunks)
  end.
Proof.
  apply (@download_answer Sample.stored_codec Sample.archived_world "contents.zip").
  reflexivity.
Defined.

(** C7 fails as worded: [contents.zip] is listed, but the server may not
    read it; the head of the answer is sent, with the length of the file,
    and no body follows. *)
Lemma download_as_specified_fails :
  ~ @download_as_specified Sample.stored_codec Sample.unreadable_world "contents.zip".
Proof.
  unfold download_as_specified. cbv zeta.
  destruct (List.find _ _) as [info|] eqn:Hfind.
  - intros (f & chunks & Hf & Hout & Hconcat & _).
    vm_compute in Hf. injection Hf as <-.
    vm_compute in Hout. injection Hout as Hbody.
    destruct chunks as [|buf chunks]; [|discriminate Hbody].
    vm_compute in Hconcat. discriminate Hconcat.
  - vm_compute in Hfind. discriminate Hfind.
Qed.

(** What happens to that request: [do_GET] raises the [UnicodeEncodeError]
    of the status line that was to carry the error. *)
Example unreadable_download_example :
  let e := OSError "[Errno 13] Permission denied: 'D:\\pyCharmProject\\AutoViewScript\\zip\\contents.zip'" in
  @server_down.do_GET Sample.stored_codec "/download/contents.zip"
    (fresh Sample.unreadable_world)
  = (Raise (download_failure e),
     set_wfile (fun _ => download_head "contents.zip" 50) Sample.unreadable_world)
  /\ str_exn (download_failure e)
     = "'latin-1' codec can't encode characters in position 13-16: ordinal not in range(256)".
Proof. vm_compute. split; reflexivity. Qed.

Lemma compress_folder_archives_the_folder_witness :
  let es := [("summary.txt", File [x01; x02; x03]%byte);
             ("charts", Dir [("views.png", File [x10; x11]%byte)])] in
  let folder_path := os_path_join down_zip.desktop_path "contents" in
  let zip_path := os_path_join down_zip.zips_path (zip_name_of "contents") in
  (let w := Sample.job_done_world in
   let w' := world_after (@down_zip.compress_folder Sample.stored_codec "contents") w in
   exists message f a,
     result (@down_zip.compress_folder Sample.stored_codec "contents") w
       = Return (true, message, Some zip_path)
     /\ zips w' !! zip_name_of "contents" = Some f
     /\ fcontent f = Zip a
     /\ zmethod a = ZIP_DEFLATED
     /\ (forall e, In e (members a) <->
           exists cs data, file_under (Dir es) cs data /\
             e = {| arcname := "contents" :: cs; zdata := data |}))
  /\ (let w := Sample.refusing_world in
      let w' := world_after (@down_zip.compress_folder Sample.stored_codec "contents") w in
      exists cs data why f before rest,
        file_under (Dir es) cs data
        /\ faults w (below folder_path cs) = Some why
        /\ result (@down_zip.compress_folder Sample.stored_codec "contents") w
           = Return (false, "压缩失败: " +:+ str_exn (refusal w (below folder_path cs) why),
                     None)
        /\ zips w' !! zip_name_of "contents" = Some f
        /\ fcontent f = Zip {| zmethod := ZIP_DEFLATED; members := before |}
        /\ members (archive_of_folder (home w) "contents" (Dir es))
           = before ++ {| arcname := "contents" :: cs; zdata := data |} :: rest
        /\ Forall (fun e => exists cs' data',
                     file_under (Dir es) cs' data'
                     /\ e = {| arcname := "contents" :: cs'; zdata := data' |}
                     /\ faults w (below folder_path cs') = None) before).
Proof.
  split.
  - destruct (@compress_folder_archives_the_folder Sample.stored_codec Sample.job_done_world
                "contents"
                [("summary.txt", File [x01; x02; x03]%byte);
                 ("charts", Dir [("views.png", File [x10; x11]%byte)])])
      as (Hdone & _ & _).
    + simpl. left. reflexivity.
    + reflexivity.
    + apply Hdone. intros cs data _. reflexivity.
  - destruct (@compress_folder_archives_the_folder Sample.stored_codec Sample.refusing_world
                "contents"
                [("summary.txt", File [x01; x02; x03]%byte);
                 ("charts", Dir [("views.png", File [x10; x11]%byte)])])
      as (_ & Hfailed & _).
    + simpl. left. reflexivity.
    + reflexivity.
    + apply Hfailed. exact refusing_world_refuses.
Defined.

(** C9 fails as worded: the output folder is there, but [zipfile] does not
    accept the time stamp of [charts\views.png]; the archive is left
    without that file. *)
Lemma compress_as_specified_fails :
  ~ @compress_as_specified Sample.stored_codec Sample.refusing_world "contents"
      [("summary.txt", File [x01; x02; x03]%byte);
       ("charts", Dir [("views.png", File [x10; x11]%byte)])].
Proof.
  intros Hspecified.
  destruct (Hspecified eq_refl) as (f & a & Hf & Ha & _ & Hm).
  vm_compute in Hf. injection Hf as <-.
  cbn in Ha. injection Ha as <-.
  assert (Hin : In {| arcname := ["contents"; "charts"; "views.png"];
                      zdata := [x10; x11]%byte |}
                   [{| arcname := ["contents"; "summary.txt"];
                       zdata := [x01; x02; x03]%byte |}]).
  { apply Hm. exists ["charts"; "views.png"], [x10; x11]%byte.
    split; [exact views_png_under|reflexivity]. }
  destruct Hin as [Heq|[]]. discriminate Heq.
Qed.

(** What [compress_folder] returns there, and what it leaves. *)
Example archive_error_example :
  let w' := world_after (@down_zip.compress_folder Sample.stored_codec "contents")
                        Sample.refusing_world in
  result (@down_zip.compress_folder Sample.stored_codec "contents") Sample.refusing_world
  = Return (false, "压缩失败: ZIP does not support timestamps before 1980", None)
  /\ fcontent <$> zips w' !! "contents.zip"
     = Some (Zip {| zmethod := ZIP_DEFLATED;
                    members := [{| arcname := ["contents"; "summary.txt"];
                                   zdata := [x01; x02; x03]%byte |}] |})
  /\ console w'
     = ["开始压缩文件夹: C:\Users\me\Desktop\contents -> D:\pyCharmProject\AutoViewScript\zip\contents.zip";
        "压缩失败: ZIP does not support timestamps before 1980"].
Proof. vm_compute. repeat split. Qed.

(** C4 fails as worded, in two ways. Without [python.exe] in the virtual
    environment a run that exits with code 0 leaves the prior archive,
    that of [report_v1], where it was. And with it, when [zipfile] does
    not accept a file of the output folder, the archive left is not that
    of the folder. *)
Lemma rerun_as_specified_fails :
  ~ @rerun_as_specified Sample.stored_codec "contents" "D:\AutoViewScript\contents.py"
      (Sample.job 0 5 Sample.report_v2) Sample.archived_no_venv_world
  /\ ~ @rerun_as_specified Sample.stored_codec "contents" "D:\AutoViewScript\contents.py"
        (Sample.job 0 5 Sample.report_v1) Sample.refusing_world.
Proof.
  assert (Hintime : 5 <= 300) by lia.
  split.
  - intros Hrerun.
    specialize (Hrerun eq_refl Hintime eq_refl Sample.report_v2 eq_refl).
    vm_compute in Hrerun. discriminate Hrerun.
  - intros Hrerun.
    specialize (Hrerun eq_refl Hintime eq_refl Sample.report_v1 eq_refl).
    vm_compute in Hrerun. discriminate Hrerun.
Qed.

Lemma one_archive_per_job_replaced_on_rerun_witness :
  let w' := @run Sample.stored_codec
              [Request ("/run/" +:+ "contents");
               ThreadRuns "contents" (Sample.job 0 5 Sample.report_v2)]
              Sample.archived_world in
  fcontent <$> zips w' !! zip_name_of "contents"
  = Some (Zip (archive_of_folder (home Sample.archived_world) "contents" Sample.report_v2))
  /\ (forall e, In e (members (archive_of_folder (home Sample.archived_world) "contents"
                                 Sample.report_v2)) <->
        exists cs data, file_under Sample.report_v2 cs data /\
          e = {| arcname := "contents" :: cs; zdata := data |}).
Proof.
  apply (proj2 (@one_archive_per_job_replaced_on_rerun Sample.stored_codec)
           Sample.archived_world "contents" (Sample.job 0 5 Sample.report_v2)
           Sample.report_v2).
  - simpl. left. reflexivity.
  - reflexivity.
  - reflexivity.
  - simpl. lia.
  - reflexivity.
  - intros cs data _. reflexivity.
Defined.

(** A job that does not end in time: [Popen] starts its process, which is
    still running when [communicate] raises [TimeoutExpired], and is
    running no more when [subprocess.run] has raised it again. The thread
    prints that the script timed out and leaves the archive folder alone. *)
Example timed_out_job_example :
  let c := Sample.job 0 301 Sample.report_v1 in
  let args := ["python"; "D:\AutoViewScript\contents.py"] in
  let process := {| pindex := 0; pargs := args; pchild := c |} in
  let started := world_after (Popen args None c) Sample.base_world in
  Popen args None c Sample.base_world = (Return process, started)
  /\ alive started = [args]
  /\ result (communicate process 300) started = Raise (TimeoutExpired args 300)
  /\ alive (world_after (communicate process 300) started) = [args]
  /\ result (subprocess_run args None 300 c) Sample.base_world
     = Raise (TimeoutExpired args 300)
  /\ alive (world_after (subprocess_run args None 300 c) Sample.base_world) = []
  /\ str_exn (TimeoutExpired args 300)
     = "Command '['python', 'D:\\AutoViewScript\\contents.py']' timed out after 300 seconds"
  /\ console (world_after (@server_down.run_in_thread Sample.stored_codec "contents"
                             "D:\AutoViewScript\contents.py" c) Sample.base_world)
     = ["开始执行脚本: contents"; "脚本 contents 执行超时"].
Proof. vm_compute. repeat split. Qed.

(** Two runs of the [contents] job, the second leaving a single file: the
    archive after the second run holds that file alone. *)
Example rerun_replaces_the_archive :
  let two_runs := [Request "/run/contents";
                   ThreadRuns "contents" (Sample.job 0 5 Sample.report_v1);
                   Request "/run/contents";
                   ThreadRuns "contents" (Sample.job 0 5 Sample.report_v2)] in
  fcontent <$> zips (@run Sample.stored_codec two_runs Sample.base_world) !! "contents.zip"
  = Some (Zip {| zmethod := ZIP_DEFLATED;
                 members := [{| arcname := ["contents"; "summary.txt"];
                                zdata := [x07]%byte |}] |}).
Proof. vm_compute. reflexivity. Qed.

(** A download of the archive of [report_v1]. *)
Example download_example :
  wfile (@run Sample.stored_codec [Request "/download/contents.zip"] Sample.archived_world)
  = download_head "contents.zip" 50
    ++ [write_bytes (@bytes_of Sample.stored_codec
                       (Zip (archive_of_folder (home Sample.base_world) "contents" Sample.report_v1)))].
Proof. vm_compute. reflexivity. Qed.

(** The further properties at concrete worlds. *)

Lemma format_file_size_is_the_nearest_tenth_witness :
  exists (unit tenths : Z) (suffix : string),
    In (unit, suffix) [(1024, " KB"); (1024 * 1024, " MB"); (1024 * 1024 * 1024, " GB")]
    /\ unit <= 1536
    /\ (1536 < unit * 1024 \/ suffix = " GB")
    /\ down_zip._format_file_size 1536
       = (str_Z (tenths / 10) +:+ "." +:+ str_Z (tenths mod 10)) +:+ suffix
    /\ 2 * Z.abs (10 * 1536 - unit * tenths) <= unit.
Proof.
  apply (format_file_size_is_the_nearest_tenth 1536).
  split; [lia|reflexivity].
Defined.

Lemma format_file_size_just_below_a_megabyte_witness :
  down_zip._format_file_size 1048575 = "1024.0 KB".
Proof.
  apply (format_file_size_just_below_a_megabyte 1048575). lia.
Defined.

Lemma cleanup_keeps_recent_and_other_files_witness :
  zips (world_after (@down_zip.cleanup_old_files Sample.stored_codec 7) Sample.retention_world)
    !! "comments.zip"
  = Some (Sample.archive_made (99 * Sample.day_secs) false).
Proof.
  apply (@cleanup_keeps_recent_and_other_files Sample.stored_codec 7 Sample.retention_world
           "comments.zip" (Sample.archive_made (99 * Sample.day_secs) false)).
  - reflexivity.
  - right. vm_compute. discriminate.
Defined.

Lemma compress_folder_without_files_writes_an_empty_archive_witness :
  let w' := world_after (@down_zip.compress_folder Sample.stored_codec "contents")
                        Sample.empty_output_world in
  exists (size_text : string) (f : zfile),
    result (@down_zip.compress_folder Sample.stored_codec "contents") Sample.empty_output_world
    = Return (true,
              "成功压缩: " +:+ zip_name_of "contents" +:+ " (0个文件, " +:+ size_text +:+ ")",
              Some (os_path_join down_zip.zips_path (zip_name_of "contents")))
    /\ zips w' !! zip_name_of "contents" = Some f
    /\ fcontent f = Zip {| zmethod := ZIP_DEFLATED; members := [] |}.
Proof.
  apply (@compress_folder_without_files_writes_an_empty_archive Sample.stored_codec
           Sample.empty_output_world "contents" Sample.empty_output).
  - simpl. left. reflexivity.
  - reflexivity.
  - intros cs data Hunder.
    inversion Hunder as [es c d Hin|es c sub cs' d Hin Hsub]; subst; simpl in Hin.
    + destruct Hin as [Heq|[]]. discriminate Heq.
    + destruct Hin as [Heq|[]]. injection Heq as _ <-.
      inversion Hsub; subst; simpl in *; contradiction.
Defined.

Lemma compress_folder_reports_what_it_wrote_witness :
  let w' := world_after (@down_zip.compress_folder Sample.stored_codec "contents")
                        Sample.job_done_world in
  exists (message : string) (f : zfile) (a : archive),
    result (@down_zip.compress_folder Sample.stored_codec "contents") Sample.job_done_world
    = Return (true, message, Some (os_path_join down_zip.zips_path (zip_name_of "contents")))
    /\ zips w' !! zip_name_of "contents" = Some f
    /\ fcontent f = Zip a
    /\ message = "成功压缩: " +:+ zip_name_of "contents"
                 +:+ " (" +:+ str_Z (Z.of_nat (length (members a))) +:+ "个文件, "
                 +:+ down_zip._format_file_size
                       (Z.of_nat (length (@bytes_of Sample.stored_codec (fcontent f))))
                 +:+ ")"
    /\ console w'
       = console Sample.job_done_world
         ++ ["开始压缩文件夹: "
             +:+ render (home Sample.job_done_world)
                   (os_path_join down_zip.desktop_path "contents")
             +:+ " -> "
             +:+ render (home Sample.job_done_world)
                   (os_path_join down_zip.zips_path (zip_name_of "contents"));
             message].
Proof.
  apply (@compress_folder_reports_what_it_wrote Sample.stored_codec Sample.job_done_world
           "contents" Sample.report_v1).
  - simpl. left. reflexivity.
  - reflexivity.
  - intros cs data _. reflexivity.
Defined.

Lemma thread_without_the_virtual_environment_archives_nothing_witness :
  let c := Sample.job 0 5 Sample.report_v1 in
  let w' := world_after (@server_down.run_in_thread Sample.stored_codec "contents"
                           "D:\AutoViewScript\contents.py" c) Sample.no_venv_world in
  zips w' = zips Sample.no_venv_world
  /\ exists line, console w' = console Sample.no_venv_world ++ [line]
       /\ (spawn_error c = None -> duration c <= 300 ->
           line = "脚本 " +:+ "contents" +:+ " 执行完成"
           /\ desktop w' = writes c (desktop Sample.no_venv_world)).
Proof.
  apply (@thread_without_the_virtual_environment_archives_nothing Sample.stored_codec
           "contents" "D:\AutoViewScript\contents.py" (Sample.job 0 5 Sample.report_v1)
           Sample.no_venv_world).
  reflexivity.
Defined.

Lemma thread_console_of_a_completed_job_witness :
  let c := Sample.job 0 5 Sample.report_v1 in
  let w := Sample.refusing_world in
  let w' := world_after (@server_down.run_in_thread Sample.stored_codec "contents"
                           "D:\AutoViewScript\contents.py" c) w in
  let folder_path := os_path_join down_zip.desktop_path "contents" in
  exists message : string,
    console w' =
      console w
      ++ ["开始执行脚本: " +:+ "contents";
          "脚本 " +:+ "contents" +:+ " 执行完成";
          "输出: " +:+ child_stdout c;
          started_line w "contents";
          message;
          "压缩结果: " +:+ message]
      ++ (if String.eqb (child_stderr c) EmptyString then []
          else ["错误: " +:+ child_stderr c])
    /\ (accepted w "contents" Sample.report_v1 ->
        message = @success_message Sample.stored_codec w "contents" Sample.report_v1)
    /\ (~ accepted w "contents" Sample.report_v1 ->
        exists cs data why,
          file_under Sample.report_v1 cs data
          /\ faults w (below folder_path cs) = Some why
          /\ message = "压缩失败: " +:+ str_exn (refusal w (below folder_path cs) why)).
Proof.
  apply (@thread_console_of_a_completed_job Sample.stored_codec "contents"
           "D:\AutoViewScript\contents.py" (Sample.job 0 5 Sample.report_v1)
           Sample.refusing_world Sample.report_v1).
  - reflexivity.
  - simpl. left. reflexivity.
  - reflexivity.
  - simpl. lia.
  - reflexivity.
Defined.

Lemma only_the_last_segment_of_the_path_counts_witness :
  @server_down.do_GET Sample.stored_codec ("/run/" +:+ "x/y" +:+ "/" +:+ "contents")
  = server_down.run_script "contents"
  /\ @server_down.do_GET Sample.stored_codec ("/download/" +:+ "x/y" +:+ "/" +:+ "contents")
     = @server_down.download_file Sample.stored_codec "contents".
Proof.
  apply (@only_the_last_segment_of_the_path_counts Sample.stored_codec "x/y" "contents").
  reflexivity.
Defined.

Lemma every_trigger_starts_one_more_thread_witness :
  threads (@run Sample.stored_codec
             (replicate 2 (Request ("/run/" +:+ "contents"))) Sample.base_world)
  = threads Sample.base_world ++ replicate 2 "contents".
Proof.
  apply (@every_trigger_starts_one_more_thread Sample.stored_codec "contents" 2%nat
           Sample.base_world).
  - reflexivity.
  - exists "D:\AutoViewScript\contents.py". reflexivity.
Defined.

Lemma files_of_others_are_never_touched_witness :
  zips (@run Sample.stored_codec
          [Request "/cleanup"; Request "/run/contents";
           ThreadRuns "contents" (Sample.job 0 5 Sample.report_v1)]
          Sample.stray_world) !! "backup.zip"
  = zips Sample.stray_world !! "backup.zip".
Proof.
  apply (@files_of_others_are_never_touched Sample.stored_codec
           [Request "/cleanup"; Request "/run/contents";
            ThreadRuns "contents" (Sample.job 0 5 Sample.report_v1)]
           Sample.stray_world "backup.zip").
  simpl. intros [Heq|[Heq|[]]]; discriminate Heq.
Defined.

Lemma a_cleaned_archive_is_no_longer_served_witness :
  wfile (@run Sample.stored_codec
           [Request "/cleanup"; Request ("/download/" +:+ "contents.zip")]
           Sample.retention_world)
  = [send_error 404 (Some "File not found")].
Proof.
  apply (@a_cleaned_archive_is_no_longer_served Sample.stored_codec Sample.retention_world
           "contents.zip" (Sample.archive_made (90 * Sample.day_secs) false)).
  - simpl. left. reflexivity.
  - reflexivity.
  - vm_compute. reflexivity.
  - intros m g [<-|[<-|[]]] Hg; vm_compute in Hg; injection Hg as <-; reflexivity.
Defined.

Lemma what_is_downloaded_after_a_run_witness :
  let c := Sample.job 0 5 Sample.report_v1 in
  let sent := @zip_encode Sample.stored_codec
                (archive_of_folder (home Sample.base_world) "contents" Sample.report_v1) in
  wfile (@run Sample.stored_codec
           [Request ("/run/" +:+ "contents");
            ThreadRuns "contents" c;
            Request ("/download/" +:+ zip_name_of "contents")] Sample.base_world)
  = download_head (zip_name_of "contents") (Z.of_nat (length sent))
    ++ List.map write_bytes (read_chunks COPY_BUFSIZE sent).
Proof.
  apply (@what_is_downloaded_after_a_run Sample.stored_codec "contents"
           (Sample.job 0 5 Sample.report_v1) Sample.base_world Sample.report_v1).
  - reflexivity.
  - simpl. left. reflexivity.
  - reflexivity.
  - simpl. lia.
  - reflexivity.
  - intros cs data _. reflexivity.
  - intros Hdenied. discriminate Hdenied.
Defined.

Lemma a_thread_writes_only_its_own_archive_witness :
  zips (world_after (@server_down.run_in_thread Sample.stored_codec "contents"
                       "D:\AutoViewScript\contents.py" (Sample.job 0 5 Sample.report_v1))
                    Sample.retention_world) !! "comments.zip"
  = zips Sample.retention_world !! "comments.zip".
Proof.
  apply (@a_thread_writes_only_its_own_archive Sample.stored_codec "contents"
           "D:\AutoViewScript\contents.py" (Sample.job 0 5 Sample.report_v1)
           Sample.retention_world "comments.zip").
  - simpl. left. reflexivity.
  - vm_compute. discriminate.
Defined.

Lemma archive_members_have_distinct_names_witness :
  let w' := world_after (@down_zip.compress_folder Sample.stored_codec "contents")
                        Sample.job_done_world in
  exists (f : zfile) (a : archive),
    zips w' !! zip_name_of "contents" = Some f
    /\ fcontent f = Zip a
    /\ List.NoDup (List.map arcname (members a)).
Proof.
  apply (@archive_members_have_distinct_names Sample.stored_codec Sample.job_done_world
           "contents" Sample.report_v1).
  - simpl. left. reflexivity.
  - reflexivity.
  - reflexivity.
Defined.

Lemma status_and_cleanup_are_exact_paths_witness :
  world_after (@server_down.do_GET Sample.stored_codec ("/status" +:+ "?t=1"))
              Sample.retention_world
  = set_wfile (fun o => o ++ [send_error 404 None]) Sample.retention_world
  /\ world_after (@server_down.do_GET Sample.stored_codec ("/cleanup" +:+ "?t=1"))
                 Sample.retention_world
     = set_wfile (fun o => o ++ [send_error 404 None]) Sample.retention_world.
Proof.
  apply (@status_and_cleanup_are_exact_paths Sample.stored_codec "?t=1" Sample.retention_world).
  discriminate.
Defined.

Lemma job_failures_are_contained_witness :
  let c := Sample.job 0 5 Sample.report_v1 in
  let w := Sample.refusing_world in
  let w' := world_after (@server_down.run_in_thread Sample.stored_codec "contents"
                           "D:\AutoViewScript\contents.py" c) w in
  let folder_path := os_path_join down_zip.desktop_path "contents" in
  result (@server_down.run_in_thread Sample.stored_codec "contents"
            "D:\AutoViewScript\contents.py" c) w = Return tt
  /\ alive w' = alive w
  /\ exists cs data why f before rest,
       file_under Sample.report_v1 cs data
       /\ faults w (below folder_path cs) = Some why
       /\ zips w' !! zip_name_of "contents" = Some f
       /\ fcontent f = Zip {| zmethod := ZIP_DEFLATED; members := before |}
       /\ members (archive_of_folder (home w) "contents" Sample.report_v1)
          = before ++ {| arcname := "contents" :: cs; zdata := data |} :: rest
       /\ (forall k, k <> zip_name_of "contents" -> zips w' !! k = zips w !! k)
       /\ exists lines last,
            console w' = console w ++ lines
              ++ ["压缩失败: " +:+ str_exn (refusal w (below folder_path cs) why);
                  "压缩结果: 压缩失败: "
                  +:+ str_exn (refusal w (below folder_path cs) why)]
              ++ last.
Proof.
  pose proof (@job_failures_are_contained Sample.stored_codec "contents"
                "D:\AutoViewScript\contents.py" (Sample.job 0 5 Sample.report_v1)
                Sample.refusing_world) as Hcontained.
  cbv zeta in Hcontained.
  destruct Hcontained as (Hreturns & _ & _ & Halive & _ & _ & _ & Herror).
  split; [exact Hreturns|]. split; [exact Halive|].
  apply (Herror eq_refl ltac:(simpl; lia) eq_refl Sample.report_v1 eq_refl).
  exact refusing_world_refuses.
Defined.

Lemma compress_folder_succeeds_exactly_when_it_can_witness :
  let w := Sample.refusing_world in
  let w' := world_after (@down_zip.compress_folder Sample.stored_codec "contents") w in
  exists (success : bool) (message : string),
    result (@down_zip.compress_folder Sample.stored_codec "contents") w
    = Return (success, message, None)
    /\ success <> true
    /\ console w' = console w ++ [started_line w "contents"; message]
    /\ is_Some (zips w' !! zip_name_of "contents").
Proof.
  pose proof (@compress_folder_succeeds_exactly_when_it_can Sample.stored_codec "contents"
                Sample.refusing_world) as Hcases.
  cbv zeta in Hcases.
  destruct Hcases as (success & message & zip_path & Hresult & Hsuccess & _ & _ & _ & Hrefused & _).
  pose proof refusing_world_refuses as Hno.
  destruct (Hrefused (or_introl eq_refl) Sample.report_v1 eq_refl Hno)
    as (Hpath & _ & Hconsole & Hthere).
  exists success, message. rewrite Hresult, Hpath. split; [reflexivity|].
  split; [|split; [exact Hconsole|exact Hthere]].
  intros Htrue. apply Hsuccess in Htrue as (_ & tree & Htree & Hacc).
  injection Htree as <-. exact (Hno Hacc).
Defined.

